(** * RET-CLIP: the dual-encoder model and its weight-reconciliation utilities

    A shallow embedding of [RET_CLIP/clip/model.py].  Python exceptions are an
    error monad, state dicts are insertion-ordered association lists with
    string keys, a tensor is its shape together with the function from index
    tuples to elements, and float elements are reals, which stand for the
    framework's floating-point numbers.  A Python float that the code does
    arithmetic on itself (the mask ratio) is an IEEE 754 double with its
    rounding.  The layers that come from the tensor
    framework (convolution, layer normalisation, attention stacks, the text
    backbone, interpolation) are fields of the model records: the code under
    study is the glue around them. *)

From Stdlib Require Import List Arith Lia ZArith QArith Qround Reals Lra Bool.
From Stdlib Require Import Strings.String Strings.Ascii Numbers.DecimalString.
From Stdlib Require Import Sorting.Permutation.
From Stdlib Require Import Floats.SpecFloat.
Import ListNotations.

Local Open Scope string_scope.
Local Open Scope list_scope.
Local Open Scope nat_scope.

(** ** Python exceptions *)

Module Py.

Inductive exn : Type :=
| AttributeError (what : string)
| KeyError (key : string)
| ValueError (what : string)
| RuntimeError (what : string)
| AssertionError (what : string)
| TypeError (what : string)
| IndexError (what : string)
| OverflowError (what : string).

Inductive result (A : Type) : Type :=
| Ok (a : A)
| Raise (e : exn).

Arguments Ok {A} a.
Arguments Raise {A} e.

Definition bind {A B : Type} (m : result A) (k : A -> result B) : result B :=
  match m with
  | Ok a => k a
  | Raise e => Raise e
  end.

Definition is_ok {A : Type} (m : result A) : bool :=
  match m with Ok _ => true | Raise _ => false end.

Fixpoint mapM {A B : Type} (f : A -> result B) (l : list A) : result (list B) :=
  match l with
  | [] => Ok []
  | a :: l' =>
      bind (f a) (fun b => bind (mapM f l') (fun bs => Ok (b :: bs)))
  end.

End Py.

Import Py.

Notation "x <- m ;; k" := (Py.bind m (fun x => k))
  (at level 61, m at next level, right associativity).
Notation "' p <- m ;; k" := (Py.bind m (fun x => let p := x in k))
  (at level 61, p pattern, m at next level, right associativity).

(** ** Python floats

    IEEE 754 binary64 with round to nearest, ties to even: every operation
    gives the float nearest to the exact result. *)

Module PyFloat.

Definition t : Type := spec_float.

Definition prec : Z := 53.
Definition emax : Z := 1024.

Definition zero : t := S754_zero false.
Definition one : t := S754_finite false 4503599627370496 (-52).
Definition nan : t := S754_nan.

(** [a - b] and [a * b] *)
Definition sub : t -> t -> t := SFsub prec emax.
Definition mul : t -> t -> t := SFmul prec emax.

(** an int as an operand of float arithmetic: the nearest float; an int
    beyond the largest float raises *)
Definition of_int (i : Z) : result t :=
  match binary_normalize prec emax i 0 false with
  | S754_infinity _ => Raise (OverflowError "int too large to convert to float")
  | x => Ok x
  end.

(** [int(x)]: truncation towards zero; no int for an infinity or a NaN *)
Definition to_int (x : t) : result Z :=
  match x with
  | S754_zero _ => Ok 0%Z
  | S754_finite s m e => Ok (cond_Zopp s (Z.shiftl (Zpos m) e))
  | S754_infinity _ => Raise (OverflowError "cannot convert float infinity to integer")
  | S754_nan => Raise (ValueError "cannot convert float NaN to integer")
  end.

(** [x != 0]: true of every float but the two zeros, NaN included *)
Definition ne_zero (x : t) : bool :=
  match x with
  | S754_zero _ => false
  | _ => true
  end.

(** the rational a finite float stands for *)
Definition value (x : t) : Q :=
  match x with
  | S754_finite s m e => inject_Z (cond_Zopp s (Zpos m)) * Qpower 2 e
  | _ => 0
  end.

End PyFloat.

(** ** Python strings: the [str] methods the loaders use *)

Module Str.

(** [s.startswith(p)] *)
Definition startswith (s p : string) : bool := String.prefix p s.

(** [needle in s] *)
Fixpoint contains (needle s : string) : bool :=
  String.prefix needle s ||
  match s with
  | EmptyString => false
  | String _ s' => contains needle s'
  end.

Fixpoint drop (n : nat) (s : string) : string :=
  match n, s with
  | O, _ => s
  | S n', String _ s' => drop n' s'
  | S _, EmptyString => EmptyString
  end.

(** [s.replace(old, new)] for a non-empty [old]: every non-overlapping
    occurrence, leftmost first.  [skip] counts the characters of a match that
    are still to be passed over. *)
Fixpoint replace_from (old new : string) (skip : nat) (s : string) : string :=
  match s with
  | EmptyString => EmptyString
  | String c s' =>
      match skip with
      | S k => replace_from old new k s'
      | O =>
          if String.prefix old s
          then new ++ replace_from old new (String.length old - 1) s'
          else String c (replace_from old new 0 s')
      end
  end.

Definition replace (s old new : string) : string := replace_from old new 0 s.

(** [str(i)] for a non-negative integer, as an f-string renders it *)
Definition of_nat (i : nat) : string := NilEmpty.string_of_uint (Nat.to_uint i).

End Str.

(** ** Python dicts: insertion-ordered, keys unique *)

Module Dict.

Section WithValues.
Context {V : Type}.

Definition t : Type := list (string * V).

Definition keys (d : t) : list string := map fst d.

(** [d.get(k)] *)
Fixpoint get (k : string) (d : t) : option V :=
  match d with
  | [] => None
  | (k', v) :: d' => if String.eqb k k' then Some v else get k d'
  end.

(** [k in d] *)
Definition mem (k : string) (d : t) : bool :=
  match get k d with Some _ => true | None => false end.

(** [d[k] = v]: an existing key keeps its place, a new key goes last *)
Fixpoint set (k : string) (v : V) (d : t) : t :=
  match d with
  | [] => [(k, v)]
  | (k', v') :: d' =>
      if String.eqb k k' then (k', v) :: d' else (k', v') :: set k v d'
  end.

Fixpoint remove (k : string) (d : t) : t :=
  match d with
  | [] => []
  | (k', v') :: d' =>
      if String.eqb k k' then d' else (k', v') :: remove k d'
  end.

(** [d.pop(k)]: the value and the dict without the key, or [KeyError] *)
Definition pop (k : string) (d : t) : result (V * t) :=
  match get k d with
  | Some v => Ok (v, remove k d)
  | None => Raise (KeyError k)
  end.

(** a well-formed dict has no repeated key *)
Definition wf (d : t) : Prop := NoDup (keys d).

(** two dicts are equal as mappings ([==] on Python dicts ignores order) *)
Definition same (d1 d2 : t) : Prop := forall k, get k d1 = get k d2.

End WithValues.

Arguments t V : clear implicits.

End Dict.

(** ** Tensors of the array framework

    A tensor is a shape and an element for every index tuple; what lies
    outside the shape is never read.  Shape checks are the framework's: an
    operation whose operands do not fit raises. *)

Module Torch.

Record tensor (A : Type) : Type := mk { shape : list nat; elt : list nat -> A }.

Arguments mk {A} shape elt.
Arguments shape {A} t.
Arguments elt {A} t idx.

Definition rank {A} (x : tensor A) : nat := List.length (shape x).

Definition map_elt {A B} (f : A -> B) (x : tensor A) : tensor B :=
  mk (shape x) (fun idx => f (elt x idx)).

(** sum of [f k] for [k] in [range(n)] *)
Definition rsum (n : nat) (f : nat -> R) : R :=
  fold_right Rplus 0%R (map f (seq 0 n)).

(** equality of shapes; the tails are compared first *)
Fixpoint list_eqb (a b : list nat) : bool :=
  match a, b with
  | [], [] => true
  | x :: a', y :: b' => list_eqb a' b' && (x =? y)
  | _, _ => false
  end.

(** the list without its entry at position [i] *)
Fixpoint drop_nth {A} (i : nat) (l : list A) : list A :=
  match l, i with
  | [], _ => []
  | _ :: l', O => l'
  | a :: l', S i' => a :: drop_nth i' l'
  end.

Fixpoint set_nth {A} (i : nat) (a : A) (l : list A) : list A :=
  match l, i with
  | [], _ => []
  | _ :: l', O => a :: l'
  | b :: l', S i' => b :: set_nth i' a l'
  end.

(** *** Broadcasting of element-wise operations *)

Definition broadcast_dim (a b : nat) : result nat :=
  if a =? b then Ok a
  else if a =? 1 then Ok b
  else if b =? 1 then Ok a
  else Raise (RuntimeError "The size of tensor a must match the size of tensor b").

(** on reversed shapes: trailing dimensions are aligned *)
Fixpoint broadcast_rev (a b : list nat) : result (list nat) :=
  match a, b with
  | [], _ => Ok b
  | _, [] => Ok a
  | x :: a', y :: b' =>
      d <- broadcast_dim x y ;;
      r <- broadcast_rev a' b' ;;
      Ok (d :: r)
  end.

Definition broadcast_shapes (a b : list nat) : result (list nat) :=
  r <- broadcast_rev (rev a) (rev b) ;; Ok (rev r).

(** the index into an operand of shape [s] for the index [idx] of the result *)
Definition broadcast_index (s : list nat) (idx : list nat) : list nat :=
  map (fun '(d, i) => if d =? 1 then 0 else i)
      (combine s (skipn (List.length idx - List.length s) idx)).

Definition binop {A B C} (f : A -> B -> C) (a : tensor A) (b : tensor B)
  : result (tensor C) :=
  s <- broadcast_shapes (shape a) (shape b) ;;
  Ok (mk s (fun idx => f (elt a (broadcast_index (shape a) idx))
                         (elt b (broadcast_index (shape b) idx)))).

Definition add := binop Rplus.
Definition div := binop Rdiv.
Definition mul := binop Rmult.

Definition scalar (r : R) : tensor R := mk [] (fun _ => r).
Definition zeros (s : list nat) : tensor R := mk s (fun _ => 0%R).
Definition ones (s : list nat) : tensor nat := mk s (fun _ => 1).

(** *** Shape manipulation *)

(** [torch.cat((a, b), dim)]; a 1-D tensor of size 0 is skipped *)
Definition cat {A} (dim : nat) (a b : tensor A) : result (tensor A) :=
  if list_eqb (shape a) [0] then Ok b
  else if list_eqb (shape b) [0] then Ok a
  else if negb (rank a =? rank b) then
    Raise (RuntimeError "Tensors must have same number of dimensions")
  else if negb (dim <? rank a) then
    Raise (IndexError "Dimension out of range")
  else if negb (list_eqb (drop_nth dim (shape a)) (drop_nth dim (shape b))) then
    Raise (RuntimeError "Sizes of tensors must match except in the cat dimension")
  else
    let na := nth dim (shape a) 0 in
    Ok (mk (set_nth dim (na + nth dim (shape b) 0) (shape a))
           (fun idx =>
              let i := nth dim idx 0 in
              if i <? na then elt a idx else elt b (set_nth dim (i - na) idx))).

(** [x.permute(p0, p1, ...)] *)
Definition is_perm_of_range (perm : list nat) (n : nat) : bool :=
  (List.length perm =? n) && forallb (fun j => existsb (Nat.eqb j) perm) (seq 0 n).

Fixpoint index_of (j : nat) (l : list nat) : nat :=
  match l with
  | [] => 0
  | a :: l' => if a =? j then 0 else S (index_of j l')
  end.

Definition permute {A} (perm : list nat) (x : tensor A) : result (tensor A) :=
  if is_perm_of_range perm (rank x) then
    Ok (mk (map (fun p => nth p (shape x) 0) perm)
           (fun idx =>
              elt x (map (fun j => nth (index_of j perm) idx 0) (seq 0 (rank x)))))
  else Raise (RuntimeError "permute: dims do not match the tensor's rank").

(** [x.t()] of a matrix *)
Definition t {A} (x : tensor A) : result (tensor A) :=
  match shape x with
  | [_; _] => permute [1; 0] x
  | [] | [_] => Ok x
  | _ => Raise (RuntimeError "t() expects a tensor with <= 2 dimensions")
  end.

Definition numel (s : list nat) : nat := fold_right Nat.mul 1 s.

(** row-major position of an index, and back *)
Fixpoint ravel (s idx : list nat) : nat :=
  match s, idx with
  | _ :: s', i :: idx' => i * numel s' + ravel s' idx'
  | _, _ => 0
  end.

Fixpoint unravel (s : list nat) (n : nat) : list nat :=
  match s with
  | [] => []
  | _ :: s' => (n / numel s') :: unravel s' (n mod numel s')
  end.

(** [x.reshape(k0, k1, ..., -1)]: the last size is inferred *)
Definition reshape_infer {A} (known : list nat) (x : tensor A)
  : result (tensor A) :=
  let n := numel (shape x) in
  let m := numel known in
  if (m =? 0) || negb (n mod m =? 0) then
    Raise (RuntimeError "shape is invalid for input size")
  else
    let s := known ++ [n / m] in
    Ok (mk s (fun idx => elt x (unravel (shape x) (ravel s idx)))).

(** [x.reshape(s0, s1, ...)] with every size given *)
Definition reshape {A} (s : list nat) (x : tensor A) : result (tensor A) :=
  if numel s =? numel (shape x) then
    Ok (mk s (fun idx => elt x (unravel (shape x) (ravel s idx))))
  else Raise (RuntimeError "shape is invalid for input size").

(** [x[:, i, :]] of a rank-3 tensor *)
Definition select_mid {A} (i : nat) (x : tensor A) : result (tensor A) :=
  match shape x with
  | [n; l; d] =>
      if i <? l then
        Ok (mk [n; d]
              (fun idx => elt x [nth 0 idx 0; i; nth 1 idx 0]))
      else Raise (IndexError "index is out of bounds for dimension 1")
  | _ => Raise (IndexError "too many indices for tensor")
  end.

(** the stop of a slice [:k] on a dimension of size [n], as Python clamps it *)
Definition slice_stop (n : nat) (k : Z) : nat :=
  if (k <? 0)%Z then n - Z.to_nat (- k) else Nat.min n (Z.to_nat k).

(** [x[:, :k]] of a rank-2 tensor *)
Definition slice_cols {A} (k : Z) (x : tensor A) : result (tensor A) :=
  match shape x with
  | [n; m] => Ok (mk [n; slice_stop m k] (elt x))
  | _ => Raise (IndexError "too many indices for tensor")
  end.

(** [x[:k]] and [x[k:]] along dimension 0, for [k >= 0] *)
Definition slice_rows_to {A} (k : nat) (x : tensor A) : result (tensor A) :=
  match shape x with
  | n :: s => Ok (mk (Nat.min n k :: s) (elt x))
  | [] => Raise (IndexError "slice() cannot be applied to a 0-dim tensor")
  end.

Definition slice_rows_from {A} (k : nat) (x : tensor A) : result (tensor A) :=
  match shape x with
  | n :: s =>
      Ok (mk ((n - k) :: s)
             (fun idx => elt x (set_nth 0 (nth 0 idx 0 + Nat.min n k) idx)))
  | [] => Raise (IndexError "slice() cannot be applied to a 0-dim tensor")
  end.

(** [idx.unsqueeze(-1).repeat(1, 1, d)] of a rank-2 tensor *)
Definition unsqueeze_repeat_last {A} (d : nat) (x : tensor A)
  : result (tensor A) :=
  match shape x with
  | [n; k] => Ok (mk [n; k; d] (fun idx => elt x [nth 0 idx 0; nth 1 idx 0]))
  | _ => Raise (RuntimeError
           "Number of dimensions of repeat dims can not be smaller than number of dimensions of tensor")
  end.

(** every index tuple of a shape, in row-major order *)
Fixpoint all_indices (s : list nat) : list (list nat) :=
  match s with
  | [] => [[]]
  | n :: s' => flat_map (fun i => map (cons i) (all_indices s')) (seq 0 n)
  end.

(** [torch.gather(x, 1, index)] *)
Definition gather1 {A} (x : tensor A) (index : tensor nat) : result (tensor A) :=
  if negb (rank x =? rank index) then
    Raise (RuntimeError "Index tensor must have the same number of dimensions as input tensor")
  else if negb (forallb (fun '(a, b) => b <=? a)
                  (combine (drop_nth 1 (shape x)) (drop_nth 1 (shape index)))) then
    Raise (RuntimeError "Size does not match at dimension")
  else if negb (forallb (fun idx => elt index idx <? nth 1 (shape x) 0)
                  (all_indices (shape index))) then
    Raise (RuntimeError "index out of bounds")
  else
    Ok (mk (shape index) (fun idx => elt x (set_nth 1 (elt index idx) idx))).

(** *** Random numbers and sorting *)

(** The framework's global generator: a stream of uniform samples and the
    position of the next one.  Samples are only compared with one another,
    so they are rationals and sorting them computes. *)
Record generator : Type := mk_gen { samples : nat -> Q; cursor : nat }.

Definition nonneg_sizes (sizes : list Z) : result (list nat) :=
  mapM (fun z => if (z <? 0)%Z
                 then Raise (RuntimeError "Trying to create tensor with negative dimension")
                 else Ok (Z.to_nat z)) sizes.

(** [torch.rand(n0, n1, ...)] *)
Definition rand (g : generator) (sizes : list Z)
  : result (tensor Q * generator) :=
  s <- nonneg_sizes sizes ;;
  Ok (mk s (fun idx => samples g (cursor g + ravel s idx)),
      mk_gen (samples g) (cursor g + numel s)).

(** [torch.ones(n0, n1, ..., dtype=int)] *)
Definition ones_int (sizes : list Z) : result (tensor nat) :=
  s <- nonneg_sizes sizes ;; Ok (ones s).

Fixpoint insert_key (a : Q * nat) (l : list (Q * nat)) : list (Q * nat) :=
  match l with
  | [] => [a]
  | b :: l' => if Qle_bool (fst a) (fst b) then a :: l else b :: insert_key a l'
  end.

(** the positions of [keys] in ascending order of key (equal keys keep
    their order; the framework leaves the order of ties open) *)
Definition argsort_list (keys : list Q) : list nat :=
  map snd (fold_right insert_key [] (combine keys (seq 0 (List.length keys)))).

(** [torch.argsort(x, dim=1)] *)
Definition argsort1 (x : tensor Q) : result (tensor nat) :=
  if 1 <? rank x then
    Ok (mk (shape x)
           (fun idx =>
              nth (nth 1 idx 0)
                  (argsort_list
                     (map (fun j => elt x (set_nth 1 j idx))
                          (seq 0 (nth 1 (shape x) 0))))
                  0))
  else Raise (IndexError "Dimension out of range").

(** *** Linear algebra *)

(** [F.linear(x, w, b)]: [x @ w.T + b] over the last dimension of [x] *)
Definition linear (x w : tensor R) (b : option (tensor R)) : result (tensor R) :=
  match shape w, rev (shape x) with
  | [o; i], d :: rs =>
      if negb (d =? i) then
        Raise (RuntimeError "mat1 and mat2 shapes cannot be multiplied")
      else
        let y := fun idx =>
          rsum i (fun k => (elt x (removelast idx ++ [k])
                            * elt w [last idx O; k])%R) in
        match b with
        | None => Ok (mk (rev rs ++ [o]) y)
        | Some bv =>
            if list_eqb (shape bv) [o] then
              Ok (mk (rev rs ++ [o])
                     (fun idx => (y idx + elt bv [last idx O])%R))
            else Raise (RuntimeError "The expanded size of the bias must match the output size")
        end
  | _, _ => Raise (RuntimeError "linear: both arguments must be at least 1-D, the weight 2-D")
  end.

(** [x @ w] for a matrix [w] *)
Definition matmul (x w : tensor R) : result (tensor R) :=
  match shape w, rev (shape x) with
  | [i; o], d :: rs =>
      if negb (d =? i) then
        Raise (RuntimeError "mat1 and mat2 shapes cannot be multiplied")
      else
        Ok (mk (rev rs ++ [o])
               (fun idx =>
                  rsum i (fun k => (elt x (removelast idx ++ [k])
                                    * elt w [k; last idx O])%R)))
  | _, _ => Raise (RuntimeError "matmul: the right operand is taken to be a matrix")
  end.

(** a dimension given as a possibly negative Python int *)
Definition wrap_dim (r : nat) (dim : Z) : result nat :=
  let n := Z.of_nat (Nat.max r 1) in
  if ((- n <=? dim) && (dim <? n))%Z
  then Ok (Z.to_nat (if (dim <? 0)%Z then dim + n else dim))
  else Raise (IndexError "Dimension out of range").

(** [x.norm(dim=dim, keepdim=True)]: the L2 norm along one dimension *)
Definition norm (dim : Z) (x : tensor R) : result (tensor R) :=
  d <- wrap_dim (rank x) dim ;;
  Ok (mk (set_nth d 1 (shape x))
         (fun idx =>
            sqrt (rsum (nth d (shape x) 1)
                       (fun k => let v := elt x (set_nth d k idx) in (v * v)%R)))).

(** [x.exp()] *)
Definition exp (x : tensor R) : tensor R := map_elt Rtrigo_def.exp x.

(** [torch.chunk(x, chunks)] along dimension 0 *)
Definition chunk {A} (chunks : nat) (x : tensor A) : result (list (tensor A)) :=
  match shape x with
  | n :: s =>
      let c := (n + chunks - 1) / chunks in
      let piece k :=
        mk (Nat.min c (n - k * c) :: s)
           (fun idx => elt x (set_nth 0 (nth 0 idx 0 + k * c) idx)) in
      if c =? 0 then Ok (map piece (seq 0 chunks))
      else Ok (map piece (seq 0 ((n + c - 1) / c)))
  | [] => Raise (RuntimeError "chunk expects at least a 1-dimensional tensor")
  end.

End Torch.

Import Torch.

(** ** Values of the dynamically typed methods: a tensor or a tuple *)

#[warnings="-register-all"]
Inductive value : Type :=
| VTensor (x : tensor R)
| VTuple (vs : list value).

(** iterating a tensor yields its slices along dimension 0 *)
Definition tensor_items (x : tensor R) : result (list value) :=
  match shape x with
  | n :: s =>
      Ok (map (fun i => VTensor (mk s (fun idx => elt x (i :: idx)))) (seq 0 n))
  | [] => Raise (TypeError "iteration over a 0-d tensor")
  end.

(** [a, b, ... = v] with [n] targets *)
Definition unpack (n : nat) (v : value) : result (list value) :=
  items <- match v with
           | VTuple vs => Ok vs
           | VTensor x => tensor_items x
           end ;;
  if List.length items =? n then Ok items
  else Raise (ValueError "wrong number of values to unpack").

(** [v.norm(dim=dim, keepdim=True)] *)
Definition value_norm (dim : Z) (v : value) : result (tensor R) :=
  match v with
  | VTensor x => norm dim x
  | VTuple _ => Raise (AttributeError "'tuple' object has no attribute 'norm'")
  end.

(** [v / n] *)
Definition value_div (v : value) (n : tensor R) : result value :=
  match v with
  | VTensor x => y <- div x n ;; Ok (VTensor y)
  | VTuple _ => Raise (TypeError "unsupported operand type(s) for /: 'tuple' and 'Tensor'")
  end.

(** [v / v.norm(dim=dim, keepdim=True)] *)
Definition normalized (dim : Z) (v : value) : result value :=
  n <- value_norm dim v ;; value_div v n.

(** ** Layers *)

Definition module_fn : Type := tensor R -> result (tensor R).

(** [nn.ReLU] *)
Definition relu (x : tensor R) : tensor R := map_elt (Rmax 0) x.

(** [nn.Linear]: [in_features] and [out_features] are the weight's sizes *)
Record Linear : Type := mk_Linear { weight : tensor R; bias : option (tensor R) }.

Definition Linear_forward (l : Linear) (x : tensor R) : result (tensor R) :=
  linear x (weight l) (bias l).

(** the members of an [nn.Sequential] that this file builds *)
Inductive layer : Type :=
| LLinear (l : Linear)
| LReLU.

Definition layer_forward (l : layer) (x : tensor R) : result (tensor R) :=
  match l with
  | LLinear lin => Linear_forward lin x
  | LReLU => Ok (relu x)
  end.

Fixpoint Sequential_forward (ls : list layer) (x : tensor R) : result (tensor R) :=
  match ls with
  | [] => Ok x
  | l :: ls' => y <- layer_forward l x ;; Sequential_forward ls' y
  end.

(** a chain of framework modules applied in order *)
Fixpoint chain (fs : list module_fn) (x : tensor R) : result (tensor R) :=
  match fs with
  | [] => Ok x
  | f :: fs' => y <- f x ;; chain fs' y
  end.

(** [x.shape[i]] *)
Definition shape_at {A} (x : tensor A) (i : nat) : result nat :=
  match nth_error (shape x) i with
  | Some n => Ok n
  | None => Raise (IndexError "tuple index out of range")
  end.

(** [x.shape[-1]] *)
Definition shape_last {A} (x : tensor A) : result nat :=
  match rev (shape x) with
  | n :: _ => Ok n
  | [] => Raise (IndexError "tuple index out of range")
  end.

(** ** The convolutional image backbone *)

Module ModifiedResNet.

Record t : Type := mk_t {
  output_dim : nat;
  input_resolution : nat;
  conv1 : module_fn; bn1 : module_fn;
  conv2 : module_fn; bn2 : module_fn;
  conv3 : module_fn; bn3 : module_fn;
  avgpool : module_fn;
  layer1 : module_fn; layer2 : module_fn;
  layer3 : module_fn; layer4 : module_fn;
  attnpool : module_fn
}.

Fixpoint stem_loop (pairs : list (module_fn * module_fn)) (x : tensor R)
  : result (tensor R) :=
  match pairs with
  | [] => Ok x
  | (conv, bn) :: rest =>
      y <- conv x ;; z <- bn y ;; stem_loop rest (relu z)
  end.

Definition stem (self : t) (x : tensor R) : result (tensor R) :=
  x <- stem_loop [(conv1 self, bn1 self); (conv2 self, bn2 self);
                  (conv3 self, bn3 self)] x ;;
  avgpool self x.

Definition forward (self : t) (x : tensor R) : result (tensor R) :=
  x <- stem self x ;;
  x <- layer1 self x ;;
  x <- layer2 self x ;;
  x <- layer3 self x ;;
  x <- layer4 self x ;;
  attnpool self x.

End ModifiedResNet.

(** ** The patch-transformer image backbone *)

Module VisualTransformer.

Record t : Type := mk_t {
  input_resolution : nat;
  grid_size : nat * nat;
  output_dim : nat;
  conv1 : module_fn;
  class_embedding : tensor R;
  positional_embedding : tensor R;
  ln_pre : module_fn;
  resblocks : list module_fn;
  ln_post : module_fn;
  proj : option (tensor R)
}.

(** [Transformer.forward]: with or without checkpointing the blocks are
    applied in order *)
Definition transformer (self : t) (x : tensor R) : result (tensor R) :=
  chain (resblocks self) x.

(** [int((L - 1) * (1 - mask_ratio))]: the difference is a float, the int
    [L - 1] is converted for the product, and [int] truncates it *)
Definition len_keep (L : nat) (mask_ratio : PyFloat.t) : result Z :=
  let r := PyFloat.sub PyFloat.one mask_ratio in
  l <- PyFloat.of_int (Z.of_nat L - 1) ;;
  PyFloat.to_int (PyFloat.mul l r).

Definition random_masking {A} (g : generator) (x : tensor A)
  (mask_ratio : PyFloat.t) : result (tensor A * generator) :=
  match shape x with
  | [N; L; D] =>
      len_keep <- len_keep L mask_ratio ;;
      '(noise, g) <- rand g [Z.of_nat N; (Z.of_nat L - 1)%Z] ;;
      sorted <- argsort1 noise ;;
      one <- ones_int [Z.of_nat N; (Z.of_nat L - 1)%Z] ;;
      ids_shuffle <- binop Nat.add sorted one ;;
      ids_keep <- slice_cols len_keep ids_shuffle ;;
      index <- unsqueeze_repeat_last D ids_keep ;;
      x_masked <- gather1 x index ;;
      x0 <- select_mid 0 x ;;
      x0 <- reshape [N; 1; D] x0 ;;
      x_masked_add <- cat 1 x0 x_masked ;;
      Ok (x_masked_add, g)
  | _ => Raise (ValueError "wrong number of values to unpack")
  end.

Definition forward (self : t) (g : generator) (x : tensor R)
  (mask_ratio : PyFloat.t) (return_all_features : bool)
  : result (tensor R * generator) :=
  x <- conv1 self x ;;
  n <- shape_at x 0 ;;
  c <- shape_at x 1 ;;
  x <- reshape_infer [n; c] x ;;
  x <- permute [0; 2; 1] x ;;
  w <- shape_last x ;;
  cls <- add (class_embedding self) (zeros [n; 1; w]) ;;
  x <- cat 1 cls x ;;
  x <- add x (positional_embedding self) ;;
  '(x, g) <- (if PyFloat.ne_zero mask_ratio
              then random_masking g x mask_ratio
              else Ok (x, g)) ;;
  x <- ln_pre self x ;;
  x <- permute [1; 0; 2] x ;;
  x <- transformer self x ;;
  if return_all_features then
    x <- ln_post self x ;;
    x <- permute [1; 0; 2] x ;;
    Ok (x, g)
  else
    x <- permute [1; 0; 2] x ;;
    x <- select_mid 0 x ;;
    x <- ln_post self x ;;
    match proj self with
    | Some p => x <- matmul x p ;; Ok (x, g)
    | None => Ok (x, g)
    end.

End VisualTransformer.

(** ** The dual-encoder model *)

Module CLIP.

Inductive backbone : Type :=
| ResNet (rn : ModifiedResNet.t)
| ViT (vt : VisualTransformer.t).

Record t : Type := mk_t {
  visual : backbone;
  (** the tokenizer's [vocab] *)
  vocab : Dict.t Z;
  (** [BertModel.forward(text, attention_mask=...)]: a tuple of tensors *)
  bert : tensor Z -> tensor R -> result (list (tensor R));
  text_projection : list layer;
  text_projection_left : list layer;
  text_projection_right : list layer;
  logit_scale : tensor R;
  logit_scale_left : tensor R;
  logit_scale_right : tensor R;
  global_feature_mapping : Linear;
  left_feature_mapping : Linear;
  right_feature_mapping : Linear
}.

Definition embed_dim (self : t) : nat :=
  match visual self with
  | ResNet rn => ModifiedResNet.output_dim rn
  | ViT vt => VisualTransformer.output_dim vt
  end.

(** What [__init__] fixes about the heads: the sizes of the three image
    feature mappings (built without bias) and the make-up of the three text
    projections, for a text hidden size [h]. *)
Definition is_text_head (h e : nat) (ls : list layer) : Prop :=
  exists w1 b1 w2 b2,
    ls = [LLinear (mk_Linear w1 (Some b1)); LReLU; LLinear (mk_Linear w2 (Some b2))]
    /\ shape w1 = [h; h] /\ shape b1 = [h]
    /\ shape w2 = [e; h] /\ shape b2 = [e].

Definition initialised (h : nat) (self : t) : Prop :=
  let e := embed_dim self in
  shape (weight (global_feature_mapping self)) = [e; 2 * e]
  /\ bias (global_feature_mapping self) = None
  /\ shape (weight (left_feature_mapping self)) = [e; e]
  /\ bias (left_feature_mapping self) = None
  /\ shape (weight (right_feature_mapping self)) = [e; e]
  /\ bias (right_feature_mapping self) = None
  /\ is_text_head h e (text_projection self)
  /\ is_text_head h e (text_projection_left self)
  /\ is_text_head h e (text_projection_right self).

(** [nn.Linear(i, o)] and [nn.Linear(i, o, bias=False)] with the element
    values [w] and [b] *)
Definition new_Linear (i o : nat) (w b : list nat -> R) : Linear :=
  mk_Linear (mk [o; i] w) (Some (mk [o] b)).

Definition new_Linear_no_bias (i o : nat) (w : list nat -> R) : Linear :=
  mk_Linear (mk [o; i] w) None.

(** the element values of the four parameter tensors of a text head *)
Record head_values : Type := mk_head_values {
  fc1_weight : list nat -> R; fc1_bias : list nat -> R;
  fc2_weight : list nat -> R; fc2_bias : list nat -> R
}.

(** [nn.Sequential(nn.Linear(h, h), nn.ReLU(), nn.Linear(h, e))] *)
Definition new_text_head (h e : nat) (v : head_values) : list layer :=
  [LLinear (new_Linear h h (fc1_weight v) (fc1_bias v)); LReLU;
   LLinear (new_Linear h e (fc2_weight v) (fc2_bias v))].

(** [__init__], from the text projections on.  The two backbones and the
    tokenizer are built before and handed in; [embed_dim] is the
    [output_dim] the image backbone was built with and [text_hidden_size]
    the hidden size of the text backbone.  The element values are what the
    initialisers draw; training and loading change them, not the make-up. *)
Definition __init__ (visual : backbone) (vocab : Dict.t Z)
  (bert : tensor Z -> tensor R -> result (list (tensor R)))
  (text_hidden_size : nat)
  (projection projection_left projection_right : head_values)
  (global_mapping left_mapping right_mapping : list nat -> R) : t :=
  let embed_dim := match visual with
                   | ResNet rn => ModifiedResNet.output_dim rn
                   | ViT vt => VisualTransformer.output_dim vt
                   end in
  mk_t visual vocab bert
       (new_text_head text_hidden_size embed_dim projection)
       (new_text_head text_hidden_size embed_dim projection_left)
       (new_text_head text_hidden_size embed_dim projection_right)
       (scalar (1 * ln 90)) (scalar (1 * ln 90)) (scalar (1 * ln 90))
       (new_Linear_no_bias (2 * embed_dim) embed_dim global_mapping)
       (new_Linear_no_bias embed_dim embed_dim left_mapping)
       (new_Linear_no_bias embed_dim embed_dim right_mapping).

(** [x.type(self.dtype)]: a change of float format, nothing on the reals *)
Definition to_dtype (self : t) (x : tensor R) : tensor R := x.

(** [img.type(...)] on an image that may be [None] *)
Definition image_type (self : t) (img : option (tensor R)) : result (tensor R) :=
  match img with
  | Some x => Ok (to_dtype self x)
  | None => Raise (AttributeError "'NoneType' object has no attribute 'type'")
  end.

Definition one_side (self : t) (g : generator) (img : option (tensor R))
  (mask_ratio : PyFloat.t) : result (value * generator) :=
  match visual self with
  | ResNet rn =>
      x <- image_type self img ;;
      vision_feature <- ModifiedResNet.forward rn x ;;
      Ok (VTensor vision_feature, g)
  | ViT vt =>
      x <- image_type self img ;;
      '(vision_feature, g) <- VisualTransformer.forward vt g x mask_ratio true ;;
      Ok (VTensor vision_feature, g)
  end.

(** the default [mask_ratio=0] of the signature is the float zero where a
    caller leaves it out: the one test made on it is [!= 0] *)
Definition encode_image (self : t) (g : generator)
  (img_l img_r : option (tensor R)) (mask_ratio : PyFloat.t)
  (return_all_features : bool) : result (value * generator) :=
  match img_r, img_l with
  | None, _ => one_side self g img_l mask_ratio
  | Some _, None => one_side self g img_r mask_ratio
  | Some _, Some _ =>
      match visual self with
      | ResNet rn =>
          xl <- image_type self img_l ;;
          left_feature <- ModifiedResNet.forward rn xl ;;
          xr <- image_type self img_r ;;
          right_feature <- ModifiedResNet.forward rn xr ;;
          vision_feature <- cat 1 left_feature right_feature ;;
          _ <- Linear_forward (global_feature_mapping self) vision_feature ;;
          Raise (AttributeError "'CLIP' object has no attribute 'single_feature_mapping'")
      | ViT vt =>
          xl <- image_type self img_l ;;
          '(left_feature, g) <- VisualTransformer.forward vt g xl mask_ratio true ;;
          xr <- image_type self img_r ;;
          '(right_feature, g) <- VisualTransformer.forward vt g xr mask_ratio true ;;
          vision_feature <- cat 1 left_feature right_feature ;;
          glob <- Linear_forward (global_feature_mapping self) vision_feature ;;
          left <- Linear_forward (left_feature_mapping self) left_feature ;;
          right <- Linear_forward (right_feature_mapping self) right_feature ;;
          Ok (VTuple [VTensor glob; VTensor left; VTensor right], g)
      end
  end.

(** [text.ne(pad_index).type(self.dtype)] *)
Definition ne_pad (pad_index : Z) (text : tensor Z) : tensor R :=
  map_elt (fun tok => if (tok =? pad_index)%Z then 0%R else 1%R) text.

Definition encode_text (self : t) (text : option (tensor Z)) : result value :=
  pad_index <- match Dict.get "[PAD]" (vocab self) with
               | Some i => Ok i
               | None => Raise (KeyError "[PAD]")
               end ;;
  text <- match text with
          | Some tk => Ok tk
          | None => Raise (AttributeError "'NoneType' object has no attribute 'ne'")
          end ;;
  let attn_mask := ne_pad pad_index text in
  outs <- bert self text attn_mask ;;
  x <- match outs with
       | x :: _ => Ok (to_dtype self x)
       | [] => Raise (IndexError "tuple index out of range")
       end ;;
  cls <- select_mid 0 x ;;
  text <- Sequential_forward (text_projection self) cls ;;
  cls <- select_mid 0 x ;;
  text_left <- Sequential_forward (text_projection_left self) cls ;;
  cls <- select_mid 0 x ;;
  text_right <- Sequential_forward (text_projection_right self) cls ;;
  Ok (VTuple [VTensor text; VTensor text_left; VTensor text_right]).

Definition is_none {A} (o : option A) : bool :=
  match o with None => true | Some _ => false end.

Definition forward (self : t) (g : generator)
  (img_l img_r : option (tensor R)) (text : option (tensor Z))
  (mask_ratio : PyFloat.t) : result (value * generator) :=
  if is_none img_l && is_none img_r && is_none text then
    Raise (AssertionError "text and images cannot all be None!")
  else if is_none img_l && is_none img_r then
    v <- encode_text self text ;; Ok (v, g)
  else if is_none text && is_none img_r then
    encode_image self g img_l None PyFloat.zero false
  else if is_none text && is_none img_l then
    encode_image self g None img_r PyFloat.zero false
  else if is_none text then
    encode_image self g img_l img_r PyFloat.zero false
  else if is_none img_l || is_none img_r then
    Raise (AssertionError "both images is required!")
  else
    '(imgs, g) <- encode_image self g img_l img_r mask_ratio false ;;
    imgs <- unpack 3 imgs ;;
    let image_features := nth 0 imgs (VTuple []) in
    let left_features := nth 1 imgs (VTuple []) in
    let right_features := nth 2 imgs (VTuple []) in
    txts <- encode_text self text ;;
    txts <- unpack 3 txts ;;
    let text_features := nth 0 txts (VTuple []) in
    let text_features_left := nth 1 txts (VTuple []) in
    let text_features_right := nth 2 txts (VTuple []) in
    image_features <- normalized (-1) image_features ;;
    left_features <- normalized (-1) left_features ;;
    right_features <- normalized (-1) right_features ;;
    text_features <- normalized (-1) text_features ;;
    text_features_left <- normalized (-1) text_features_left ;;
    text_features_right <- normalized (-1) text_features_right ;;
    Ok (VTuple [image_features; text_features; text_features_left;
                text_features_right; left_features; right_features;
                VTensor (exp (logit_scale self));
                VTensor (exp (logit_scale_left self));
                VTensor (exp (logit_scale_right self))], g).

(** [scale * a @ b]: the product with the scalar comes first *)
Definition scaled_matmul (scale : tensor R) (a : value) (b : tensor R)
  : result (tensor R) :=
  match a with
  | VTensor x => y <- mul scale x ;; matmul y b
  | VTuple _ => Raise (TypeError "unsupported operand type(s) for *: 'Tensor' and 'tuple'")
  end.

(** [v.t()] *)
Definition value_t (v : value) : result (tensor R) :=
  match v with
  | VTensor x => Torch.t x
  | VTuple _ => Raise (AttributeError "'tuple' object has no attribute 't'")
  end.

Definition get_similarity (self : t) (g : generator)
  (img_l img_r : option (tensor R)) (text : option (tensor Z))
  : result (value * generator) :=
  '(imgs, g) <- encode_image self g img_l img_r PyFloat.zero false ;;
  imgs <- unpack 2 imgs ;;
  let image_features := nth 0 imgs (VTuple []) in
  text_features <- encode_text self text ;;
  image_features <- normalized 1 image_features ;;
  text_features <- normalized 1 text_features ;;
  let logit_scale := exp (logit_scale self) in
  text_t <- value_t text_features ;;
  logits_per_image <- scaled_matmul logit_scale image_features text_t ;;
  logits_per_text <- Torch.t logits_per_image ;;
  Ok (VTuple [VTensor logits_per_image; VTensor logits_per_text], g).

End CLIP.

(** ** Parameters as the weight utilities see them *)

Inductive dtype : Type := float16 | float32 | float64.

(** a tensor together with the float format it is stored in *)
Record dtensor : Type := mk_dtensor { dt : dtype; values : tensor R }.

(** [nn.Parameter]: [p.data] and [p.grad] *)
Record Param : Type := mk_Param { data : dtensor; grad : option dtensor }.

(** What the loading utilities use of an [nn.Module]: its named parameters,
    [visual.grid_size] where the backbone has one, whether it is wrapped
    (has a [module] attribute), and the training flag. *)
Record Module_ : Type := mk_Module {
  named_parameters : Dict.t Param;
  visual_grid_size : option (list nat);
  training : bool
}.

(** a model as it is handed to the utilities: bare, or inside a wrapper that
    holds it in its [module] attribute *)
Inductive model_ref : Type :=
| Bare (m : Module_)
| Wrapped (m : Module_).

(** [model.module if hasattr(model, 'module') else model] *)
Definition unwrap (model : model_ref) : Module_ :=
  match model with Bare m => m | Wrapped m => m end.

Definition rewrap (model : model_ref) (m : Module_) : model_ref :=
  match model with Bare _ => Bare m | Wrapped _ => Wrapped m end.

(** [_ntuple(n)(x)]: an iterable is returned as it is, anything else is
    repeated [n] times *)
Inductive int_or_tuple : Type :=
| AnInt (i : nat)
| ATuple (l : list nat).

Definition to_ntuple (n : nat) (x : int_or_tuple) : list nat :=
  match x with
  | ATuple l => l
  | AnInt i => repeat i n
  end.

Definition to_2tuple := to_ntuple 2.

(** [t[i]] on a tuple *)
Definition tuple_at (l : list nat) (i : nat) : result nat :=
  match nth_error l i with
  | Some n => Ok n
  | None => Raise (IndexError "tuple index out of range")
  end.

Section WeightUtilities.

(** rounding of a real to a float format, done by the framework *)
Variable round_to : dtype -> R -> R.

(** [F.interpolate(x, size=size, mode=mode, align_corners=True)] *)
Variable interpolate : tensor R -> list nat -> string -> result (tensor R).

(** [x.half()] and [x.float()] *)
Definition half (x : dtensor) : dtensor :=
  mk_dtensor float16 (map_elt (round_to float16) (values x)).

Definition float (x : dtensor) : dtensor :=
  mk_dtensor float32 (map_elt (round_to float32) (values x)).

(** the truth value of [p.grad] in an [if]: [None] is false, a tensor of one
    element is true when that element is not zero, any other tensor raises *)
Definition truth (o : option dtensor) : result bool :=
  match o with
  | None => Ok false
  | Some x =>
      if numel (shape (values x)) =? 1 then
        Ok (if Req_dec_T (elt (values x) (repeat 0 (rank (values x)))) 0
            then false else true)
      else if numel (shape (values x)) =? 0 then
        Raise (RuntimeError "Boolean value of Tensor with no values is ambiguous")
      else Raise (RuntimeError "Boolean value of Tensor with more than one value is ambiguous")
  end.

Definition param_to_fp32 (p : Param) : result Param :=
  let d := float (data p) in
  b <- truth (grad p) ;;
  if b then Ok (mk_Param d (option_map float (grad p)))
  else Ok (mk_Param d (grad p)).

(** [for p in model.parameters(): ...]: the parameters keep their names *)
Definition for_parameters (f : Param -> result Param) (model : model_ref)
  : result model_ref :=
  let m := unwrap model in
  ps <- mapM (fun '(name, p) => q <- f p ;; Ok (name, q))
             (named_parameters m) ;;
  Ok (rewrap model (mk_Module ps (visual_grid_size m) (training m))).

Definition convert_models_to_fp32 (model : model_ref) : result model_ref :=
  for_parameters param_to_fp32 model.

Definition param_to_fp16 (param : Param) : result Param :=
  let d := half (data param) in
  b <- truth (grad param) ;;
  if b then Ok (mk_Param d (option_map float (grad param)))
  else Ok (mk_Param d (grad param)).

Definition convert_weights (model : model_ref) : result model_ref :=
  for_parameters param_to_fp16 model.

(** *** Attention layouts of a state dict *)

Definition state_dict : Type := Dict.t (tensor R).

(** [sd[new] = sd.pop(old)] *)
Definition move_key (old new : string) (sd : state_dict) : result state_dict :=
  '(v, sd) <- Dict.pop old sd ;; Ok (Dict.set new v sd).

(** the two renaming loops over [list(state_dict.keys())] *)
Fixpoint rename_keys (a_old a_new b_old b_new : string) (ks : list string)
  (sd : state_dict) : result state_dict :=
  match ks with
  | [] => Ok sd
  | k :: ks' =>
      sd <- (if Str.contains a_old k then
               move_key k (Str.replace k a_old a_new) sd
             else if Str.contains b_old k then
               move_key k (Str.replace k b_old b_new) sd
             else Ok sd) ;;
      rename_keys a_old a_new b_old b_new ks' sd
  end.

(** [f'{prefix}bert.encoder.layer.{i}.attention.{rest}'] *)
Definition bert_key (prefix : string) (i : nat) (rest : string) : string :=
  prefix ++ "bert.encoder.layer." ++ Str.of_nat i ++ ".attention." ++ rest.

(** [torch.cat((q, k, v))] *)
Definition cat3 (q k v : tensor R) : result (tensor R) :=
  qk <- cat 0 q k ;; cat 0 qk v.

(** [a, b, c = torch.chunk(x, chunks=3)] *)
Definition chunk3 (x : tensor R) : result (tensor R * tensor R * tensor R) :=
  cs <- chunk 3 x ;;
  match cs with
  | [a; b; c] => Ok (a, b, c)
  | _ => Raise (ValueError "wrong number of values to unpack")
  end.

(** one pass of the body of the separate-to-fused [while] loop *)
Definition fuse_layer (prefix : string) (i : nat) (sd : state_dict)
  : result state_dict :=
  '(q, sd) <- Dict.pop (bert_key prefix i "self.query.weight") sd ;;
  '(k, sd) <- Dict.pop (bert_key prefix i "self.key.weight") sd ;;
  '(v, sd) <- Dict.pop (bert_key prefix i "self.value.weight") sd ;;
  w <- cat3 q k v ;;
  let sd := Dict.set (bert_key prefix i "self.Wqkv.weight") w sd in
  '(q, sd) <- Dict.pop (bert_key prefix i "self.query.bias") sd ;;
  '(k, sd) <- Dict.pop (bert_key prefix i "self.key.bias") sd ;;
  '(v, sd) <- Dict.pop (bert_key prefix i "self.value.bias") sd ;;
  b <- cat3 q k v ;;
  let sd := Dict.set (bert_key prefix i "self.Wqkv.bias") b sd in
  sd <- move_key (bert_key prefix i "output.dense.weight")
                 (bert_key prefix i "self.out_proj.weight") sd ;;
  move_key (bert_key prefix i "output.dense.bias")
           (bert_key prefix i "self.out_proj.bias") sd.

(** one pass of the body of the fused-to-separate [while] loop; the last
    [pop] spells the prefix out as ['module.'] *)
Definition split_layer (prefix : string) (i : nat) (sd : state_dict)
  : result state_dict :=
  '(w, sd) <- Dict.pop (bert_key prefix i "self.Wqkv.weight") sd ;;
  '(q, k, v) <- chunk3 w ;;
  let sd := Dict.set (bert_key prefix i "self.query.weight") q sd in
  let sd := Dict.set (bert_key prefix i "self.key.weight") k sd in
  let sd := Dict.set (bert_key prefix i "self.value.weight") v sd in
  '(b, sd) <- Dict.pop (bert_key prefix i "self.Wqkv.bias") sd ;;
  '(q, k, v) <- chunk3 b ;;
  let sd := Dict.set (bert_key prefix i "self.query.bias") q sd in
  let sd := Dict.set (bert_key prefix i "self.key.bias") k sd in
  let sd := Dict.set (bert_key prefix i "self.value.bias") v sd in
  sd <- move_key (bert_key prefix i "self.out_proj.weight")
                 (bert_key prefix i "output.dense.weight") sd ;;
  move_key (bert_key "module." i "self.out_proj.bias")
           (bert_key prefix i "output.dense.bias") sd.

(** [while probe(i) in sd: sd = body(i, sd); i += 1].  Every pass removes the
    probed key for good, so the loop ends within [length sd] passes; [fuel]
    is that bound. *)
Fixpoint while_layers (probe : nat -> string)
  (body : nat -> state_dict -> result state_dict)
  (fuel i : nat) (sd : state_dict) : result state_dict :=
  if Dict.mem (probe i) sd then
    match fuel with
    | O => Raise (RuntimeError "loop bound exceeded")
    | S fuel' => sd <- body i sd ;; while_layers probe body fuel' (S i) sd
    end
  else Ok sd.

Definition convert_state_dict (sd : state_dict) : result state_dict :=
  match sd with
  | [] => Ok sd
  | (k0, _) :: _ =>
      let prefix := if Str.startswith k0 "module" then "module." else "" in
      sd <-
        (if Dict.mem (prefix ++ "visual.transformer.resblocks.0.attn.in_proj_weight") sd
         then rename_keys "attn.in_proj_weight" "attn.Wqkv.weight"
                          "attn.in_proj_bias" "attn.Wqkv.bias" (Dict.keys sd) sd
         else if Dict.mem (prefix ++ "visual.transformer.resblocks.0.attn.Wqkv.weight") sd
         then rename_keys "attn.Wqkv.weight" "attn.in_proj_weight"
                          "attn.Wqkv.bias" "attn.in_proj_bias" (Dict.keys sd) sd
         else Ok sd) ;;
      if Dict.mem (bert_key prefix 0 "self.query.weight") sd then
        while_layers (fun i => bert_key prefix i "self.query.weight")
                     (fuse_layer prefix) (List.length sd) 0 sd
      else if Dict.mem (bert_key prefix 0 "self.Wqkv.weight") sd then
        while_layers (fun i => bert_key prefix i "self.Wqkv.weight")
                     (split_layer prefix) (List.length sd) 0 sd
      else Ok sd
  end.

(** *** Resizing the positional embedding *)

(** [x[0]] *)
Definition first_row {A} (x : tensor A) : result (tensor A) :=
  match shape x with
  | n :: s =>
      if 0 <? n then Ok (mk s (fun idx => elt x (0 :: idx)))
      else Raise (IndexError "index 0 is out of bounds for dimension 0 with size 0")
  | [] => Raise (IndexError "invalid index of a 0-dim tensor")
  end.

Definition resize_pos_embed (sd : state_dict) (model : model_ref)
  (interpolation : string) (prefix : string) : result state_dict :=
  let old_pos_embed := Dict.get (prefix ++ "visual.positional_embedding") sd in
  let model := unwrap model in
  match old_pos_embed, visual_grid_size model with
  | None, _ => Ok sd
  | Some _, None => Ok sd
  | Some old_pos_embed, Some gs =>
      let grid_size := to_2tuple (ATuple gs) in
      let extra_tokens := 1 in
      g0 <- tuple_at grid_size 0 ;;
      g1 <- tuple_at grid_size 1 ;;
      let new_seq_len := g0 * g1 + extra_tokens in
      n <- shape_at old_pos_embed 0 ;;
      if new_seq_len =? n then Ok sd
      else
        pos_emb_tok <- slice_rows_to extra_tokens old_pos_embed ;;
        pos_emb_img <- slice_rows_from extra_tokens old_pos_embed ;;
        len <- shape_at pos_emb_img 0 ;;
        let old_grid_size := to_2tuple (AnInt (Nat.sqrt len)) in
        o0 <- tuple_at old_grid_size 0 ;;
        o1 <- tuple_at old_grid_size 1 ;;
        x <- reshape_infer [1; o0; o1] pos_emb_img ;;
        x <- permute [0; 3; 1; 2] x ;;
        x <- interpolate x grid_size interpolation ;;
        x <- permute [0; 2; 3; 1] x ;;
        x <- reshape_infer [1; g0 * g1] x ;;
        pos_emb_img <- first_row x ;;
        new_pos_embed <- cat 0 pos_emb_tok pos_emb_img ;;
        Ok (Dict.set (prefix ++ "visual.positional_embedding") new_pos_embed sd)
  end.

(** *** Merging two checkpoints into one model *)

(** the first loop of [restore_model], over [clip_state_dict.items()] *)
Definition keep_clip (merged : state_dict) (kv : string * tensor R) : state_dict :=
  let '(k, v) := kv in
  if Str.startswith k "visual" || String.eqb k "logit_scale"
  then Dict.set k v merged else merged.

(** the second loop, over [bert_state_dict.items()] *)
Definition keep_bert (merged : state_dict) (kv : string * tensor R) : state_dict :=
  let '(k, v) := kv in
  if Str.startswith k "bert" && negb (Str.contains "bert.pooler" k)
  then Dict.set k v merged else merged.

(** [merged_state_dict] as the two loops leave it *)
Definition merged_state_dict (clip_state_dict bert_state_dict : option state_dict)
  : state_dict :=
  let merged := [] in
  let merged := match clip_state_dict with
                | Some d => fold_left keep_clip d merged
                | None => merged
                end in
  match bert_state_dict with
  | Some d => fold_left keep_bert d merged
  | None => merged
  end.

(** the prefix of the parameter names in the state dict of the object
    [load_state_dict] is called on: a wrapper holds the model as its
    submodule [module] *)
Definition state_prefix (model : model_ref) : string :=
  match model with
  | Bare _ => ""
  | Wrapped _ => "module."
  end.

(** the tensor a parameter is loaded from: a 1-dim tensor stored for a 0-dim
    parameter stands for its first element *)
Definition input_param (p : Param) (v : tensor R) : result (tensor R) :=
  if (rank (values (data p)) =? 0) && (rank v =? 1) then first_row v
  else Ok v.

(** one parameter of [model.load_state_dict(sd, strict=False)]: a parameter
    whose key is in [sd] takes the stored value in its own float format; a
    shape that differs is noted ([true]) and the parameter left as it is; a
    parameter whose key is missing is let through *)
Definition load_param (prefix : string) (sd : state_dict)
  (entry : string * Param) : result (string * Param * bool) :=
  let '(name, p) := entry in
  match Dict.get (prefix ++ name) sd with
  | None => Ok (name, p, false)
  | Some v =>
      v <- input_param p v ;;
      if list_eqb (shape v) (shape (values (data p))) then
        Ok (name,
            mk_Param (mk_dtensor (dt (data p))
                                 (map_elt (round_to (dt (data p))) v))
                     (grad p),
            false)
      else Ok (name, p, true)
  end.

(** the noted size mismatches are raised together, once every parameter has
    been gone through *)
Definition load_state_dict (model : model_ref) (sd : state_dict)
  : result model_ref :=
  let m := unwrap model in
  ps <- mapM (load_param (state_prefix model) sd) (named_parameters m) ;;
  if existsb snd ps then
    Raise (RuntimeError "Error(s) in loading state_dict: size mismatch")
  else
    Ok (rewrap model (mk_Module (map fst ps) (visual_grid_size m) (training m))).

(** [model.eval()] *)
Definition eval (model : model_ref) : model_ref :=
  let m := unwrap model in
  rewrap model (mk_Module (named_parameters m) (visual_grid_size m) false).

Definition restore_model (model : model_ref)
  (clip_state_dict bert_state_dict : option state_dict)
  (use_flash_attention : bool) : result model_ref :=
  let merged := merged_state_dict clip_state_dict bert_state_dict in
  merged <- (if use_flash_attention then convert_state_dict merged
             else Ok merged) ;;
  model <- convert_weights model ;;
  merged <- resize_pos_embed merged model "bicubic" "" ;;
  model <- load_state_dict model merged ;;
  Ok (eval model).

End WeightUtilities.

(** * Vocabulary of the statements, and small instances *)

(** the entries of a state dict argument that may be [None] *)
Definition items_of (o : option state_dict) : state_dict :=
  match o with Some d => d | None => [] end.

(** two small checkpoints: a vision one and a text one *)
Definition clip_ckpt : state_dict :=
  [("visual.conv1.weight", scalar 1); ("logit_scale", scalar 2);
   ("bert.embeddings.weight", scalar 3); ("text_projection", scalar 4)].

Definition bert_ckpt : state_dict :=
  [("bert.embeddings.weight", scalar 5); ("bert.pooler.dense.weight", scalar 6);
   ("cls.predictions.bias", scalar 7)].

(** a checkpoint trained on a 2 x 2 grid, and a model that expects 2 x 2 *)
Definition pos_ckpt : state_dict :=
  [("visual.positional_embedding", mk [5; 3] (fun idx => INR (ravel [5; 3] idx)));
   ("visual.proj", mk [3; 2] (fun _ => 1%R))].

Definition grid_2x2_model : model_ref :=
  Bare (mk_Module [] (Some [2; 2]) true).

(** a model whose only parameter is a scalar with a gradient of one *)
Definition scale_param : Param :=
  mk_Param (mk_dtensor float32 (scalar 1)) (Some (mk_dtensor float32 (scalar 1))).

Definition one_param_model : model_ref :=
  Bare (mk_Module [("logit_scale", scale_param)] None true).

(** the reals need no rounding *)
Definition no_rounding : dtype -> R -> R := fun _ x => x.

(** a weight with a gradient of several elements: the truth test of the
    gradient raises *)
Definition weight_param : Param :=
  mk_Param (mk_dtensor float32 (mk [2] (fun _ => 1%R)))
           (Some (mk_dtensor float32 (mk [2] (fun _ => 1%R)))).

(** a 2 x 2 weight and a bias whose elements count up from [base] *)
Definition demo_weight (base : nat) : tensor R :=
  mk [2; 2] (fun idx => INR (base + ravel [2; 2] idx)).

Definition demo_bias (base : nat) : tensor R :=
  mk [2] (fun idx => INR (base + ravel [2] idx)).

(** one text layer of hidden size 2 in the separate layout, its keys
    starting with [prefix] *)
Definition separate_layer (prefix : string) : state_dict :=
  [(bert_key prefix 0 "self.query.weight", demo_weight 10);
   (bert_key prefix 0 "self.query.bias", demo_bias 20);
   (bert_key prefix 0 "self.key.weight", demo_weight 30);
   (bert_key prefix 0 "self.key.bias", demo_bias 40);
   (bert_key prefix 0 "self.value.weight", demo_weight 50);
   (bert_key prefix 0 "self.value.bias", demo_bias 60);
   (bert_key prefix 0 "output.dense.weight", demo_weight 70);
   (bert_key prefix 0 "output.dense.bias", demo_bias 80)].

(** the keys of a returned state dict *)
Definition keys_of (r : result state_dict) : result (list string) :=
  sd <- r ;; Ok (Dict.keys sd).

(** two state dicts hold tensors of one shape and the same elements under
    key [k] *)
Definition same_entry (sd1 sd2 : state_dict) (k : string) : Prop :=
  match Dict.get k sd1, Dict.get k sd2 with
  | Some x, Some y =>
      shape x = shape y
      /\ Forall (fun idx => elt x idx = elt y idx) (all_indices (shape x))
  | _, _ => False
  end.

(** ** A small model

    A patch transformer on 4 x 4 images with 2 x 2 patches, width 1 and
    embedding dimension 1, whose framework layers pass an input of width 1
    on ([checked 1]); the text side has hidden size 1. *)

Definition pass : module_fn := fun x => Ok x.

(** a layer built for width [w], as [LayerNorm(w)] is: it passes a tensor
    whose last size is [w] on and raises on any other *)
Definition checked (w : nat) : module_fn := fun x =>
  d <- shape_last x ;;
  if d =? w then Ok x
  else Raise (RuntimeError "Given normalized_shape, expected input with that last size").

(** a patchifying convolution: [(N, 3, 4, 4)] to [(N, 1, 2, 2)], the
    top-left pixel of every patch in channel 0 *)
Definition toy_conv1 : module_fn := fun x =>
  n <- shape_at x 0 ;;
  Ok (mk [n; 1; 2; 2]
         (fun idx => elt x [nth 0 idx 0; 0; 2 * nth 2 idx 0; 2 * nth 3 idx 0])).

Definition toy_vit : VisualTransformer.t :=
  VisualTransformer.mk_t 4 (2, 2) 1 toy_conv1
    (mk [1] (fun _ => 1%R))
    (mk [5; 1] (fun idx => INR (nth 0 idx 0)))
    (checked 1) [checked 1; checked 1] (checked 1)
    (Some (mk [1; 1] (fun _ => 1%R))).

Definition toy_linear (o i : nat) : Linear :=
  mk_Linear (mk [o; i] (fun _ => 1%R)) (Some (mk [o] (fun _ => 0%R))).

Definition toy_head : list layer :=
  [LLinear (toy_linear 1 1); LReLU; LLinear (toy_linear 1 1)].

(** a text backbone that returns the token ids as hidden states of size 1 *)
Definition toy_bert (text : tensor Z) (attention_mask : tensor R)
  : result (list (tensor R)) :=
  Ok [mk (shape text ++ [1]) (fun idx => IZR (elt text (removelast idx)))].

Definition toy_clip : CLIP.t :=
  CLIP.mk_t (CLIP.ViT toy_vit) [("[PAD]", 0%Z)] toy_bert
    toy_head toy_head toy_head
    (scalar 0) (scalar 0) (scalar 0)
    (mk_Linear (mk [1; 2] (fun _ => 1%R)) None)
    (mk_Linear (mk [1; 1] (fun _ => 1%R)) None)
    (mk_Linear (mk [1; 1] (fun _ => 1%R)) None).

(** one 4 x 4 image with three channels, and one text of two tokens *)
Definition toy_image : tensor R :=
  mk [1; 3; 4; 4] (fun idx => INR (ravel [1; 3; 4; 4] idx)).

Definition toy_text : tensor Z :=
  mk [1; 2] (fun idx => (Z.of_nat (nth 1 idx O) + 1)%Z).

Definition toy_gen : generator :=
  mk_gen (fun n => inject_Z (Z.of_nat ((n * 7) mod 5))) 0.

(** the shape of a returned tensor, for looking at results *)
Definition returned_shape (r : result (value * generator)) : option (list nat) :=
  match r with
  | Ok (VTensor x, _) => Some (shape x)
  | _ => None
  end.

(** the raised exception, if any *)
Definition raised {A} (r : result A) : option exn :=
  match r with Raise e => Some e | Ok _ => None end.

(** the floats 0.5 and 1.5, and the floats nearest to 0.2 and 0.8 *)
Definition float_0_5 : PyFloat.t := S754_finite false 4503599627370496 (-53).
Definition float_1_5 : PyFloat.t := S754_finite false 6755399441055744 (-52).
Definition float_0_2 : PyFloat.t := S754_finite false 7205759403792794 (-55).
Definition float_0_8 : PyFloat.t := S754_finite false 7205759403792794 (-53).

(** the length [floor((L - 1) * (1 - q)) + 1] that exact arithmetic gives
    for [L] tokens and a ratio [q] *)
Definition floor_length (L : nat) (q : Q) : nat :=
  Z.to_nat (Qfloor (inject_Z (Z.of_nat L - 1) * (1 - q))%Q) + 1.

(** the number of tokens [random_masking] returns for [L] tokens when
    [len_keep] is [k]: the class token and the slice [:k] of the other
    [L - 1] positions *)
Definition masked_length (L : nat) (k : Z) : nat := slice_stop (L - 1) k + 1.

(** the patch positions kept in batch row [n]: the first [k] positions of
    the sorted noise row, moved past the class token *)
Definition kept_ids (noise : tensor Q) (m k n : nat) : list nat :=
  map S (firstn k (argsort_list (map (fun j => elt noise [n; j]) (seq 0 m)))).

(** [a * u + v], element by element, for two tensors of one shape *)
Definition axpy (a : R) (u v : tensor R) : tensor R :=
  mk (shape u) (fun idx => (a * elt u idx + elt v idx)%R).

(** a map on tensors is linear: it sends [a * u + v] to [a * f u + f v] *)
Definition linear_map (f : tensor R -> result (tensor R)) : Prop :=
  forall (a : R) (u v yu yv ys : tensor R),
    shape u = shape v ->
    f u = Ok yu -> f v = Ok yv -> f (axpy a u v) = Ok ys ->
    forall idx, elt ys idx = (a * elt yu idx + elt yv idx)%R.

(** [y] is what a two-layer perceptron with the parameters [v] gives on the
    rows of [u]: a Linear layer of [h] outputs, ReLU, a Linear layer of [e]
    outputs, each Linear with its bias *)
Definition perceptron_of (h e : nat) (v : CLIP.head_values) (u y : tensor R)
  : Prop :=
  exists y1,
    Linear_forward (CLIP.new_Linear h h (CLIP.fc1_weight v) (CLIP.fc1_bias v)) u
    = Ok y1
    /\ Linear_forward (CLIP.new_Linear h e (CLIP.fc2_weight v) (CLIP.fc2_bias v))
                      (relu y1)
       = Ok y.

(** a model as [__init__] builds it around the small backbones, with the
    same head values three times *)
Definition unit_head : CLIP.head_values :=
  CLIP.mk_head_values (fun _ => 1%R) (fun _ => 0%R) (fun _ => 1%R) (fun _ => 0%R).

Definition built_clip : CLIP.t :=
  CLIP.__init__ (CLIP.ViT toy_vit) [("[PAD]", 0%Z)] toy_bert 1
    unit_head unit_head unit_head
    (fun _ => 1%R) (fun _ => 1%R) (fun _ => 1%R).

(** the hidden state [r] of a batch of one, hidden size 1 *)
Definition hidden (r : R) : tensor R := mk [1; 1] (fun _ => r).

(** a framework layer keeps the shape [s]: given a tensor of this shape it
    returns one of this shape.  Nothing is asked of it on other shapes, where
    a layer built for one width raises. *)
Definition keeps_shape (s : list nat) (f : module_fn) : Prop :=
  forall x, shape x = s -> exists y, f x = Ok y /\ shape y = s.

(** the number of tokens the transformer sees for [L] tokens before masking:
    all of them when the mask ratio is zero, else what [random_masking]
    leaves *)
Definition tokens_after_masking (L : nat) (mask_ratio : PyFloat.t)
  : result nat :=
  if PyFloat.ne_zero mask_ratio then
    k <- VisualTransformer.len_keep L mask_ratio ;; Ok (masked_length L k)
  else Ok L.

(** * More of the model: blocks of the two backbones *)

(** [QuickGELU.forward]: [x * sigmoid(1.702 * x)] *)
Definition sigmoid (z : R) : R := (1 / (1 + Rtrigo_def.exp (- z)))%R.

Definition QuickGELU_forward (x : tensor R) : tensor R :=
  map_elt (fun v => (v * sigmoid (1702 / 1000 * v))%R) x.

(** [x.transpose(1, 0)] *)
Definition transpose_1_0 {A} (x : tensor A) : result (tensor A) :=
  if 2 <=? rank x then permute (1 :: 0 :: seq 2 (rank x - 2)) x
  else Raise (IndexError "Dimension out of range").

(** [outs[0]] on the tuple a framework module returns *)
Definition first_output (outs : list (tensor R)) : result (tensor R) :=
  match outs with
  | o :: _ => Ok o
  | [] => Raise (IndexError "tuple index out of range")
  end.

Module ResidualAttentionBlock.

(** [self.attn]: [nn.MultiheadAttention], called with query, key, value and
    the mask, or [FlashMHA], called with the batch-first input alone *)
Inductive attn_module : Type :=
| MultiheadAttention
    (call : tensor R -> tensor R -> tensor R -> option (tensor R)
            -> result (list (tensor R)))
| FlashMHA (call : tensor R -> result (list (tensor R))).

Record t : Type := mk_t {
  attn : attn_module;
  ln_1 : module_fn;
  c_fc : Linear;
  c_proj : Linear;
  ln_2 : module_fn;
  attn_mask : option (tensor R);
  use_flash_attention : bool
}.

(** [self.mlp]: [c_fc], [QuickGELU], [c_proj] in sequence *)
Definition mlp (self : t) (x : tensor R) : result (tensor R) :=
  y <- Linear_forward (c_fc self) x ;;
  Linear_forward (c_proj self) (QuickGELU_forward y).

Definition attention (self : t) (x : tensor R) : result (tensor R) :=
  if use_flash_attention self then
    xt <- transpose_1_0 x ;;
    outs <- match attn self with
            | FlashMHA call => call xt
            | MultiheadAttention _ =>
                Raise (TypeError "forward() missing required positional arguments")
            end ;;
    o <- first_output outs ;;
    transpose_1_0 o
  else
    outs <- match attn self with
            | MultiheadAttention call => call x x x (attn_mask self)
            | FlashMHA _ =>
                Raise (TypeError "forward() got an unexpected keyword argument")
            end ;;
    first_output outs.

Definition forward (self : t) (x : tensor R) : result (tensor R) :=
  h <- ln_1 self x ;;
  a <- attention self h ;;
  x <- add x a ;;
  h <- ln_2 self x ;;
  m <- mlp self h ;;
  add x m.

End ResidualAttentionBlock.

(** [out += identity]: the sum has to have the shape of [out] *)
Definition add_in_place (out identity : tensor R) : result (tensor R) :=
  s <- broadcast_shapes (shape out) (shape identity) ;;
  if list_eqb s (shape out) then add out identity
  else Raise (RuntimeError "output with this shape doesn't match the broadcast shape").

Module Bottleneck.

Record t : Type := mk_t {
  conv1 : module_fn; bn1 : module_fn;
  conv2 : module_fn; bn2 : module_fn;
  avgpool : module_fn;
  conv3 : module_fn; bn3 : module_fn;
  downsample : option module_fn
}.

Definition forward (self : t) (x : tensor R) : result (tensor R) :=
  let identity := x in
  out <- conv1 self x ;;
  out <- bn1 self out ;;
  let out := relu out in
  out <- conv2 self out ;;
  out <- bn2 self out ;;
  let out := relu out in
  out <- avgpool self out ;;
  out <- conv3 self out ;;
  out <- bn3 self out ;;
  identity <- match downsample self with
              | Some f => f x
              | None => Ok identity
              end ;;
  out <- add_in_place out identity ;;
  Ok (relu out).

End Bottleneck.

(** [x.mean(dim=0, keepdim=True)] *)
Definition mean_dim0_keepdim (x : tensor R) : result (tensor R) :=
  match shape x with
  | n :: s =>
      Ok (mk (1 :: s)
             (fun idx => (rsum n (fun i => elt x (set_nth 0 i idx)) / INR n)%R))
  | [] => Raise (IndexError "Dimension out of range")
  end.

(** [p[:, None, :]]: a new dimension of size 1 in second place *)
Definition unsqueeze_mid {A} (p : tensor A) : result (tensor A) :=
  match shape p with
  | n :: e :: s => Ok (mk (n :: 1 :: e :: s) (fun idx => elt p (drop_nth 1 idx)))
  | _ => Raise (IndexError "too many indices for tensor")
  end.

Module AttentionPool2d.

(** what [forward] hands to [F.multi_head_attention_forward] besides the flags
    it fixes *)
Record mha_arguments : Type := mk_args {
  query : tensor R;
  num_heads_arg : nat;
  q_proj_weight : tensor R;
  k_proj_weight : tensor R;
  v_proj_weight : tensor R;
  in_proj_bias : tensor R;
  out_proj_weight : tensor R;
  out_proj_bias : option (tensor R);
  training_arg : bool
}.

Record t : Type := mk_t {
  positional_embedding : tensor R;
  k_proj : Linear;
  q_proj : Linear;
  v_proj : Linear;
  c_proj : Linear;
  num_heads : nat;
  training : bool;
  (** [F.multi_head_attention_forward]: the output and, unless
      [need_weights] is off, the weights *)
  multi_head_attention_forward :
    mha_arguments -> result (tensor R * option (tensor R))
}.

(** the bias of a [Linear] inside [torch.cat] *)
Definition bias_tensor (l : Linear) : result (tensor R) :=
  match bias l with
  | Some bv => Ok bv
  | None => Raise (TypeError "expected Tensor as element of sequence, but got NoneType")
  end.

Definition forward (self : t) (x : tensor R) : result (tensor R) :=
  s0 <- shape_at x 0 ;;
  s1 <- shape_at x 1 ;;
  s2 <- shape_at x 2 ;;
  s3 <- shape_at x 3 ;;
  x <- reshape [s0; s1; s2 * s3] x ;;
  x <- permute [2; 0; 1] x ;;
  m <- mean_dim0_keepdim x ;;
  x <- cat 0 m x ;;
  pos <- unsqueeze_mid (positional_embedding self) ;;
  x <- add x pos ;;
  bq <- bias_tensor (q_proj self) ;;
  bk <- bias_tensor (k_proj self) ;;
  bv <- bias_tensor (v_proj self) ;;
  in_bias <- cat3 bq bk bv ;;
  '(x, _) <- multi_head_attention_forward self
                (mk_args x (num_heads self)
                         (weight (q_proj self)) (weight (k_proj self))
                         (weight (v_proj self)) in_bias
                         (weight (c_proj self)) (bias (c_proj self))
                         (training self)) ;;
  first_row x.

End AttentionPool2d.

(** an interpolation stand-in that only produces the requested grid *)
Definition toy_interpolate (x : tensor R) (size : list nat) (mode : string)
  : result (tensor R) :=
  Ok (mk [nth 0 (shape x) 0; nth 1 (shape x) 0; nth 0 size 0; nth 1 size 0]
         (fun _ => 0%R)).

Definition grid_3x3_model : model_ref :=
  Bare (mk_Module [] (Some [3; 3]) true).

(** the parameters of a model, every one without a gradient *)
Definition no_gradients (model : model_ref) : Prop :=
  Forall (fun np : string * Param => grad (snd np) = None)
         (named_parameters (unwrap model)).

(** a model of two parameters without gradients, on a 2 x 2 grid *)
Definition fresh_model : model_ref :=
  Wrapped (mk_Module
             [("visual.positional_embedding",
               mk_Param (mk_dtensor float32 (mk [5; 3] (fun _ => 0%R))) None);
              ("logit_scale", mk_Param (mk_dtensor float32 (scalar 1)) None)]
             (Some [2; 2]) true).




(** the small transformer with a table for a 3 x 3 grid *)
Definition toy_vit_3x3_table : VisualTransformer.t :=
  VisualTransformer.mk_t 4 (2, 2) 1 toy_conv1
    (mk [1] (fun _ => 1%R))
    (mk [10; 1] (fun idx => INR (nth 0 idx 0)))
    (checked 1) [checked 1; checked 1] (checked 1)
    (Some (mk [1; 1] (fun _ => 1%R))).

(** a block as [__init__] builds it for width [d]: the attention module goes
    with the flag, the MLP widens to [4 * d] and narrows back *)
Definition block_built (d : nat) (self : ResidualAttentionBlock.t) : Prop :=
  (match ResidualAttentionBlock.attn self with
   | ResidualAttentionBlock.FlashMHA _ =>
       ResidualAttentionBlock.use_flash_attention self = true
   | ResidualAttentionBlock.MultiheadAttention _ =>
       ResidualAttentionBlock.use_flash_attention self = false
   end)
  /\ exists b1 b2,
       shape (weight (ResidualAttentionBlock.c_fc self)) = [d * 4; d]
       /\ bias (ResidualAttentionBlock.c_fc self) = Some b1
       /\ shape b1 = [d * 4]
       /\ shape (weight (ResidualAttentionBlock.c_proj self)) = [d; d * 4]
       /\ bias (ResidualAttentionBlock.c_proj self) = Some b2
       /\ shape b2 = [d].

(** the attention of a block built for width [d], on a sequence of [L]
    positions and a batch of [N]: self-attention on a tensor of shape
    [(L, N, d)] (batch first, [(N, L, d)], for the fused module) returns,
    first in its tuple, a tensor of that shape.  Nothing is asked of it on
    other shapes. *)
Definition attention_keeps_shape (L N d : nat)
  (self : ResidualAttentionBlock.t) : Prop :=
  match ResidualAttentionBlock.attn self with
  | ResidualAttentionBlock.MultiheadAttention call =>
      forall x, shape x = [L; N; d] ->
        exists o rest,
          call x x x (ResidualAttentionBlock.attn_mask self) = Ok (o :: rest)
          /\ shape o = [L; N; d]
  | ResidualAttentionBlock.FlashMHA call =>
      forall x, shape x = [N; L; d] ->
        exists o rest, call x = Ok (o :: rest) /\ shape o = [N; L; d]
  end.

(** a block of width 1 whose attention returns its query and whose layers
    raise on another width *)
Definition toy_block (flash : bool) : ResidualAttentionBlock.t :=
  ResidualAttentionBlock.mk_t
    (if flash then
       ResidualAttentionBlock.FlashMHA
         (fun x => y <- checked 1 x ;; Ok [y])
     else
       ResidualAttentionBlock.MultiheadAttention
         (fun q _ _ _ => y <- checked 1 q ;; Ok [y; y]))
    (checked 1) (toy_linear 4 1) (toy_linear 1 4) (checked 1) None flash.

(** a bottleneck whose layers pass their input on *)
Definition toy_bottleneck : Bottleneck.t :=
  Bottleneck.mk_t pass pass pass pass pass pass pass None.

(** the mean of the [n] positions of channel [c] of image [b] of a feature
    map whose rows are [w] wide *)
Definition mean_position (x : tensor R) (w n b c : nat) : R :=
  (rsum n (fun i => elt x [b; c; (i / w)%nat; (i mod w)%nat]) / INR n)%R.


(** attention pooling on a 2 x 2 map of one channel; the attention stand-in
    returns the first channel of its query *)
Definition toy_attnpool (rows : nat) : AttentionPool2d.t :=
  AttentionPool2d.mk_t (mk [rows; 1] (fun _ => 0%R))
    (toy_linear 1 1) (toy_linear 1 1) (toy_linear 1 1) (toy_linear 1 1)
    1 false
    (fun args =>
       let q := AttentionPool2d.query args in
       Ok (mk [nth 0 (shape q) 0; nth 1 (shape q) 0; 1]
              (fun idx => elt q [nth 0 idx 0; nth 1 idx 0; 0]), None)).

Definition toy_feature_map : tensor R :=
  mk [3; 1; 2; 2] (fun idx => INR (ravel [3; 1; 2; 2] idx)).

(** * Properties *)

(** ** The error monad *)

Lemma bind_ok_inv {A B} (m : result A) (k : A -> result B) (b : B) :
  (x <- m ;; k x) = Ok b -> exists a, m = Ok a /\ k a = Ok b.
Proof.
  destruct m as [a|e]; simpl; intros H; [exists a; auto | discriminate].
Qed.

Lemma is_ok_false_bind {A B} (m : result A) (k : A -> result B) :
  (forall a, m = Ok a -> is_ok (k a) = false) ->
  is_ok (x <- m ;; k x) = false.
Proof.
  destruct m as [a|e]; simpl; intros H; [apply H; reflexivity | reflexivity].
Qed.

Lemma is_ok_true_inv {A} (m : result A) : is_ok m = true -> exists a, m = Ok a.
Proof. destruct m as [a|e]; simpl; intros H; [eauto | discriminate]. Qed.

(** ** Dicts *)

Section DictFacts.
Context {V : Type}.
Implicit Types (d : Dict.t V) (k : string) (v : V).

Lemma get_set_same k v d : Dict.get k (Dict.set k v d) = Some v.
Proof.
  induction d as [|[k' v'] d IH]; simpl.
  - now rewrite String.eqb_refl.
  - destruct (String.eqb k k') eqn:E; simpl; rewrite E; auto.
Qed.

Lemma get_set_other k k' v d :
  k <> k' -> Dict.get k (Dict.set k' v d) = Dict.get k d.
Proof.
  intros Hne. induction d as [|[k2 v2] d IH]; simpl.
  - destruct (String.eqb k k') eqn:E; auto.
    apply String.eqb_eq in E. contradiction.
  - destruct (String.eqb k' k2) eqn:E; simpl.
    + apply String.eqb_eq in E. subst k2.
      destruct (String.eqb k k') eqn:E2; auto.
      apply String.eqb_eq in E2. contradiction.
    + destruct (String.eqb k k2); auto.
Qed.

Lemma get_not_in k d : ~ In k (Dict.keys d) -> Dict.get k d = None.
Proof.
  induction d as [|[k' v'] d IH]; simpl; auto.
  intros H. destruct (String.eqb k k') eqn:E.
  - apply String.eqb_eq in E. subst. tauto.
  - apply IH. tauto.
Qed.

(** a loop [for k, v in d.items(): if keep(k): merged[k] = v] *)
Lemma get_fold_keep (keep : string -> bool) d :
  Dict.wf d ->
  forall (merged : Dict.t V) k,
    Dict.get k
      (fold_left (fun m (kv : string * V) =>
                    if keep (fst kv) then Dict.set (fst kv) (snd kv) m else m)
                 d merged)
    = if keep k then
        match Dict.get k d with
        | Some v => Some v
        | None => Dict.get k merged
        end
      else Dict.get k merged.
Proof.
  unfold Dict.wf.
  induction d as [|[k1 v1] d IH]; simpl; intros Hnd merged k.
  - destruct (keep k); reflexivity.
  - inversion Hnd as [|? ? Hnotin Hnd']; subst.
    rewrite (IH Hnd').
    destruct (String.eqb k k1) eqn:E.
    + apply String.eqb_eq in E. subst k1.
      rewrite (get_not_in k d Hnotin).
      destruct (keep k); [apply get_set_same | reflexivity].
    + assert (k <> k1) by (intros ->; rewrite String.eqb_refl in E; discriminate).
      destruct (keep k1); [rewrite get_set_other by assumption|]; reflexivity.
Qed.

End DictFacts.

(** ** Key prefixes *)

Lemma prefix_head a p c k :
  String.prefix (String a p) (String c k) = true -> a = c.
Proof.
  cbn [String.prefix]. destruct (Ascii.ascii_dec a c); [auto | discriminate].
Qed.

Lemma visual_not_bert k :
  Str.startswith k "visual" || String.eqb k "logit_scale" = true ->
  Str.startswith k "bert" = false.
Proof.
  unfold Str.startswith. intros H.
  apply orb_true_iff in H. destruct H as [H|H].
  - destruct k as [|c k]; [reflexivity|].
    apply prefix_head in H. subst c.
    cbn [String.prefix]. destruct (Ascii.ascii_dec "b" "v"); [discriminate|reflexivity].
  - apply String.eqb_eq in H. subst k. reflexivity.
Qed.

Lemma fold_left_ext {A B} (f g : A -> B -> A) (l : list B) (a : A) :
  (forall a b, f a b = g a b) -> fold_left f l a = fold_left g l a.
Proof.
  intros H. revert a. induction l as [|b l IH]; simpl; intros a; auto.
  rewrite H. apply IH.
Qed.

Lemma merged_state_dict_fold clip bert :
  merged_state_dict clip bert
  = fold_left keep_bert (items_of bert) (fold_left keep_clip (items_of clip) []).
Proof. destruct clip, bert; reflexivity. Qed.

(** C5: the mapping merged by [restore_model] holds a key exactly when it
    comes from [clip_state_dict] and starts with "visual" or is "logit_scale",
    or comes from [bert_state_dict], starts with "bert" and does not contain
    "bert.pooler"; a kept key has the value of its source dict and every
    other key is absent. *)
Theorem merged_state_dict_keeps (clip bert : option state_dict) :
  Dict.wf (items_of clip) -> Dict.wf (items_of bert) ->
  forall k,
    Dict.get k (merged_state_dict clip bert)
    = if Str.startswith k "visual" || String.eqb k "logit_scale"
      then Dict.get k (items_of clip)
      else if Str.startswith k "bert" && negb (Str.contains "bert.pooler" k)
      then Dict.get k (items_of bert)
      else None.
Proof.
  intros Hc Hb k. rewrite merged_state_dict_fold.
  pose (kb := fun k => Str.startswith k "bert"
                       && negb (Str.contains "bert.pooler" k)).
  pose (kc := fun k => Str.startswith k "visual" || String.eqb k "logit_scale").
  rewrite (fold_left_ext keep_bert
             (fun m kv => if kb (fst kv) then Dict.set (fst kv) (snd kv) m else m))
    by (intros a [k' v']; reflexivity).
  rewrite (get_fold_keep kb _ Hb).
  rewrite (fold_left_ext keep_clip
             (fun m kv => if kc (fst kv) then Dict.set (fst kv) (snd kv) m else m))
    by (intros a [k' v']; reflexivity).
  rewrite (get_fold_keep kc _ Hc). simpl. subst kb kc. cbv beta.
  destruct (Str.startswith k "visual" || String.eqb k "logit_scale") eqn:Ev.
  - rewrite (visual_not_bert k Ev). simpl.
    destruct (Dict.get k (items_of clip)); reflexivity.
  - destruct (Str.startswith k "bert" && negb (Str.contains "bert.pooler" k));
      [destruct (Dict.get k (items_of bert))|]; reflexivity.
Qed.

Lemma merged_state_dict_keeps_witness :
  Dict.get "bert.embeddings.weight"
    (merged_state_dict (Some clip_ckpt) (Some bert_ckpt))
  = Some (scalar 5)
  /\ Dict.get "bert.pooler.dense.weight"
       (merged_state_dict (Some clip_ckpt) (Some bert_ckpt)) = None.
Proof.
  assert (Hc : Dict.wf (items_of (Some clip_ckpt))).
  { unfold Dict.wf. simpl. repeat constructor; simpl; intuition discriminate. }
  assert (Hb : Dict.wf (items_of (Some bert_ckpt))).
  { unfold Dict.wf. simpl. repeat constructor; simpl; intuition discriminate. }
  split.
  - rewrite (merged_state_dict_keeps (Some clip_ckpt) (Some bert_ckpt) Hc Hb).
    reflexivity.
  - rewrite (merged_state_dict_keeps (Some clip_ckpt) (Some bert_ckpt) Hc Hb).
    reflexivity.
Defined.

(** ** Positional-embedding resize *)

(** C9: when the stored positional-embedding table already has
    [grid_size[0] * grid_size[1] + 1] rows, [resize_pos_embed] returns the
    state dict as it received it: the table and every other entry are
    untouched. *)
Theorem resize_pos_embed_same_grid
  (interpolate : tensor R -> list nat -> string -> result (tensor R))
  (sd : state_dict) (model : model_ref) (interpolation prefix : string)
  (old_pos_embed : tensor R) (g0 g1 : nat) :
  Dict.get (prefix ++ "visual.positional_embedding") sd = Some old_pos_embed ->
  visual_grid_size (unwrap model) = Some [g0; g1] ->
  shape_at old_pos_embed 0 = Ok (g0 * g1 + 1) ->
  resize_pos_embed interpolate sd model interpolation prefix = Ok sd.
Proof.
  intros Hget Hgrid Hrows. unfold resize_pos_embed.
  rewrite Hget, Hgrid. simpl. rewrite Hrows. simpl.
  rewrite Nat.eqb_refl. reflexivity.
Qed.

Lemma resize_pos_embed_same_grid_witness :
  resize_pos_embed (fun x _ _ => Ok x) pos_ckpt grid_2x2_model "bicubic" ""
  = Ok pos_ckpt.
Proof.
  apply (resize_pos_embed_same_grid (fun x _ _ => Ok x) pos_ckpt grid_2x2_model
           "bicubic" "" (mk [5; 3] (fun idx => INR (ravel [5; 3] idx))) 2 2);
    reflexivity.
Defined.

(** ** Similarity *)

Lemma encode_text_is_tuple self text v :
  CLIP.encode_text self text = Ok v -> exists vs, v = VTuple vs.
Proof.
  unfold CLIP.encode_text. intros H.
  repeat (apply bind_ok_inv in H; destruct H as [? [_ H]]).
  injection H as <-. eauto.
Qed.

(** C3 (as the code has it): [get_similarity] returns for no input.  When the
    image encoding and its unpacking go through, the text encoding is a
    tuple, and a tuple has no [norm]. *)
Theorem get_similarity_never_returns (self : CLIP.t) (g : generator)
  (img_l img_r : option (tensor R)) (text : option (tensor Z)) :
  is_ok (CLIP.get_similarity self g img_l img_r text) = false.
Proof.
  unfold CLIP.get_similarity.
  apply is_ok_false_bind. intros [imgs g'] _. cbv beta iota zeta.
  apply is_ok_false_bind. intros items _.
  apply is_ok_false_bind. intros tv Htext.
  apply is_ok_false_bind. intros iv _.
  destruct (encode_text_is_tuple _ _ _ Htext) as [vs ->].
  reflexivity.
Qed.

(** ** Float formats *)

Lemma mapM_in {A B} (f : A -> result B) (l : list A) (l' : list B) (a : A) :
  mapM f l = Ok l' -> In a l -> exists b, f a = Ok b /\ In b l'.
Proof.
  revert l'. induction l as [|x l IH]; simpl; intros l' H Hin; [contradiction|].
  apply bind_ok_inv in H. destruct H as [b [Hb H]].
  apply bind_ok_inv in H. destruct H as [bs [Hbs H]].
  injection H as <-. destruct Hin as [->|Hin].
  - exists b. split; [assumption | now left].
  - destruct (IH bs Hbs Hin) as [b' [Hb' Hin']].
    exists b'. split; [assumption | now right].
Qed.

Lemma param_to_fp16_grad round_to p p' gr :
  grad p = Some gr -> dt gr <> float16 ->
  param_to_fp16 round_to p = Ok p' ->
  exists gr', grad p' = Some gr' /\ dt gr' <> float16.
Proof.
  intros Hg Hdt H. unfold param_to_fp16 in H.
  apply bind_ok_inv in H. destruct H as [b [_ H]].
  rewrite Hg in H. destruct b; injection H as <-; simpl.
  - exists (float round_to gr). split; [reflexivity | discriminate].
  - exists gr. split; [reflexivity | assumption].
Qed.

(** C8 (as the code has it): [convert_weights] turns no gradient into half
    precision.  For a parameter whose gradient is present and not already in
    half precision, whenever [convert_weights] returns, that parameter's
    gradient is still present and still not in half precision (it is left as
    it was, or converted with [float()]). *)
Theorem convert_weights_leaves_gradients_not_half
  (round_to : dtype -> R -> R) (model model' : model_ref)
  (name : string) (p : Param) (gr : dtensor) :
  In (name, p) (named_parameters (unwrap model)) ->
  grad p = Some gr -> dt gr <> float16 ->
  convert_weights round_to model = Ok model' ->
  exists p' gr',
    In (name, p') (named_parameters (unwrap model'))
    /\ grad p' = Some gr' /\ dt gr' <> float16.
Proof.
  intros Hin Hg Hdt H. unfold convert_weights, for_parameters in H.
  apply bind_ok_inv in H. destruct H as [ps [Hps H]]. injection H as <-.
  destruct (mapM_in _ _ _ _ Hps Hin) as [[name' p'] [Hf Hin']].
  apply bind_ok_inv in Hf. destruct Hf as [q [Hq Hf]].
  injection Hf as <- <-.
  destruct (param_to_fp16_grad _ _ _ _ Hg Hdt Hq) as [gr' [Hg' Hdt']].
  exists q, gr'. split; [|split; assumption].
  destruct model; exact Hin'.
Qed.

Lemma convert_weights_one_param :
  convert_weights no_rounding one_param_model
  = Ok (Bare (mk_Module
                [("logit_scale",
                  mk_Param (half no_rounding (data scale_param))
                           (option_map (float no_rounding) (grad scale_param)))]
                None true)).
Proof.
  unfold convert_weights, for_parameters, one_param_model. simpl.
  unfold param_to_fp16, truth. simpl.
  destruct (Req_dec_T 1 0) as [H|H]; [exfalso; lra | reflexivity].
Qed.

Lemma convert_weights_leaves_gradients_not_half_witness :
  exists p' gr',
    In ("logit_scale", p')
       (named_parameters
          (unwrap (Bare (mk_Module
                [("logit_scale",
                  mk_Param (half no_rounding (data scale_param))
                           (option_map (float no_rounding) (grad scale_param)))]
                None true))))
    /\ grad p' = Some gr' /\ dt gr' <> float16.
Proof.
  apply (convert_weights_leaves_gradients_not_half no_rounding one_param_model _
           "logit_scale" scale_param (mk_dtensor float32 (scalar 1))).
  - simpl. left. reflexivity.
  - reflexivity.
  - simpl. discriminate.
  - exact convert_weights_one_param.
Defined.

Lemma convert_weights_raises_on_gradient round_to gs tr :
  convert_weights round_to (Bare (mk_Module [("visual.proj", weight_param)] gs tr))
  = Raise (RuntimeError "Boolean value of Tensor with more than one value is ambiguous").
Proof. reflexivity. Qed.

(** ** Attention layouts *)

(** what a loop returns with some fuel it returns with more, unless it ran
    out: a result other than the bound error is the loop's own *)
Lemma while_layers_more_fuel probe body (fuel fuel' i : nat) (sd : state_dict)
  (r : result state_dict) :
  fuel <= fuel' ->
  while_layers probe body fuel i sd = r ->
  r <> Raise (RuntimeError "loop bound exceeded") ->
  while_layers probe body fuel' i sd = r.
Proof.
  revert fuel' i sd. induction fuel as [|fuel IH]; intros fuel' i sd Hle H Hr.
  - destruct fuel'; simpl in *; destruct (Dict.mem (probe i) sd);
      try assumption; subst r; contradiction.
  - destruct fuel' as [|fuel']; [lia|]. simpl in *.
    destruct (Dict.mem (probe i) sd); [|assumption].
    destruct (body i sd) as [sd1|e]; simpl in *; [|assumption].
    apply IH; [lia | assumption | assumption].
Qed.

(** the first conversion fuses the layer *)
Lemma convert_separate_once :
  keys_of (convert_state_dict (separate_layer ""))
  = Ok ["bert.encoder.layer.0.attention.self.Wqkv.weight";
        "bert.encoder.layer.0.attention.self.Wqkv.bias";
        "bert.encoder.layer.0.attention.self.out_proj.weight";
        "bert.encoder.layer.0.attention.self.out_proj.bias"].
Proof. vm_compute. reflexivity. Qed.

(** C4 (as the code has it): on keys without the 'module.' prefix the second
    conversion does not give the state dict back: it raises [KeyError],
    because its last [pop] asks for the key with 'module.' in front. *)
Theorem convert_state_dict_twice_unprefixed :
  (sd <- convert_state_dict (separate_layer "") ;; convert_state_dict sd)
  = Raise (KeyError "module.bert.encoder.layer.0.attention.self.out_proj.bias").
Proof. vm_compute. reflexivity. Qed.

(** with the 'module.' prefix on every key the same layer does come back:
    the keys, the shapes and every element *)
Lemma convert_state_dict_twice_prefixed :
  exists sd2,
    (sd <- convert_state_dict (separate_layer "module.") ;; convert_state_dict sd)
    = Ok sd2
    /\ Forall (same_entry (separate_layer "module.") sd2)
              (Dict.keys (separate_layer "module."))
    /\ List.length sd2 = List.length (separate_layer "module.").
Proof.
  eexists. split; [vm_compute; reflexivity|].
  split; [|reflexivity].
  repeat constructor.
Qed.

(** ** Shapes *)

(** take a chain of binds that returned apart, one step at a time *)
Ltac bind_inv H :=
  repeat (apply bind_ok_inv in H;
          let a := fresh "a" in
          let Ha := fresh "Ha" in
          destruct H as [a [Ha H]];
          match type of a with
          | (_ * _)%type => destruct a; cbv beta iota zeta in H
          | _ => idtac
          end).

Lemma permute_shape {A} perm (x y : tensor A) :
  permute perm x = Ok y ->
  shape y = map (fun p => nth p (shape x) 0) perm
  /\ List.length perm = rank x.
Proof.
  unfold permute. destruct (is_perm_of_range perm (rank x)) eqn:E; [|discriminate].
  intros H. injection H as <-. split; [reflexivity|].
  unfold is_perm_of_range in E. apply andb_true_iff in E. destruct E as [E _].
  now apply Nat.eqb_eq in E.
Qed.

Lemma rank3_shape {A} (x : tensor A) :
  rank x = 3 -> exists a b c, shape x = [a; b; c].
Proof.
  unfold rank. destruct (shape x) as [|a [|b [|c [|d s]]]]; simpl; try discriminate.
  eauto.
Qed.

Lemma cat1_rank3_shape {A} (x y z : tensor A) a b c a' b' c' :
  shape x = [a; b; c] -> shape y = [a'; b'; c'] ->
  cat 1 x y = Ok z -> shape z = [a; b + b'; c] /\ a' = a /\ c' = c.
Proof.
  intros Hx Hy. unfold cat, rank. rewrite Hx, Hy. simpl.
  destruct ((c =? c') && (a =? a')) eqn:E; simpl; [|discriminate].
  intros H. injection H as <-. simpl.
  apply andb_true_iff in E. destruct E as [E1 E2].
  apply Nat.eqb_eq in E1, E2. subst. auto.
Qed.

Lemma linear_last_dim (x wt y : tensor R) bs o i :
  shape wt = [o; i] -> linear x wt bs = Ok y ->
  exists rs, rev (shape x) = i :: rs /\ shape y = rev rs ++ [o].
Proof.
  intros Hw. unfold linear. rewrite Hw.
  destruct (rev (shape x)) as [|d rs]; [discriminate|].
  destruct (d =? i) eqn:E; simpl; [|discriminate].
  apply Nat.eqb_eq in E. subst d. intros H. exists rs. split; [reflexivity|].
  destruct bs as [bv|].
  - destruct (list_eqb (shape bv) [o]); [|discriminate]. now injection H as <-.
  - now injection H as <-.
Qed.

Lemma vit_all_features_rank vt g x mr y g' :
  VisualTransformer.forward vt g x mr true = Ok (y, g') -> rank y = 3.
Proof.
  unfold VisualTransformer.forward. intros H. bind_inv H.
  injection H as <- <-.
  match goal with
  | Hp : permute [1; 0; 2] _ = Ok ?t |- rank ?t = 3 =>
      apply permute_shape in Hp; destruct Hp as [Hp _];
      unfold rank; rewrite Hp; reflexivity
  end.
Qed.

(** ** Encoding an image pair *)

(** With both sides present no call of [encode_image] returns.  On the
    convolutional backbone the result tuple names an attribute the model does
    not have; on the patch transformer the backbone is asked for all token
    features, so the three mappings, sized by [__init__] for inputs of width
    [2 * embed_dim] and [embed_dim], see one and the same last dimension. *)
Lemma encode_image_pair_never_ok (h : nat) (self : CLIP.t) (g : generator)
  (l r : tensor R) (mask_ratio : PyFloat.t) (return_all_features : bool) :
  CLIP.initialised h self -> 0 < CLIP.embed_dim self ->
  is_ok (CLIP.encode_image self g (Some l) (Some r) mask_ratio return_all_features)
  = false.
Proof.
  intros Hinit Hpos. unfold CLIP.encode_image.
  destruct (CLIP.visual self) as [rn|vt] eqn:Ev.
  - repeat (apply is_ok_false_bind; intros ? _). reflexivity.
  - match goal with |- is_ok ?e = false => destruct e as [res|e'] eqn:H end;
      [exfalso | reflexivity].
    bind_inv H.
    destruct Hinit as (Hg & _ & Hl & _).
    match goal with
    | H1 : VisualTransformer.forward vt g _ _ true = Ok (?lf, _),
      H2 : VisualTransformer.forward vt _ _ _ true = Ok (?rf, _),
      H3 : cat 1 ?lf ?rf = Ok ?vf,
      H4 : Linear_forward (CLIP.global_feature_mapping self) ?vf = Ok _,
      H5 : Linear_forward (CLIP.left_feature_mapping self) ?lf = Ok _ |- _ =>
        apply vit_all_features_rank in H1; apply vit_all_features_rank in H2;
        destruct (rank3_shape _ H1) as (n1 & k1 & d1 & S1);
        destruct (rank3_shape _ H2) as (n2 & k2 & d2 & S2);
        destruct (cat1_rank3_shape _ _ _ _ _ _ _ _ _ S1 S2 H3) as (S3 & _ & _);
        destruct (linear_last_dim _ _ _ _ _ _ Hg H4) as (rs4 & R4 & _);
        destruct (linear_last_dim _ _ _ _ _ _ Hl H5) as (rs5 & R5 & _);
        rewrite S3 in R4; rewrite S1 in R5; simpl in R4, R5;
        injection R4 as E4 _; injection R5 as E5 _
    end.
    lia.
Qed.

(** C1 (as the code has it): for a model as [__init__] builds it, with a
    positive embedding dimension, [encode_image] with both images present
    returns nothing at all, on either backbone: every such call raises. *)
Theorem encode_image_both_sides_raises (h : nat) (self : CLIP.t) (g : generator)
  (img_l img_r : tensor R) (mask_ratio : PyFloat.t) (return_all_features : bool) :
  CLIP.initialised h self -> 0 < CLIP.embed_dim self ->
  exists e,
    CLIP.encode_image self g (Some img_l) (Some img_r) mask_ratio
                      return_all_features = Raise e.
Proof.
  intros Hinit Hpos.
  pose proof (encode_image_pair_never_ok h self g img_l img_r mask_ratio
                return_all_features Hinit Hpos) as H.
  destruct (CLIP.encode_image self g (Some img_l) (Some img_r) mask_ratio
              return_all_features) as [v|e]; [discriminate | eauto].
Qed.

(** C2 (as the code has it): with both images and the text present,
    [forward] returns no 9-tuple: the call of [encode_image] it starts with
    raises. *)
Theorem forward_all_present_raises (h : nat) (self : CLIP.t) (g : generator)
  (img_l img_r : tensor R) (text : tensor Z) (mask_ratio : PyFloat.t) :
  CLIP.initialised h self -> 0 < CLIP.embed_dim self ->
  exists e,
    CLIP.forward self g (Some img_l) (Some img_r) (Some text) mask_ratio = Raise e.
Proof.
  intros Hinit Hpos. unfold CLIP.forward. cbn [CLIP.is_none andb orb].
  pose proof (encode_image_pair_never_ok h self g img_l img_r mask_ratio
                false Hinit Hpos) as H.
  destruct (CLIP.encode_image self g (Some img_l) (Some img_r) mask_ratio false)
    as [v|e]; [discriminate | simpl; eauto].
Qed.

(** ** The small model *)

Lemma toy_clip_initialised : CLIP.initialised 1 toy_clip.
Proof.
  unfold CLIP.initialised, CLIP.is_text_head. simpl.
  repeat split; try reflexivity;
    (do 4 eexists; repeat split; reflexivity).
Qed.

Lemma encode_image_both_sides_raises_witness :
  exists e,
    CLIP.encode_image toy_clip toy_gen (Some toy_image) (Some toy_image)
                      PyFloat.zero false
    = Raise e.
Proof.
  apply (encode_image_both_sides_raises 1 toy_clip toy_gen toy_image toy_image
           PyFloat.zero false toy_clip_initialised).
  cbv. lia.
Defined.

Lemma forward_all_present_raises_witness :
  exists e,
    CLIP.forward toy_clip toy_gen (Some toy_image) (Some toy_image)
                 (Some toy_text) PyFloat.zero = Raise e.
Proof.
  apply (forward_all_present_raises 1 toy_clip toy_gen toy_image toy_image
           toy_text PyFloat.zero toy_clip_initialised).
  cbv. lia.
Defined.

Lemma toy_pair_error :
  raised (CLIP.encode_image toy_clip toy_gen (Some toy_image) (Some toy_image)
            PyFloat.zero false)
  = Some (RuntimeError "mat1 and mat2 shapes cannot be multiplied").
Proof. vm_compute. reflexivity. Qed.

Lemma toy_left_only_shapes :
  returned_shape (CLIP.encode_image toy_clip toy_gen (Some toy_image) None
                    PyFloat.zero false)
  = Some [1; 5; 1]
  /\ returned_shape (CLIP.encode_image toy_clip toy_gen (Some toy_image) None
                       float_0_5 false)
     = Some [1; 3; 1].
Proof. split; vm_compute; reflexivity. Qed.

(** ** Sorting positions *)

Lemma insert_key_perm (a : Q * nat) (l : list (Q * nat)) :
  Permutation (insert_key a l) (a :: l).
Proof.
  induction l as [|x l IH]; simpl; [reflexivity|].
  destruct (Qle_bool (fst a) (fst x)); [reflexivity|].
  rewrite IH. apply perm_swap.
Qed.

Lemma insertion_sort_perm (l : list (Q * nat)) :
  Permutation (fold_right insert_key [] l) l.
Proof.
  induction l as [|x l IH]; simpl; [reflexivity|].
  rewrite insert_key_perm. now apply perm_skip.
Qed.

Lemma map_snd_combine_seq {A} (l : list A) (s : nat) :
  map snd (combine l (seq s (List.length l))) = seq s (List.length l).
Proof.
  revert s. induction l as [|x l IH]; simpl; intros s; [reflexivity|].
  now rewrite IH.
Qed.

(** [argsort] yields every position once *)
Lemma argsort_list_perm (keys : list Q) :
  Permutation (argsort_list keys) (seq 0 (List.length keys)).
Proof.
  unfold argsort_list.
  rewrite <- (map_snd_combine_seq keys 0) at 2.
  apply Permutation_map, insertion_sort_perm.
Qed.

Lemma argsort_list_length (keys : list Q) :
  List.length (argsort_list keys) = List.length keys.
Proof.
  rewrite (Permutation_length (argsort_list_perm keys)). apply length_seq.
Qed.

Lemma argsort_list_nodup (keys : list Q) : NoDup (argsort_list keys).
Proof.
  apply (Permutation_NoDup (Permutation_sym (argsort_list_perm keys))).
  apply seq_NoDup.
Qed.

Lemma argsort_list_bound (keys : list Q) (i : nat) :
  In i (argsort_list keys) -> i < List.length keys.
Proof.
  intros H. apply (Permutation_in _ (argsort_list_perm keys)) in H.
  apply in_seq in H. lia.
Qed.

(** ** Index tuples *)

Lemma all_indices_in_range (s idx : list nat) :
  In idx (all_indices s) -> Forall2 lt idx s.
Proof.
  revert idx. induction s as [|n s IH]; simpl; intros idx H.
  - destruct H as [<-|[]]. constructor.
  - apply in_flat_map in H. destruct H as [i [Hi H]].
    apply in_map_iff in H. destruct H as [idx' [<- H]].
    apply in_seq in Hi. constructor; [lia | now apply IH].
Qed.

Lemma list_eqb_refl (s : list nat) : list_eqb s s = true.
Proof.
  induction s as [|n s IH]; simpl; [reflexivity|].
  now rewrite IH, Nat.eqb_refl.
Qed.

Lemma broadcast_rev_same (s : list nat) : broadcast_rev s s = Ok s.
Proof.
  induction s as [|n s IH]; simpl; [reflexivity|].
  unfold broadcast_dim. now rewrite Nat.eqb_refl, IH.
Qed.

Lemma broadcast_shapes_same (s : list nat) : broadcast_shapes s s = Ok s.
Proof.
  unfold broadcast_shapes. rewrite broadcast_rev_same. simpl.
  now rewrite rev_involutive.
Qed.

Lemma broadcast_index_pair (n m i j : nat) :
  i < n -> j < m -> broadcast_index [n; m] [i; j] = [i; j].
Proof.
  intros Hi Hj. unfold broadcast_index. simpl.
  destruct (n =? 1) eqn:En; destruct (m =? 1) eqn:Em;
    try apply Nat.eqb_eq in En; try apply Nat.eqb_eq in Em;
    repeat f_equal; lia.
Qed.

Lemma nonneg_sizes_pair (n l : nat) :
  1 <= l ->
  nonneg_sizes [Z.of_nat n; (Z.of_nat l - 1)%Z] = Ok [n; l - 1].
Proof.
  intros Hl. unfold nonneg_sizes. simpl.
  destruct (Z.of_nat n <? 0)%Z eqn:E1; [apply Z.ltb_lt in E1; lia|].
  destruct (Z.of_nat l - 1 <? 0)%Z eqn:E2; [apply Z.ltb_lt in E2; lia|].
  simpl. rewrite Nat2Z.id. repeat f_equal. lia.
Qed.

(** ** Token masking *)

Lemma gather1_rank3 {A} (x : tensor A) (index : tensor nat) (n l d k : nat) :
  shape x = [n; l; d] -> shape index = [n; k; d] ->
  (forall i j c, i < n -> j < k -> c < d -> elt index [i; j; c] < l) ->
  gather1 x index
  = Ok (mk [n; k; d] (fun idx => elt x (set_nth 1 (elt index idx) idx))).
Proof.
  intros Hx Hi Hb. unfold gather1, rank. rewrite Hx, Hi. simpl.
  rewrite !Nat.leb_refl. simpl.
  replace (forallb _ _) with true; [reflexivity|].
  symmetry. apply forallb_forall. intros idx Hin.
  apply (all_indices_in_range [n; k; d]) in Hin.
  inversion Hin as [|i ? r1 ? Hi1 H1]; subst.
  inversion H1 as [|j ? r2 ? Hj1 H2]; subst.
  inversion H2 as [|c ? r3 ? Hc1 H3]; subst.
  inversion H3; subst.
  apply Nat.ltb_lt. now apply Hb.
Qed.

Lemma slice_stop_le (n : nat) (k : Z) : slice_stop n k <= n.
Proof. unfold slice_stop. destruct (k <? 0)%Z; lia. Qed.

Lemma slice_stop_in_range (n : nat) (k : Z) :
  (0 <= k <= Z.of_nat n)%Z -> slice_stop n k = Z.to_nat k.
Proof.
  intros Hk. unfold slice_stop.
  destruct (k <? 0)%Z eqn:E; [apply Z.ltb_lt in E; lia | lia].
Qed.

Lemma unravel_ravel_row (N D n d : nat) :
  d < D -> unravel [N; D] (ravel [N; 1; D] [n; 0; d]) = [n; d].
Proof.
  intros Hd. cbn [ravel unravel numel fold_right].
  replace (n * (1 * (D * 1)) + (0 * (D * 1) + (d * 1 + 0))) with (d + n * D) by lia.
  rewrite Nat.mul_1_r, Nat.div_1_r.
  rewrite Nat.div_add by lia. rewrite Nat.Div0.mod_add.
  rewrite Nat.div_small, Nat.mod_small by lia. reflexivity.
Qed.

Lemma nth_map_S_firstn (k j : nat) (l : list nat) :
  j < k -> k <= List.length l ->
  nth j (map S (firstn k l)) 0 = S (nth j l 0).
Proof.
  revert j l. induction k as [|k IH]; intros j l Hj Hk; [lia|].
  destruct l as [|a l]; simpl in Hk; [lia|].
  destruct j as [|j]; simpl; [reflexivity|].
  apply IH; lia.
Qed.

(** what [random_masking] returns once [len_keep] has its value *)
Lemma random_masking_eval {A} (g : generator) (x : tensor A)
  (mask_ratio : PyFloat.t) (N L D : nat) (k : Z) :
  shape x = [N; L; D] -> 1 <= L ->
  VisualTransformer.len_keep L mask_ratio = Ok k ->
  exists y noise,
    VisualTransformer.random_masking g x mask_ratio
    = Ok (y, mk_gen (samples g) (cursor g + N * (L - 1)))
    /\ rand g [Z.of_nat N; (Z.of_nat L - 1)%Z]
       = Ok (noise, mk_gen (samples g) (cursor g + N * (L - 1)))
    /\ shape y = [N; 1 + slice_stop (L - 1) k; D]
    /\ forall n j d, n < N -> d < D ->
         elt y [n; 0; d] = elt x [n; 0; d]
         /\ (j < slice_stop (L - 1) k ->
             elt y [n; S j; d]
             = elt x [n; nth j (kept_ids noise (L - 1)
                                   (slice_stop (L - 1) k) n) 0; d]).
Proof.
  intros Hx HL Hk.
  set (K := slice_stop (L - 1) k).
  assert (HK : K <= L - 1) by apply slice_stop_le.
  unfold VisualTransformer.random_masking. rewrite Hx, Hk. cbn [bind].
  unfold rand. rewrite (nonneg_sizes_pair N L HL).
  cbn [bind].
  pose (noise := mk [N; L - 1]
                   (fun idx => samples g (cursor g + ravel [N; L - 1] idx))).
  eexists. exists noise.
  unfold argsort1, rank, ones_int, ones. rewrite (nonneg_sizes_pair N L HL).
  cbn [bind shape List.length Nat.ltb Nat.leb].
  unfold binop. cbn [shape]. rewrite broadcast_shapes_same. cbn [bind].
  unfold slice_cols. cbn [shape bind]. fold K.
  unfold unsqueeze_repeat_last. cbn [shape bind].
  erewrite (gather1_rank3 x _ N L D K Hx); [| reflexivity |].
  2:{ intros i j c Hi Hj Hc. cbn [elt nth].
      rewrite (broadcast_index_pair N (L - 1) i j Hi) by lia.
      cbn [nth set_nth].
      match goal with
      | |- nth j (argsort_list ?keys) 0 + 1 < L =>
          assert (Hlen : List.length keys = L - 1)
            by (rewrite length_map, length_seq; reflexivity);
          assert (Hin : In (nth j (argsort_list keys) 0) (argsort_list keys))
            by (apply nth_In; rewrite argsort_list_length, Hlen; lia);
          apply argsort_list_bound in Hin; rewrite Hlen in Hin; lia
      end. }
  cbn [bind].
  unfold select_mid. rewrite Hx.
  replace (0 <? L) with true by (symmetry; apply Nat.ltb_lt; lia).
  cbn [bind]. unfold reshape. cbn [shape].
  replace (numel [N; 1; D] =? numel [N; D]) with true
    by (symmetry; apply Nat.eqb_eq; simpl; lia).
  cbn [bind]. unfold cat, rank.
  cbn [shape list_eqb andb List.length Nat.eqb Nat.ltb Nat.leb negb drop_nth].
  rewrite !Nat.eqb_refl. cbn [andb negb bind set_nth nth].
  assert (Hnum : numel [N; L - 1] = N * (L - 1))
    by (cbn [numel fold_right]; lia).
  rewrite Hnum.
  split; [reflexivity|]. split; [reflexivity|].
  cbn [shape elt]. split; [reflexivity|].
  intros n j d Hn Hd. cbn [nth Nat.ltb Nat.leb]. split.
  - rewrite (unravel_ravel_row N D n d Hd). reflexivity.
  - intros Hj. cbn [Nat.sub set_nth nth]. rewrite Nat.sub_0_r.
    rewrite (broadcast_index_pair N (L - 1) n j Hn) by lia.
    cbn [set_nth nth]. unfold kept_ids.
    rewrite nth_map_S_firstn.
    + rewrite Nat.add_1_r. reflexivity.
    + exact Hj.
    + rewrite argsort_list_length, length_map, length_seq. exact HK.
Qed.

(** [random_masking] raises what [len_keep] raises *)
Lemma random_masking_len_keep_raises {A} (g : generator) (x : tensor A)
  (mask_ratio : PyFloat.t) (N L D : nat) (e : exn) :
  shape x = [N; L; D] ->
  VisualTransformer.len_keep L mask_ratio = Raise e ->
  VisualTransformer.random_masking g x mask_ratio = Raise e.
Proof.
  intros Hx He. unfold VisualTransformer.random_masking.
  rewrite Hx, He. reflexivity.
Qed.

Lemma in_firstn {A} (k : nat) (l : list A) (a : A) : In a (firstn k l) -> In a l.
Proof.
  intros H. rewrite <- (firstn_skipn k l). apply in_or_app. now left.
Qed.

Lemma nodup_firstn {A} (k : nat) (l : list A) : NoDup l -> NoDup (firstn k l).
Proof.
  intros H. rewrite <- (firstn_skipn k l) in H.
  now apply NoDup_app_remove_r in H.
Qed.

Lemma nodup_map_S (l : list nat) : NoDup l -> NoDup (map S l).
Proof.
  induction 1 as [|a l Hnotin Hnd IH]; simpl; constructor; [|assumption].
  intros Hin. apply in_map_iff in Hin. destruct Hin as [b [E Hb]].
  injection E as ->. contradiction.
Qed.

Lemma kept_ids_facts (noise : tensor Q) (m k n : nat) :
  k <= m ->
  List.length (kept_ids noise m k n) = k
  /\ NoDup (kept_ids noise m k n)
  /\ Forall (fun i => 1 <= i <= m) (kept_ids noise m k n).
Proof.
  intros Hk. unfold kept_ids.
  set (keys := map (fun j => elt noise [n; j]) (seq 0 m)).
  assert (Hlen : List.length keys = m)
    by (unfold keys; rewrite length_map, length_seq; reflexivity).
  repeat split.
  - rewrite length_map, length_firstn, argsort_list_length, Hlen. lia.
  - apply nodup_map_S, nodup_firstn, argsort_list_nodup.
  - apply Forall_forall. intros i Hi.
    apply in_map_iff in Hi. destruct Hi as [p [<- Hp]].
    apply in_firstn, argsort_list_bound in Hp. rewrite Hlen in Hp. lia.
Qed.

(** C6 (amended): for a token sequence of shape [(N, L, D)] with [L >= 1]
    and a mask ratio for which [int((L - 1) * (1 - mask_ratio))], worked out
    in double precision as the code does it, is the int [k],
    [random_masking] returns a sequence with [kept + 1] tokens per batch
    row, where [kept] is the size of the slice [:k] of the [L - 1] patch
    positions ([k] itself when [0 <= k <= L - 1]); token 0 of every row is
    the input's token 0 (the class token), and the tokens after it are the
    input's tokens at pairwise distinct positions among [1 .. L - 1],
    chosen row by row: the other patch tokens are absent. *)
Theorem random_masking_keeps_class_token_and_patch_subset {A}
  (g : generator) (x : tensor A) (mask_ratio : PyFloat.t) (N L D : nat)
  (k : Z) :
  shape x = [N; L; D] -> 1 <= L ->
  VisualTransformer.len_keep L mask_ratio = Ok k ->
  let kept := slice_stop (L - 1) k in
  exists (y : tensor A) (g' : generator) (ids_keep : nat -> list nat),
    VisualTransformer.random_masking g x mask_ratio = Ok (y, g')
    /\ shape y = [N; kept + 1; D]
    /\ kept <= L - 1
    /\ ((0 <= k <= Z.of_nat L - 1)%Z -> kept = Z.to_nat k)
    /\ forall n, n < N ->
         List.length (ids_keep n) = kept
         /\ NoDup (ids_keep n)
         /\ Forall (fun i => 1 <= i <= L - 1) (ids_keep n)
         /\ forall d, d < D ->
              elt y [n; 0; d] = elt x [n; 0; d]
              /\ forall j, j < kept ->
                   elt y [n; S j; d] = elt x [n; nth j (ids_keep n) 0; d].
Proof.
  intros Hx HL Hk kept.
  destruct (random_masking_eval g x mask_ratio N L D k Hx HL Hk)
    as (y & noise & Hrun & _ & Hshape & Helt).
  fold kept in Hshape, Helt.
  assert (Hle : kept <= L - 1) by apply slice_stop_le.
  exists y. eexists. exists (kept_ids noise (L - 1) kept).
  split; [exact Hrun|]. split; [rewrite Hshape; f_equal; f_equal; lia|].
  split; [exact Hle|]. split.
  { intros Hr. apply slice_stop_in_range. lia. }
  intros n Hn.
  destruct (kept_ids_facts noise (L - 1) kept n Hle) as (Hl & Hnd & Hb).
  repeat split; try assumption.
  - now apply (Helt n 0 d).
  - intros j Hj. now apply (Helt n j d).
Qed.

Lemma random_masking_keeps_class_token_and_patch_subset_witness :
  exists (y : tensor R) (g' : generator) (ids_keep : nat -> list nat),
    VisualTransformer.random_masking toy_gen
      (mk [2; 5; 3] (fun idx => INR (ravel [2; 5; 3] idx))) float_0_5
    = Ok (y, g')
    /\ shape y = [2; slice_stop (5 - 1) 2 + 1; 3]
    /\ slice_stop (5 - 1) 2 <= 5 - 1
    /\ ((0 <= 2 <= Z.of_nat 5 - 1)%Z -> slice_stop (5 - 1) 2 = Z.to_nat 2)
    /\ forall n, n < 2 ->
         List.length (ids_keep n) = slice_stop (5 - 1) 2
         /\ NoDup (ids_keep n)
         /\ Forall (fun i => 1 <= i <= 5 - 1) (ids_keep n)
         /\ forall d, d < 3 ->
              elt y [n; 0; d]
              = elt (mk [2; 5; 3] (fun idx => INR (ravel [2; 5; 3] idx))) [n; 0; d]
              /\ forall j, j < slice_stop (5 - 1) 2 ->
                   elt y [n; S j; d]
                   = elt (mk [2; 5; 3] (fun idx => INR (ravel [2; 5; 3] idx)))
                         [n; nth j (ids_keep n) 0; d].
Proof.
  apply (random_masking_keeps_class_token_and_patch_subset toy_gen
           (mk [2; 5; 3] (fun idx => INR (ravel [2; 5; 3] idx))) float_0_5
           2 5 3 2).
  - reflexivity.
  - lia.
  - reflexivity.
Defined.

(** the named floats are doubles: their mantissas have 53 bits *)
Lemma named_floats_are_doubles :
  Forall (fun x => valid_binary PyFloat.prec PyFloat.emax x = true)
         [PyFloat.one; float_0_5; float_1_5; float_0_2; float_0_8].
Proof. repeat constructor. Qed.

(** C6 as stated fails: the length is not always
    [floor((L - 1) * (1 - mask_ratio)) + 1].  On 6 tokens, the float nearest
    to 0.2 (a number below 1 and above 0, for which the formula gives 4)
    leaves 5 tokens: [1 - mask_ratio] is rounded up to the float nearest to
    0.8 and 5 times that to 4.  And the float nearest to 0.8 (within
    [2 ^ -54] of 4/5, for which the formula gives 2) leaves 1 token: the
    product is the float just below 1. *)
Lemma random_masking_length_is_not_the_floor :
  (exists (y : tensor R) g',
      VisualTransformer.random_masking toy_gen (mk [1; 6; 1] (fun _ => 0%R))
                                       float_0_2 = Ok (y, g')
      /\ shape y = [1; 5; 1])
  /\ (0 < PyFloat.value float_0_2)%Q /\ (PyFloat.value float_0_2 < 1)%Q
  /\ floor_length 6 (PyFloat.value float_0_2) = 4
  /\ (exists (y : tensor R) g',
         VisualTransformer.random_masking toy_gen (mk [1; 6; 1] (fun _ => 0%R))
                                          float_0_8 = Ok (y, g')
         /\ shape y = [1; 1; 1])
  /\ ((4 # 5) - (1 # 18014398509481984) <= PyFloat.value float_0_8)%Q
  /\ (PyFloat.value float_0_8 <= (4 # 5) + (1 # 18014398509481984))%Q
  /\ floor_length 6 (4 # 5) = 2.
Proof.
  repeat split; try (vm_compute; reflexivity); try (vm_compute; discriminate).
  - destruct (random_masking_eval toy_gen (mk [1; 6; 1] (fun _ => 0%R))
                float_0_2 1 6 1 4 eq_refl ltac:(lia) eq_refl)
      as (y & noise & Hrun & _ & Hs & _).
    exists y. eexists. split; [exact Hrun | exact Hs].
  - destruct (random_masking_eval toy_gen (mk [1; 6; 1] (fun _ => 0%R))
                float_0_8 1 6 1 0 eq_refl ltac:(lia) eq_refl)
      as (y & noise & Hrun & _ & Hs & _).
    exists y. eexists. split; [exact Hrun | exact Hs].
Qed.

(** ** Text projection heads *)

Lemma linear_rows_ok (x wt bv : tensor R) (B i o : nat) :
  shape x = [B; i] -> shape wt = [o; i] -> shape bv = [o] ->
  exists y, linear x wt (Some bv) = Ok y /\ shape y = [B; o].
Proof.
  intros Hx Hw Hb. unfold linear. rewrite Hw, Hx, Hb. cbn [rev app].
  rewrite Nat.eqb_refl, list_eqb_refl. cbn [negb].
  eexists. split; reflexivity.
Qed.

(** a head as [__init__] builds it, on a batch of hidden vectors *)
Lemma new_text_head_forward (h e B : nat) (v : CLIP.head_values)
  (cls : tensor R) :
  shape cls = [B; h] ->
  exists y,
    Sequential_forward (CLIP.new_text_head h e v) cls = Ok y
    /\ perceptron_of h e v cls y
    /\ shape y = [B; e].
Proof.
  intros Hcls. unfold perceptron_of, CLIP.new_text_head.
  cbn [Sequential_forward layer_forward]. unfold Linear_forward, CLIP.new_Linear.
  cbn [weight bias].
  destruct (linear_rows_ok cls (mk [h; h] (CLIP.fc1_weight v))
              (mk [h] (CLIP.fc1_bias v)) B h h Hcls eq_refl eq_refl)
    as (y1 & H1 & S1).
  rewrite H1. cbn [bind].
  destruct (linear_rows_ok (relu y1) (mk [e; h] (CLIP.fc2_weight v))
              (mk [e] (CLIP.fc2_bias v)) B h e S1 eq_refl eq_refl)
    as (y2 & H2 & S2).
  rewrite H2. cbn [bind].
  exists y2. split; [reflexivity|]. split; [|exact S2].
  exists y1. split; [reflexivity | exact H2].
Qed.

(** what [__init__] builds is [initialised] *)
Lemma init_initialised (visual : CLIP.backbone) (vocab : Dict.t Z)
  (bert : tensor Z -> tensor R -> result (list (tensor R))) (h : nat)
  (pg pl pr : CLIP.head_values) (mg ml mr : list nat -> R) :
  CLIP.initialised h (CLIP.__init__ visual vocab bert h pg pl pr mg ml mr).
Proof.
  unfold CLIP.initialised, CLIP.is_text_head, CLIP.__init__, CLIP.embed_dim,
    CLIP.new_text_head, CLIP.new_Linear, CLIP.new_Linear_no_bias.
  cbn. repeat split; try reflexivity;
    (do 4 eexists; repeat split; reflexivity).
Qed.

(** C7 (amended): in a model as [__init__] builds it, [encode_text] applies
    its three heads to one and the same hidden state, the one the text
    backbone returns at position 0 (the [CLS] position) of every row; each
    head is a two-layer perceptron, Linear, ReLU, Linear with biases, on
    parameters of its own, and returns one embedding of size [embed_dim] per
    row.  With the ReLU between its two layers a head is not a linear
    map. *)
Theorem text_heads_are_two_layer_perceptrons
  (visual : CLIP.backbone) (vocab : Dict.t Z)
  (bert : tensor Z -> tensor R -> result (list (tensor R))) (h : nat)
  (pg pl pr : CLIP.head_values) (mg ml mr : list nat -> R)
  (text : tensor Z) (pad : Z) (x : tensor R) (others : list (tensor R))
  (B L : nat) :
  Dict.get "[PAD]" vocab = Some pad ->
  bert text (CLIP.ne_pad pad text) = Ok (x :: others) ->
  shape x = [B; L; h] -> 1 <= L ->
  let self := CLIP.__init__ visual vocab bert h pg pl pr mg ml mr in
  let e := CLIP.embed_dim self in
  exists cls yg yl yr,
    CLIP.encode_text self (Some text)
    = Ok (VTuple [VTensor yg; VTensor yl; VTensor yr])
    /\ shape cls = [B; h]
    /\ (forall b i, elt cls [b; i] = elt x [b; 0; i])
    /\ perceptron_of h e pg cls yg
    /\ perceptron_of h e pl cls yl
    /\ perceptron_of h e pr cls yr
    /\ shape yg = [B; e] /\ shape yl = [B; e] /\ shape yr = [B; e].
Proof.
  intros Hpad Hbert Hx HL self e.
  pose (e0 := match visual with
              | CLIP.ResNet rn => ModifiedResNet.output_dim rn
              | CLIP.ViT vt => VisualTransformer.output_dim vt
              end).
  change e with e0. clear e.
  unfold CLIP.encode_text. subst self. cbn [CLIP.__init__ CLIP.vocab CLIP.bert
    CLIP.text_projection CLIP.text_projection_left CLIP.text_projection_right].
  fold e0.
  rewrite Hpad. cbn [bind]. rewrite Hbert.
  cbn [bind]. unfold CLIP.to_dtype, select_mid. rewrite Hx.
  replace (0 <? L) with true by (symmetry; apply Nat.ltb_lt; lia).
  cbn [bind].
  match goal with
  | |- context [Sequential_forward _ ?c] =>
      destruct (new_text_head_forward h e0 B pg c eq_refl) as (yg & Hg & Pg & Sg);
      destruct (new_text_head_forward h e0 B pl c eq_refl) as (yl & Hl & Pl & Sl);
      destruct (new_text_head_forward h e0 B pr c eq_refl) as (yr & Hr & Pr & Sr);
      exists c, yg, yl, yr
  end.
  rewrite Hg. cbn [bind]. rewrite Hl. cbn [bind]. rewrite Hr. cbn [bind].
  repeat split; try assumption; reflexivity.
Qed.

Lemma text_heads_are_two_layer_perceptrons_witness :
  exists cls yg yl yr,
    CLIP.encode_text built_clip (Some toy_text)
    = Ok (VTuple [VTensor yg; VTensor yl; VTensor yr])
    /\ shape cls = [1; 1]
    /\ (forall b i,
          elt cls [b; i]
          = elt (mk [1; 2; 1] (fun idx => IZR (elt toy_text (removelast idx))))
                [b; 0; i])
    /\ perceptron_of 1 (CLIP.embed_dim built_clip) unit_head cls yg
    /\ perceptron_of 1 (CLIP.embed_dim built_clip) unit_head cls yl
    /\ perceptron_of 1 (CLIP.embed_dim built_clip) unit_head cls yr
    /\ shape yg = [1; CLIP.embed_dim built_clip]
    /\ shape yl = [1; CLIP.embed_dim built_clip]
    /\ shape yr = [1; CLIP.embed_dim built_clip].
Proof.
  apply (text_heads_are_two_layer_perceptrons (CLIP.ViT toy_vit)
           [("[PAD]", 0%Z)] toy_bert 1 unit_head unit_head unit_head
           (fun _ => 1%R) (fun _ => 1%R) (fun _ => 1%R)
           toy_text 0%Z
           (mk [1; 2; 1] (fun idx => IZR (elt toy_text (removelast idx))))
           [] 1 2).
  - reflexivity.
  - reflexivity.
  - reflexivity.
  - lia.
Defined.

(** C7 as stated fails: the global head of the small model, built as
    [__init__] builds it, is not linear.  With [u = 1], [v = 0] and [a = -1]
    the head gives [relu (-1) = 0] on [a * u + v], but
    [a * head u + head v = -1]. *)
Lemma text_projection_not_linear :
  ~ linear_map (Sequential_forward (CLIP.text_projection toy_clip)).
Proof.
  intros H.
  specialize (H (-1)%R (hidden 1) (hidden 0) _ _ _ eq_refl eq_refl eq_refl eq_refl
                [0; 0]).
  cbn in H. unfold rsum in H. cbn in H. unfold Rmax in H.
  repeat match type of H with
         | context [Rle_dec ?p ?q] => destruct (Rle_dec p q)
         end; lra.
Qed.

(** ** One image through the patch transformer *)

Lemma chain_keeps_shape (sh : list nat) (fs : list module_fn) :
  Forall (keeps_shape sh) fs -> keeps_shape sh (chain fs).
Proof.
  induction 1 as [|f fs Hf _ IH]; intros x Hx; simpl.
  - exists x. auto.
  - destruct (Hf x Hx) as (y & -> & Hy). simpl.
    destruct (IH y Hy) as (z & -> & Hz). exists z. auto.
Qed.

Lemma checked_keeps_shape (w : nat) (sh : list nat) :
  keeps_shape (sh ++ [w]) (checked w).
Proof.
  intros x Hx. unfold checked, shape_last. rewrite Hx, rev_unit.
  cbn [bind]. rewrite Nat.eqb_refl. exists x. auto.
Qed.

Lemma permute_021_ok {A} (x : tensor A) a b c :
  shape x = [a; b; c] ->
  exists y, permute [0; 2; 1] x = Ok y /\ shape y = [a; c; b].
Proof.
  intros Hx. unfold permute, rank. rewrite Hx. simpl.
  eexists. split; reflexivity.
Qed.

Lemma permute_102_ok {A} (x : tensor A) a b c :
  shape x = [a; b; c] ->
  exists y, permute [1; 0; 2] x = Ok y /\ shape y = [b; a; c].
Proof.
  intros Hx. unfold permute, rank. rewrite Hx. simpl.
  eexists. split; reflexivity.
Qed.

Lemma cat1_ok {A} (x y : tensor A) n p q d :
  shape x = [n; p; d] -> shape y = [n; q; d] ->
  exists z, cat 1 x y = Ok z /\ shape z = [n; p + q; d].
Proof.
  intros Hx Hy. unfold cat, rank. rewrite Hx, Hy.
  cbn [list_eqb andb List.length Nat.eqb Nat.ltb Nat.leb negb drop_nth].
  rewrite !Nat.eqb_refl. cbn [andb negb set_nth nth].
  eexists. split; reflexivity.
Qed.

Lemma binop_ok {A B C} (f : A -> B -> C) (x : tensor A) (y : tensor B) s :
  broadcast_shapes (shape x) (shape y) = Ok s ->
  exists z, binop f x y = Ok z /\ shape z = s.
Proof.
  intros H. unfold binop. rewrite H. simpl. eexists. split; reflexivity.
Qed.

Lemma reshape_patches_ok {A} (x : tensor A) n c g0 g1 :
  shape x = [n; c; g0; g1] -> 1 <= n -> 1 <= c ->
  exists y, reshape_infer [n; c] x = Ok y /\ shape y = [n; c; g0 * g1].
Proof.
  intros Hx Hn Hc. unfold reshape_infer. rewrite Hx.
  assert (Hm : numel [n; c] <> 0) by (simpl; nia).
  assert (Hn' : numel [n; c; g0; g1] = g0 * g1 * numel [n; c]) by (simpl; nia).
  rewrite Hn'. rewrite Nat.Div0.mod_mul, Nat.div_mul by assumption.
  destruct (numel [n; c] =? 0) eqn:E; [apply Nat.eqb_eq in E; contradiction|].
  simpl. eexists. split; reflexivity.
Qed.

(** the masking step of [forward] on [L] tokens *)
Lemma masking_step {A} (g : generator) (x : tensor A)
  (mask_ratio : PyFloat.t) (N L D T : nat) :
  shape x = [N; L; D] -> 1 <= L ->
  tokens_after_masking L mask_ratio = Ok T ->
  exists y g',
    (if PyFloat.ne_zero mask_ratio
     then VisualTransformer.random_masking g x mask_ratio
     else Ok (x, g)) = Ok (y, g')
    /\ shape y = [N; T; D] /\ 1 <= T <= L.
Proof.
  intros Hx HL HT. unfold tokens_after_masking in HT.
  destruct (PyFloat.ne_zero mask_ratio).
  - apply bind_ok_inv in HT. destruct HT as (k & Hk & HT). injection HT as <-.
    destruct (random_masking_eval g x mask_ratio N L D k Hx HL Hk)
      as (y & noise & Hrun & _ & Hs & _).
    exists y. eexists. split; [exact Hrun|].
    pose proof (slice_stop_le (L - 1) k).
    unfold masked_length. split; [rewrite Hs; f_equal; f_equal; lia | lia].
  - injection HT as <-. exists x, g. split; [reflexivity|]. split; [exact Hx | lia].
Qed.

(** the tokens the transformer blocks return, and what follows them *)
Lemma vit_trunk (vt : VisualTransformer.t) (g : generator)
  (img c : tensor R) (mask_ratio : PyFloat.t) (N W g0 g1 T : nat) :
  VisualTransformer.conv1 vt img = Ok c ->
  shape c = [N; W; g0; g1] -> 1 <= N -> 1 <= W ->
  shape (VisualTransformer.class_embedding vt) = [W] ->
  shape (VisualTransformer.positional_embedding vt) = [g0 * g1 + 1; W] ->
  tokens_after_masking (g0 * g1 + 1) mask_ratio = Ok T ->
  keeps_shape [N; T; W] (VisualTransformer.ln_pre vt) ->
  Forall (keeps_shape [T; N; W]) (VisualTransformer.resblocks vt) ->
  exists x g',
    shape x = [T; N; W] /\ 1 <= T
    /\ forall return_all_features,
         VisualTransformer.forward vt g img mask_ratio return_all_features
         = if return_all_features then
             y <- VisualTransformer.ln_post vt x ;;
             y <- permute [1; 0; 2] y ;;
             Ok (y, g')
           else
             y <- permute [1; 0; 2] x ;;
             y <- select_mid 0 y ;;
             y <- VisualTransformer.ln_post vt y ;;
             match VisualTransformer.proj vt with
             | Some p => y <- matmul y p ;; Ok (y, g')
             | None => Ok (y, g')
             end.
Proof.
  intros Hconv Hc HN HW Hcls Hpos HT Hpre Hblocks.
  unfold VisualTransformer.forward. rewrite Hconv. cbn [bind].
  unfold shape_at. rewrite Hc. cbn [nth_error bind].
  destruct (reshape_patches_ok c N W g0 g1 Hc HN HW) as (x1 & -> & S1). cbn [bind].
  destruct (permute_021_ok x1 _ _ _ S1) as (x2 & -> & S2). cbn [bind].
  unfold shape_last. rewrite S2. cbn [rev app bind].
  destruct (binop_ok Rplus (VisualTransformer.class_embedding vt)
              (zeros [N; 1; W]) [N; 1; W]) as (cls & Hadd & S3).
  { rewrite Hcls. unfold broadcast_shapes. cbn [zeros shape rev app broadcast_rev].
    unfold broadcast_dim. rewrite Nat.eqb_refl. reflexivity. }
  unfold add. rewrite Hadd. cbn [bind].
  destruct (cat1_ok cls x2 _ _ _ _ S3 S2) as (x3 & -> & S4). cbn [bind].
  destruct (binop_ok Rplus x3 (VisualTransformer.positional_embedding vt)
              [N; g0 * g1 + 1; W]) as (x4 & Hadd2 & S5).
  { rewrite S4, Hpos. replace (1 + g0 * g1) with (g0 * g1 + 1) by lia.
    unfold broadcast_shapes. cbn [shape rev app broadcast_rev].
    unfold broadcast_dim. rewrite !Nat.eqb_refl. reflexivity. }
  rewrite Hadd2. cbn [bind].
  destruct (masking_step g x4 mask_ratio N (g0 * g1 + 1) W T S5 ltac:(lia) HT)
    as (x5 & g' & -> & S6 & HT1). cbn [bind].
  destruct (Hpre x5 S6) as (x6 & -> & S7). cbn [bind].
  destruct (permute_102_ok x6 _ _ _ S7) as (x7 & -> & S8). cbn [bind].
  unfold VisualTransformer.transformer.
  destruct (chain_keeps_shape _ _ Hblocks x7 S8) as (x8 & -> & S9). cbn [bind].
  exists x8, g'. split; [exact S9|]. split; [lia|]. intros []; reflexivity.
Qed.

(** C10 (amended): on the patch transformer, with exactly one image side
    given, [encode_image] returns, whatever [return_all_features] is, what the
    backbone returns when asked for all token features: the post-LayerNorm
    token sequence, never a projected embedding.  Its shape is
    [(batch, T, width)], where [T] is [grid * grid + 1] when [mask_ratio] is
    zero and, when it is not, one more than the size of the slice [:k] of
    the [grid * grid] patch positions, [k] being
    [int(grid * grid * (1 - mask_ratio))] in double precision.  [g0 x g1] is
    the patch grid the convolution produces; of the framework layers it is
    asked that they keep the shape of the token sequence they are given
    here. *)
Theorem encode_image_one_side_returns_token_sequence
  (self : CLIP.t) (vt : VisualTransformer.t) (g : generator)
  (img c : tensor R) (mask_ratio : PyFloat.t) (N W g0 g1 T : nat)
  (return_all_features : bool) :
  CLIP.visual self = CLIP.ViT vt ->
  VisualTransformer.conv1 vt img = Ok c ->
  shape c = [N; W; g0; g1] -> 1 <= N -> 1 <= W ->
  shape (VisualTransformer.class_embedding vt) = [W] ->
  shape (VisualTransformer.positional_embedding vt) = [g0 * g1 + 1; W] ->
  tokens_after_masking (g0 * g1 + 1) mask_ratio = Ok T ->
  keeps_shape [N; T; W] (VisualTransformer.ln_pre vt) ->
  Forall (keeps_shape [T; N; W]) (VisualTransformer.resblocks vt) ->
  keeps_shape [T; N; W] (VisualTransformer.ln_post vt) ->
  exists y g',
    VisualTransformer.forward vt g img mask_ratio true = Ok (y, g')
    /\ CLIP.encode_image self g (Some img) None mask_ratio return_all_features
       = Ok (VTensor y, g')
    /\ CLIP.encode_image self g None (Some img) mask_ratio return_all_features
       = Ok (VTensor y, g')
    /\ shape y = [N; T; W]
    /\ (PyFloat.ne_zero mask_ratio = false -> T = g0 * g1 + 1)
    /\ (PyFloat.ne_zero mask_ratio = true ->
        exists k, VisualTransformer.len_keep (g0 * g1 + 1) mask_ratio = Ok k
                  /\ T = slice_stop (g0 * g1) k + 1).
Proof.
  intros Hv Hconv Hc HN HW Hcls Hpos HT Hpre Hblocks Hpost.
  destruct (vit_trunk vt g img c mask_ratio N W g0 g1 T
              Hconv Hc HN HW Hcls Hpos HT Hpre Hblocks)
    as (x & g' & Sx & _ & Hfwd).
  destruct (Hpost x Sx) as (x9 & Hx9 & S9).
  destruct (permute_102_ok x9 _ _ _ S9) as (y & Hy & Sy).
  assert (Hrun : VisualTransformer.forward vt g img mask_ratio true = Ok (y, g')).
  { rewrite (Hfwd true), Hx9. cbn [bind]. rewrite Hy. reflexivity. }
  exists y, g'. split; [exact Hrun|].
  unfold CLIP.encode_image, CLIP.one_side, CLIP.image_type, CLIP.to_dtype.
  rewrite Hv. cbn [bind]. rewrite Hrun. cbn [bind].
  split; [reflexivity|]. split; [reflexivity|]. split; [exact Sy|].
  unfold tokens_after_masking in HT. split.
  - intros E. rewrite E in HT. now injection HT as <-.
  - intros E. rewrite E in HT.
    apply bind_ok_inv in HT. destruct HT as (k & Hk & HT). injection HT as <-.
    exists k. split; [exact Hk|]. unfold masked_length.
    replace (g0 * g1 + 1 - 1) with (g0 * g1) by lia. reflexivity.
Qed.

Lemma encode_image_one_side_returns_token_sequence_witness :
  exists y g',
    VisualTransformer.forward toy_vit toy_gen toy_image float_0_5 true = Ok (y, g')
    /\ CLIP.encode_image toy_clip toy_gen (Some toy_image) None float_0_5 false
       = Ok (VTensor y, g')
    /\ CLIP.encode_image toy_clip toy_gen None (Some toy_image) float_0_5 false
       = Ok (VTensor y, g')
    /\ shape y = [1; 3; 1]
    /\ (PyFloat.ne_zero float_0_5 = false -> 3 = 2 * 2 + 1)
    /\ (PyFloat.ne_zero float_0_5 = true ->
        exists k, VisualTransformer.len_keep (2 * 2 + 1) float_0_5 = Ok k
                  /\ 3 = slice_stop (2 * 2) k + 1).
Proof.
  eapply (encode_image_one_side_returns_token_sequence toy_clip toy_vit toy_gen
            toy_image _ float_0_5 1 1 2 2 3 false).
  - reflexivity.
  - reflexivity.
  - reflexivity.
  - lia.
  - lia.
  - reflexivity.
  - reflexivity.
  - reflexivity.
  - exact (checked_keeps_shape 1 [1; 3]).
  - repeat constructor; exact (checked_keeps_shape 1 [3; 1]).
  - exact (checked_keeps_shape 1 [3; 1]).
Defined.

(** C10 as stated fails once tokens are masked: on the small model
    ([grid = 2], so [grid * grid + 1 = 5]) a left image alone with a mask
    ratio of 0.5 comes back with 3 tokens, not 5. *)
Lemma encode_image_one_side_masked_is_shorter :
  ~ exists y g',
      CLIP.encode_image toy_clip toy_gen (Some toy_image) None float_0_5 false
      = Ok (VTensor y, g')
      /\ shape y = [1; 2 * 2 + 1; 1].
Proof.
  intros (y & g' & Hrun & Hshape).
  assert (H : returned_shape
                (CLIP.encode_image toy_clip toy_gen (Some toy_image) None
                   float_0_5 false) = Some [1; 3; 1])
    by (vm_compute; reflexivity).
  rewrite Hrun in H. simpl in H. rewrite Hshape in H. discriminate.
Qed.

(** * Further properties *)

(** ** Fusing and splitting query, key and value *)

Lemma list_eqb_zero_false (h : nat) (s : list nat) :
  1 <= h -> list_eqb (h :: s) [0] = false.
Proof.
  intros Hh. destruct s; simpl; [|reflexivity].
  destruct (h =? 0) eqn:E; [apply Nat.eqb_eq in E; lia | reflexivity].
Qed.

Lemma cat0_ok {A} (x y : tensor A) (p q : nat) (s : list nat) :
  shape x = p :: s -> shape y = q :: s -> 1 <= p -> 1 <= q ->
  cat 0 x y
  = Ok (mk ((p + q) :: s)
           (fun idx =>
              if nth 0 idx 0 <? p then elt x idx
              else elt y (set_nth 0 (nth 0 idx 0 - p) idx))).
Proof.
  intros Hx Hy Hp Hq. unfold cat, rank. rewrite Hx, Hy.
  rewrite !list_eqb_zero_false by assumption.
  cbn [List.length Nat.eqb Nat.ltb Nat.leb negb drop_nth nth set_nth].
  rewrite Nat.eqb_refl, list_eqb_refl. reflexivity.
Qed.

Lemma chunk3_of_three {A} (x : tensor A) (h : nat) (s : list nat) :
  shape x = (h + h + h) :: s -> 1 <= h ->
  chunk 3 x
  = Ok (map (fun k =>
               mk (h :: s)
                  (fun idx => elt x (set_nth 0 (nth 0 idx 0 + k * h) idx)))
            [0; 1; 2]).
Proof.
  intros Hx Hh. unfold chunk. rewrite Hx.
  assert (Hc : (h + h + h + 3 - 1) / 3 = h).
  { replace (h + h + h + 3 - 1) with (h * 3 + 2) by lia.
    rewrite Nat.div_add_l by lia. rewrite (Nat.div_small 2 3) by lia. lia. }
  rewrite Hc.
  assert (Hn : (h + h + h + h - 1) / h = 3).
  { replace (h + h + h + h - 1) with (3 * h + (h - 1)) by lia.
    rewrite Nat.div_add_l by lia. rewrite Nat.div_small by lia. lia. }
  rewrite Hn.
  destruct (h =? 0) eqn:E; [apply Nat.eqb_eq in E; lia|].
  cbn [seq map]. repeat f_equal; lia.
Qed.

(** X1: [torch.cat((q, k, v))] followed by [torch.chunk(_, chunks=3)] gives
    the three tensors back.  For [q], [k], [v] of one shape with [h >= 1]
    rows, the fused tensor has [3 * h] rows, holding [q], [k] and [v] in this
    order, and the three chunks have the shape and the elements of [q], [k]
    and [v]. *)
Theorem chunk3_cat3_round_trip (q k v : tensor R) (h : nat) (s : list nat) :
  shape q = h :: s -> shape k = h :: s -> shape v = h :: s -> 1 <= h ->
  exists w q' k' v',
    cat3 q k v = Ok w
    /\ shape w = (3 * h) :: s
    /\ chunk3 w = Ok (q', k', v')
    /\ shape q' = h :: s /\ shape k' = h :: s /\ shape v' = h :: s
    /\ forall i rest, i < h ->
         elt w (i :: rest) = elt q (i :: rest)
         /\ elt w (h + i :: rest) = elt k (i :: rest)
         /\ elt w (2 * h + i :: rest) = elt v (i :: rest)
         /\ elt q' (i :: rest) = elt q (i :: rest)
         /\ elt k' (i :: rest) = elt k (i :: rest)
         /\ elt v' (i :: rest) = elt v (i :: rest).
Proof.
  intros Hq Hk Hv Hh. unfold cat3.
  rewrite (cat0_ok q k h h s Hq Hk Hh Hh). cbn [bind].
  erewrite (cat0_ok _ v (h + h) h s); [| reflexivity | exact Hv | lia | exact Hh].
  cbn [bind].
  do 4 eexists. split; [reflexivity|].
  split; [cbn [shape]; f_equal; lia|].
  split.
  { unfold chunk3.
    erewrite (chunk3_of_three _ h s); [| reflexivity | exact Hh].
    cbn [bind map]. reflexivity. }
  cbn [shape elt]. repeat split; cbn [nth set_nth].
  - replace (i <? h + h) with true by (symmetry; apply Nat.ltb_lt; lia).
    replace (i <? h) with true by (symmetry; apply Nat.ltb_lt; lia).
    reflexivity.
  - replace (h + i <? h + h) with true by (symmetry; apply Nat.ltb_lt; lia).
    replace (h + i <? h) with false by (symmetry; apply Nat.ltb_ge; lia).
    replace (h + i - h) with i by lia. reflexivity.
  - replace (2 * h + i <? h + h) with false by (symmetry; apply Nat.ltb_ge; lia).
    replace (2 * h + i - (h + h)) with i by lia. reflexivity.
  - replace (i + 0 * h) with i by lia.
    replace (i <? h + h) with true by (symmetry; apply Nat.ltb_lt; lia).
    replace (i <? h) with true by (symmetry; apply Nat.ltb_lt; lia).
    reflexivity.
  - replace (i + 1 * h <? h + h) with true by (symmetry; apply Nat.ltb_lt; lia).
    replace (i + 1 * h <? h) with false by (symmetry; apply Nat.ltb_ge; lia).
    replace (i + 1 * h - h) with i by lia. reflexivity.
  - replace (i + 2 * h <? h + h) with false by (symmetry; apply Nat.ltb_ge; lia).
    replace (i + 2 * h - (h + h)) with i by lia. reflexivity.
Qed.

Lemma chunk3_cat3_round_trip_witness :
  exists w q' k' v',
    cat3 (demo_weight 10) (demo_weight 30) (demo_weight 50) = Ok w
    /\ shape w = (3 * 2) :: [2]
    /\ chunk3 w = Ok (q', k', v')
    /\ shape q' = 2 :: [2] /\ shape k' = 2 :: [2] /\ shape v' = 2 :: [2]
    /\ forall i rest, i < 2 ->
         elt w (i :: rest) = elt (demo_weight 10) (i :: rest)
         /\ elt w (2 + i :: rest) = elt (demo_weight 30) (i :: rest)
         /\ elt w (2 * 2 + i :: rest) = elt (demo_weight 50) (i :: rest)
         /\ elt q' (i :: rest) = elt (demo_weight 10) (i :: rest)
         /\ elt k' (i :: rest) = elt (demo_weight 30) (i :: rest)
         /\ elt v' (i :: rest) = elt (demo_weight 50) (i :: rest).
Proof.
  apply (chunk3_cat3_round_trip (demo_weight 10) (demo_weight 30)
           (demo_weight 50) 2 [2]); try reflexivity. lia.
Defined.

(** ** State dicts without attention keys *)

(** X2: a state dict that has, under the prefix read off its first key,
    neither layout's key for vision block 0 nor for text layer 0 (a
    convolutional checkpoint, say) comes back from [convert_state_dict] as it
    went in. *)
Theorem convert_state_dict_without_attention_keys
  (k0 : string) (v0 : tensor R) (rest : state_dict) :
  let sd := (k0, v0) :: rest in
  let prefix := if Str.startswith k0 "module" then "module." else "" in
  Dict.mem (prefix ++ "visual.transformer.resblocks.0.attn.in_proj_weight") sd = false ->
  Dict.mem (prefix ++ "visual.transformer.resblocks.0.attn.Wqkv.weight") sd = false ->
  Dict.mem (bert_key prefix 0 "self.query.weight") sd = false ->
  Dict.mem (bert_key prefix 0 "self.Wqkv.weight") sd = false ->
  convert_state_dict sd = Ok sd.
Proof.
  intros sd prefix. subst sd prefix. intros H1 H2 H3 H4.
  unfold convert_state_dict. rewrite H1, H2. cbn [bind]. rewrite H3, H4.
  reflexivity.
Qed.

Lemma convert_state_dict_without_attention_keys_witness :
  convert_state_dict
    (("visual.conv1.weight", scalar 1)
       :: [("logit_scale", scalar 2); ("bert.embeddings.weight", scalar 3)])
  = Ok (("visual.conv1.weight", scalar 1)
          :: [("logit_scale", scalar 2); ("bert.embeddings.weight", scalar 3)]).
Proof.
  apply (convert_state_dict_without_attention_keys "visual.conv1.weight"
           (scalar 1)
           [("logit_scale", scalar 2); ("bert.embeddings.weight", scalar 3)]);
    reflexivity.
Defined.

(** ** Resizing, when the grids differ *)

(** X3: if the state dict has no positional-embedding table under the
    prefixed key, or the model's backbone has no [grid_size] (the
    convolutional one), [resize_pos_embed] gives the state dict back as it
    is and the interpolation is not called. *)
Theorem resize_pos_embed_nothing_to_resize
  (interpolate : tensor R -> list nat -> string -> result (tensor R))
  (sd : state_dict) (model : model_ref) (interpolation prefix : string) :
  Dict.get (prefix ++ "visual.positional_embedding") sd = None
  \/ visual_grid_size (unwrap model) = None ->
  resize_pos_embed interpolate sd model interpolation prefix = Ok sd.
Proof.
  intros [H|H]; unfold resize_pos_embed; rewrite H.
  - reflexivity.
  - destruct (Dict.get _ sd); reflexivity.
Qed.

Lemma resize_pos_embed_nothing_to_resize_witness :
  resize_pos_embed (fun _ _ _ => Raise (RuntimeError "not called")) pos_ckpt
    (Bare (mk_Module [] None true)) "bicubic" ""
  = Ok pos_ckpt.
Proof.
  apply (resize_pos_embed_nothing_to_resize _ pos_ckpt
           (Bare (mk_Module [] None true)) "bicubic" "").
  right. reflexivity.
Defined.

Lemma reshape_infer_ok {A} (x : tensor A) (known : list nat) (d : nat) :
  numel (shape x) = d * numel known -> numel known <> 0 ->
  reshape_infer known x
  = Ok (mk (known ++ [d])
           (fun idx => elt x (unravel (shape x) (ravel (known ++ [d]) idx)))).
Proof.
  intros Hn Hm. unfold reshape_infer. rewrite Hn.
  rewrite Nat.Div0.mod_mul, Nat.div_mul by assumption.
  destruct (numel known =? 0) eqn:E; [apply Nat.eqb_eq in E; contradiction|].
  reflexivity.
Qed.

(** X4: when the stored table has [o * o + 1] rows of width [d], a count other
    than the model's [g0 * g1 + 1], and the interpolation turns a
    [(1, d, o, o)] grid into a [(1, d, g0, g1)] one, [resize_pos_embed]
    replaces the table by one with [g0 * g1 + 1] rows of width [d] whose row
    0 is the stored class-token row, and touches no other entry. *)
Theorem resize_pos_embed_resizes
  (interpolate : tensor R -> list nat -> string -> result (tensor R))
  (sd : state_dict) (model : model_ref) (interpolation prefix : string)
  (old_pos_embed : tensor R) (o d g0 g1 : nat) :
  Dict.get (prefix ++ "visual.positional_embedding") sd = Some old_pos_embed ->
  shape old_pos_embed = [o * o + 1; d] ->
  visual_grid_size (unwrap model) = Some [g0; g1] ->
  o * o <> g0 * g1 -> 1 <= o -> 1 <= d -> 1 <= g0 -> 1 <= g1 ->
  (forall x, shape x = [1; d; o; o] ->
     exists y, interpolate x [g0; g1] interpolation = Ok y
               /\ shape y = [1; d; g0; g1]) ->
  exists new_pos_embed,
    resize_pos_embed interpolate sd model interpolation prefix
    = Ok (Dict.set (prefix ++ "visual.positional_embedding") new_pos_embed sd)
    /\ shape new_pos_embed = [g0 * g1 + 1; d]
    /\ (forall j, elt new_pos_embed [0; j] = elt old_pos_embed [0; j])
    /\ forall k : string, k <> (prefix ++ "visual.positional_embedding")%string ->
         Dict.get k (Dict.set (prefix ++ "visual.positional_embedding")
                              new_pos_embed sd)
         = Dict.get k sd.
Proof.
  intros Hget Hold Hgrid Hne Ho Hd Hg0 Hg1 Hint.
  unfold resize_pos_embed. rewrite Hget, Hgrid.
  cbn [to_2tuple to_ntuple tuple_at nth_error bind].
  unfold shape_at at 1. rewrite Hold. cbn [nth_error bind].
  destruct (g0 * g1 + 1 =? o * o + 1) eqn:E; [apply Nat.eqb_eq in E; lia|].
  unfold slice_rows_to, slice_rows_from. rewrite Hold. cbn [bind].
  unfold shape_at. cbn [shape nth_error bind].
  replace (o * o + 1 - 1) with (o * o) by lia.
  rewrite Nat.sqrt_square. cbn [tuple_at repeat nth_error bind].
  replace (Nat.min (o * o + 1) 1) with 1 by lia.
  erewrite (reshape_infer_ok _ [1; o; o] d);
    [| cbn [shape numel fold_right]; lia | cbn [numel fold_right]; nia].
  cbn [bind app]. unfold permute at 1, rank.
  cbn [shape List.length is_perm_of_range Nat.eqb andb seq forallb existsb orb
       map nth bind].
  match goal with
  | |- context [interpolate ?x [g0; g1] interpolation] =>
      destruct (Hint x eq_refl) as (y & -> & Hy)
  end.
  cbn [bind]. unfold permute, rank. rewrite Hy.
  cbn [List.length is_perm_of_range Nat.eqb andb seq forallb existsb orb
       map nth bind].
  erewrite (reshape_infer_ok _ [1; g0 * g1] d);
    [| cbn [shape numel fold_right]; lia | cbn [numel fold_right]; nia].
  cbn [bind app]. unfold first_row. cbn [shape Nat.ltb Nat.leb bind].
  erewrite (cat0_ok _ _ 1 (g0 * g1) [d]);
    [| cbn [shape]; f_equal; lia | reflexivity | lia | nia].
  cbn [bind]. eexists. split; [reflexivity|].
  split; [cbn [shape]; f_equal; lia|]. split.
  - intros j. cbn [elt nth Nat.ltb Nat.leb]. reflexivity.
  - intros k Hk. apply get_set_other. exact Hk.
Qed.

Lemma resize_pos_embed_resizes_witness :
  exists new_pos_embed,
    resize_pos_embed toy_interpolate pos_ckpt grid_3x3_model "bicubic" ""
    = Ok (Dict.set ("" ++ "visual.positional_embedding") new_pos_embed pos_ckpt)
    /\ shape new_pos_embed = [3 * 3 + 1; 3]
    /\ (forall j, elt new_pos_embed [0; j]
                  = elt (mk [5; 3] (fun idx => INR (ravel [5; 3] idx))) [0; j])
    /\ forall k : string, k <> ("" ++ "visual.positional_embedding")%string ->
         Dict.get k (Dict.set ("" ++ "visual.positional_embedding")
                              new_pos_embed pos_ckpt)
         = Dict.get k pos_ckpt.
Proof.
  apply (resize_pos_embed_resizes toy_interpolate pos_ckpt grid_3x3_model
           "bicubic" "" (mk [5; 3] (fun idx => INR (ravel [5; 3] idx))) 2 3 3 3);
    try reflexivity; try lia.
  intros x Hx. eexists. split; [reflexivity|].
  cbn [shape]. rewrite Hx. reflexivity.
Defined.

(** X5: a stored table that holds the class-token row only cannot be resized:
    with a model grid of at least one cell, carving a [0 x 0] grid out of no
    rows raises. *)
Theorem resize_pos_embed_class_token_only_raises
  (interpolate : tensor R -> list nat -> string -> result (tensor R))
  (sd : state_dict) (model : model_ref) (interpolation prefix : string)
  (old_pos_embed : tensor R) (d g0 g1 : nat) :
  Dict.get (prefix ++ "visual.positional_embedding") sd = Some old_pos_embed ->
  shape old_pos_embed = [1; d] ->
  visual_grid_size (unwrap model) = Some [g0; g1] ->
  g0 * g1 <> 0 ->
  exists msg,
    resize_pos_embed interpolate sd model interpolation prefix
    = Raise (RuntimeError msg).
Proof.
  intros Hget Hold Hgrid Hg. eexists.
  unfold resize_pos_embed. rewrite Hget, Hgrid.
  cbn [to_2tuple to_ntuple tuple_at nth_error bind].
  unfold shape_at at 1. rewrite Hold. cbn [nth_error bind].
  destruct (g0 * g1 + 1 =? 1) eqn:E; [apply Nat.eqb_eq in E; lia|].
  unfold slice_rows_to, slice_rows_from. rewrite Hold. reflexivity.
Qed.

Lemma resize_pos_embed_class_token_only_raises_witness :
  exists msg,
    resize_pos_embed toy_interpolate
      [("visual.positional_embedding", mk [1; 3] (fun _ => 0%R))]
      grid_3x3_model "bicubic" ""
    = Raise (RuntimeError msg).
Proof.
  apply (resize_pos_embed_class_token_only_raises toy_interpolate _
           grid_3x3_model "bicubic" "" (mk [1; 3] (fun _ => 0%R)) 3 3 3);
    try reflexivity. lia.
Defined.

(** ** Float formats of a whole model *)

Lemma mapM_Forall2 {A B} (f : A -> result B) (l : list A) (l' : list B) :
  mapM f l = Ok l' -> Forall2 (fun a b => f a = Ok b) l l'.
Proof.
  revert l'. induction l as [|a l IH]; simpl; intros l' H.
  - injection H as <-. constructor.
  - apply bind_ok_inv in H. destruct H as [b [Hb H]].
    apply bind_ok_inv in H. destruct H as [bs [Hbs H]].
    injection H as <-. constructor; [assumption | now apply IH].
Qed.

Lemma mapM_ok_map {A B} (f : A -> result B) (h : A -> B) (l : list A) :
  Forall (fun a => f a = Ok (h a)) l -> mapM f l = Ok (map h l).
Proof.
  induction 1 as [|a l Ha _ IH]; simpl; [reflexivity|].
  rewrite Ha, IH. reflexivity.
Qed.

(** X6: on a model none of whose parameters has a gradient (one just built or
    loaded), [convert_weights] returns, and every parameter, under its name
    and in its place, holds its data rounded to half precision. *)
Theorem convert_weights_without_gradients
  (round_to : dtype -> R -> R) (model : model_ref) :
  no_gradients model ->
  exists model',
    convert_weights round_to model = Ok model'
    /\ named_parameters (unwrap model')
       = map (fun np : string * Param =>
                (fst np, mk_Param (half round_to (data (snd np))) None))
             (named_parameters (unwrap model))
    /\ visual_grid_size (unwrap model') = visual_grid_size (unwrap model)
    /\ training (unwrap model') = training (unwrap model).
Proof.
  intros Hng. unfold convert_weights, for_parameters.
  rewrite (mapM_ok_map _
             (fun np : string * Param =>
                (fst np, mk_Param (half round_to (data (snd np))) None))).
  - cbn [bind]. eexists. split; [reflexivity|]. destruct model; auto.
  - unfold no_gradients in Hng.
    eapply Forall_impl; [|exact Hng]. intros [name p] Hp. simpl in Hp.
    unfold param_to_fp16. rewrite Hp. reflexivity.
Qed.

(** X7: likewise [convert_models_to_fp32] on a model without gradients: it
    returns and every parameter holds its data rounded to single precision. *)
Theorem convert_models_to_fp32_without_gradients
  (round_to : dtype -> R -> R) (model : model_ref) :
  no_gradients model ->
  exists model',
    convert_models_to_fp32 round_to model = Ok model'
    /\ named_parameters (unwrap model')
       = map (fun np : string * Param =>
                (fst np, mk_Param (float round_to (data (snd np))) None))
             (named_parameters (unwrap model)).
Proof.
  intros Hng. unfold convert_models_to_fp32, for_parameters.
  rewrite (mapM_ok_map _
             (fun np : string * Param =>
                (fst np, mk_Param (float round_to (data (snd np))) None))).
  - cbn [bind]. eexists. split; [reflexivity|]. destruct model; auto.
  - unfold no_gradients in Hng.
    eapply Forall_impl; [|exact Hng]. intros [name p] Hp. simpl in Hp.
    unfold param_to_fp32. rewrite Hp. reflexivity.
Qed.

Lemma fresh_model_no_gradients : no_gradients fresh_model.
Proof. repeat constructor. Qed.

Lemma convert_weights_without_gradients_witness :
  exists model',
    convert_weights no_rounding fresh_model = Ok model'
    /\ named_parameters (unwrap model')
       = map (fun np : string * Param =>
                (fst np, mk_Param (half no_rounding (data (snd np))) None))
             (named_parameters (unwrap fresh_model))
    /\ visual_grid_size (unwrap model') = visual_grid_size (unwrap fresh_model)
    /\ training (unwrap model') = training (unwrap fresh_model).
Proof.
  apply (convert_weights_without_gradients no_rounding fresh_model).
  exact fresh_model_no_gradients.
Defined.

Lemma convert_models_to_fp32_without_gradients_witness :
  exists model',
    convert_models_to_fp32 no_rounding fresh_model = Ok model'
    /\ named_parameters (unwrap model')
       = map (fun np : string * Param =>
                (fst np, mk_Param (float no_rounding (data (snd np))) None))
             (named_parameters (unwrap fresh_model)).
Proof.
  apply (convert_models_to_fp32_without_gradients no_rounding fresh_model).
  exact fresh_model_no_gradients.
Defined.

Lemma param_to_fp16_data round_to p q :
  param_to_fp16 round_to p = Ok q -> dt (data q) = float16.
Proof.
  unfold param_to_fp16. intros H. apply bind_ok_inv in H.
  destruct H as [b [_ H]]. destruct b; injection H as <-; reflexivity.
Qed.

Lemma load_param_keeps round_to prefix sd np r :
  load_param round_to prefix sd np = Ok r ->
  fst (fst r) = fst np /\ dt (data (snd (fst r))) = dt (data (snd np)).
Proof.
  destruct np as [name p]. unfold load_param.
  destruct (Dict.get (prefix ++ name) sd) as [v|].
  - intros H. apply bind_ok_inv in H. destruct H as (v' & _ & H).
    destruct (list_eqb (shape v') (shape (values (data p))));
      injection H as <-; auto.
  - intros H. injection H as <-. auto.
Qed.

Lemma unwrap_rewrap (model : model_ref) (m : Module_) :
  unwrap (rewrap model m) = m.
Proof. destruct model; reflexivity. Qed.

Lemma unwrap_eval (model : model_ref) :
  unwrap (eval model)
  = mk_Module (named_parameters (unwrap model))
              (visual_grid_size (unwrap model)) false.
Proof. destruct model; reflexivity. Qed.

Lemma half_then_load round_to prefix sd (ps0 ps1 : list (string * Param))
  (ps2 : list (string * Param * bool)) :
  Forall2 (fun a b =>
             (let '(name, p) := a in
              q <- param_to_fp16 round_to p ;; Ok (name, q)) = Ok b) ps0 ps1 ->
  Forall2 (fun a b => load_param round_to prefix sd a = Ok b) ps1 ps2 ->
  map fst (map fst ps2) = map fst ps0
  /\ Forall (fun np : string * Param => dt (data (snd np)) = float16)
            (map fst ps2).
Proof.
  intros H1. revert ps2.
  induction H1 as [|[n0 p0] [n1 p1] ps0 ps1 Hf _ IH]; intros ps2 H2.
  - inversion H2; subst. split; constructor.
  - inversion H2 as [|? np2 ? ps2' Hl Hrest]; subst.
    destruct (IH ps2' Hrest) as [IHn IHd].
    apply bind_ok_inv in Hf. destruct Hf as [q [Hq Hf]]. injection Hf as <- <-.
    apply param_to_fp16_data in Hq.
    apply load_param_keeps in Hl. destruct Hl as [Hn Hd]. cbn [fst snd] in Hn, Hd.
    split.
    + cbn [map fst]. rewrite Hn, IHn. reflexivity.
    + cbn [map]. constructor; [congruence | exact IHd].
Qed.

(** X8: whenever [restore_model] returns, the model is in evaluation mode,
    has the parameters it had, under the same names in the same order, and
    every one of them is stored in half precision, whatever the two
    checkpoints held. *)
Theorem restore_model_half_precision_eval
  (round_to : dtype -> R -> R)
  (interpolate : tensor R -> list nat -> string -> result (tensor R))
  (model model' : model_ref) (clip_state_dict bert_state_dict : option state_dict)
  (use_flash_attention : bool) :
  restore_model round_to interpolate model clip_state_dict bert_state_dict
                use_flash_attention = Ok model' ->
  training (unwrap model') = false
  /\ map fst (named_parameters (unwrap model'))
     = map fst (named_parameters (unwrap model))
  /\ Forall (fun np : string * Param => dt (data (snd np)) = float16)
            (named_parameters (unwrap model')).
Proof.
  unfold restore_model. intros H. bind_inv H. injection H as <-.
  rewrite unwrap_eval. cbn [training named_parameters].
  split; [reflexivity|].
  match goal with
  | H1 : convert_weights round_to model = Ok ?m1,
    H2 : load_state_dict round_to ?m1 ?sd = Ok ?m2 |- _ =>
      unfold convert_weights, for_parameters in H1;
      apply bind_ok_inv in H1; destruct H1 as [ps1 [Hps1 H1]];
      injection H1 as <-;
      unfold load_state_dict in H2;
      apply bind_ok_inv in H2; destruct H2 as [ps2 [Hps2 H2]];
      destruct (existsb snd ps2); [discriminate|];
      injection H2 as <-;
      apply mapM_Forall2 in Hps1; apply mapM_Forall2 in Hps2;
      rewrite unwrap_rewrap in Hps2; cbn [named_parameters] in Hps2;
      rewrite unwrap_rewrap; cbn [named_parameters];
      exact (half_then_load round_to _ sd _ _ _ Hps1 Hps2)
  end.
Qed.

Lemma restore_model_half_precision_eval_witness :
  exists model',
    restore_model no_rounding toy_interpolate fresh_model (Some pos_ckpt) None false
    = Ok model'
    /\ training (unwrap model') = false
    /\ map fst (named_parameters (unwrap model'))
       = map fst (named_parameters (unwrap fresh_model))
    /\ Forall (fun np : string * Param => dt (data (snd np)) = float16)
              (named_parameters (unwrap model')).
Proof.
  eexists. split; [reflexivity|].
  eapply (restore_model_half_precision_eval no_rounding toy_interpolate
            fresh_model _ (Some pos_ckpt) None false).
  reflexivity.
Defined.









(** on the wrapped model the same checkpoints leave every parameter with its
    own data: the positional table and the scale are not loaded *)
Lemma restore_wrapped_loads_nothing :
  exists model',
    restore_model no_rounding toy_interpolate fresh_model (Some clip_ckpt)
                  (Some bert_ckpt) false = Ok model'
    /\ map (fun np : string * Param => values (data (snd np)))
           (named_parameters (unwrap model'))
       = map (fun np : string * Param =>
                map_elt (no_rounding float16) (values (data (snd np))))
             (named_parameters (unwrap fresh_model)).
Proof. eexists. split; reflexivity. Qed.

(** ** Token masking at any ratio *)

(** X10: on a sequence with at least the class token, [random_masking]
    returns exactly when [int((L - 1) * (1 - mask_ratio))] has a value,
    whatever that value is, a negative one or one beyond [L - 1] included
    (a ratio above 1 or below 0): it then returns between 1 and [L] tokens
    per row, the first of them the input's class token, and takes
    [N * (L - 1)] samples from the generator.  When the conversion to an int
    raises (the product is a NaN or an infinity, or [L - 1] is beyond the
    floats), [random_masking] raises that [ValueError] or [OverflowError]. *)
Theorem random_masking_returns_when_len_keep_does {A} (g : generator)
  (x : tensor A) (mask_ratio : PyFloat.t) (N L D : nat) :
  shape x = [N; L; D] -> 1 <= L ->
  match VisualTransformer.len_keep L mask_ratio with
  | Ok _ =>
      exists y T,
        VisualTransformer.random_masking g x mask_ratio
        = Ok (y, mk_gen (samples g) (cursor g + N * (L - 1)))
        /\ shape y = [N; T; D] /\ 1 <= T <= L
        /\ forall n d, n < N -> d < D -> elt y [n; 0; d] = elt x [n; 0; d]
  | Raise e =>
      VisualTransformer.random_masking g x mask_ratio = Raise e
      /\ exists msg, e = ValueError msg \/ e = OverflowError msg
  end.
Proof.
  intros Hx HL.
  destruct (VisualTransformer.len_keep L mask_ratio) as [k|e] eqn:Hk.
  - destruct (random_masking_eval g x mask_ratio N L D k Hx HL Hk)
      as (y & noise & Hrun & _ & Hshape & Hcls).
    exists y, (1 + slice_stop (L - 1) k).
    pose proof (slice_stop_le (L - 1) k).
    repeat split; try assumption; try lia.
    intros n d Hn Hd. now apply (Hcls n 0 d).
  - split; [exact (random_masking_len_keep_raises g x mask_ratio N L D e Hx Hk)|].
    unfold VisualTransformer.len_keep, PyFloat.of_int in Hk.
    destruct (binary_normalize PyFloat.prec PyFloat.emax (Z.of_nat L - 1) 0 false)
      as [s|s| |s m e0]; cbn [bind] in Hk;
      try (injection Hk as <-; eexists; right; reflexivity);
      (destruct (PyFloat.mul _ _) as [s'|s'| |s' m' e']; cbn [PyFloat.to_int] in Hk;
       try discriminate; injection Hk as <-; eexists;
       [right; reflexivity | left; reflexivity]).
Qed.

Lemma random_masking_returns_when_len_keep_does_witness :
  exists (y : tensor R) T,
    VisualTransformer.random_masking toy_gen
      (mk [2; 5; 3] (fun idx => INR (ravel [2; 5; 3] idx))) float_1_5
    = Ok (y, mk_gen (samples toy_gen) (cursor toy_gen + 2 * (5 - 1)))
    /\ shape y = [2; T; 3] /\ 1 <= T <= 5
    /\ forall n d, n < 2 -> d < 3 ->
         elt y [n; 0; d]
         = elt (mk [2; 5; 3] (fun idx => INR (ravel [2; 5; 3] idx))) [n; 0; d].
Proof.
  apply (random_masking_returns_when_len_keep_does toy_gen
           (mk [2; 5; 3] (fun idx => INR (ravel [2; 5; 3] idx))) float_1_5 2 5 3).
  - reflexivity.
  - lia.
Defined.

(** rounding a mantissa that is not negative gives no NaN *)
Lemma shr_1_nonneg (mrs : shr_record) :
  (0 <= shr_m mrs)%Z -> (0 <= shr_m (shr_1 mrs))%Z.
Proof.
  destruct mrs as [m r s]. destruct m as [|[p|p|]|[p|p|]]; simpl; lia.
Qed.

Lemma iter_pos_nonneg (p : positive) (mrs : shr_record) :
  (0 <= shr_m mrs)%Z -> (0 <= shr_m (iter_pos shr_1 p mrs))%Z.
Proof.
  revert mrs. induction p as [p IH|p IH|]; intros mrs H; simpl.
  - apply IH, IH, shr_1_nonneg, H.
  - apply IH, IH, H.
  - apply shr_1_nonneg, H.
Qed.

Lemma shr_fexp_nonneg (m e : Z) (l : location) :
  (0 <= m)%Z ->
  (0 <= shr_m (fst (shr_fexp PyFloat.prec PyFloat.emax m e l)))%Z.
Proof.
  intros Hm. unfold shr_fexp, shr.
  assert (H0 : (0 <= shr_m (shr_record_of_loc m l))%Z)
    by (destruct l as [|[]]; exact Hm).
  destruct (fexp PyFloat.prec PyFloat.emax (Zdigits2 m + e) - e)%Z;
    cbn [fst]; [exact H0 | apply iter_pos_nonneg, H0 | exact H0].
Qed.

Lemma binary_round_aux_not_nan (sx : bool) (mx ex : Z) (lx : location) :
  (0 <= mx)%Z ->
  binary_round_aux PyFloat.prec PyFloat.emax sx mx ex lx <> S754_nan.
Proof.
  intros Hm. unfold binary_round_aux.
  pose proof (shr_fexp_nonneg mx ex lx Hm) as H1.
  destruct (shr_fexp PyFloat.prec PyFloat.emax mx ex lx) as [mrs' e'].
  cbn [fst] in H1.
  assert (H2 : (0 <= round_nearest_even (shr_m mrs') (loc_of_shr_record mrs'))%Z).
  { unfold round_nearest_even.
    destruct (loc_of_shr_record mrs') as [|[]]; try lia.
    destruct (Z.even (shr_m mrs')); lia. }
  pose proof (shr_fexp_nonneg _ e' loc_Exact H2) as H3.
  destruct (shr_fexp PyFloat.prec PyFloat.emax _ e' loc_Exact) as [mrs'' e''].
  cbn [fst] in H3.
  destruct (shr_m mrs'') as [|m|m]; [discriminate | | lia].
  destruct (e'' <=? PyFloat.emax - PyFloat.prec)%Z; discriminate.
Qed.

(** the float of an int is a zero or a finite number *)
Lemma of_int_number (i : Z) (l : PyFloat.t) :
  PyFloat.of_int i = Ok l ->
  (exists s, l = S754_zero s) \/ (exists s m e, l = S754_finite s m e).
Proof.
  unfold PyFloat.of_int.
  destruct (binary_normalize PyFloat.prec PyFloat.emax i 0 false)
    as [s|s| |s m e] eqn:E; intros H; try discriminate.
  - injection H as <-. left. eauto.
  - exfalso. unfold binary_normalize, binary_round in E.
    destruct i as [|p|p]; [discriminate | |];
      destruct (shl_align _ _ _) as [mz ez];
      exact (binary_round_aux_not_nan _ (Zpos mz) ez loc_Exact ltac:(lia) E).
  - injection H as <-. right. eauto.
Qed.

(** X11: the two ends.  A mask ratio of exactly 1.0 leaves the class token
    alone, and a NaN lets no call through: [random_masking] raises
    [ValueError].  Both for a sequence whose [L - 1] has a float. *)
Theorem random_masking_edge_ratios {A} (g : generator) (x : tensor A)
  (N L D : nat) (l : PyFloat.t) :
  shape x = [N; L; D] -> 1 <= L ->
  PyFloat.of_int (Z.of_nat L - 1) = Ok l ->
  (exists y g',
      VisualTransformer.random_masking g x PyFloat.one = Ok (y, g')
      /\ shape y = [N; 1; D]
      /\ forall n d, n < N -> d < D -> elt y [n; 0; d] = elt x [n; 0; d])
  /\ exists msg,
       VisualTransformer.random_masking g x PyFloat.nan = Raise (ValueError msg).
Proof.
  intros Hx HL Hl. split.
  - assert (Hk : VisualTransformer.len_keep L PyFloat.one = Ok 0%Z).
    { unfold VisualTransformer.len_keep. rewrite Hl. cbn [bind].
      destruct (of_int_number _ _ Hl) as [[s ->]|(s & m & e & ->)]; reflexivity. }
    destruct (random_masking_eval g x PyFloat.one N L D 0 Hx HL Hk)
      as (y & noise & Hrun & _ & Hshape & Hcls).
    exists y. eexists. split; [exact Hrun|].
    assert (Hs : slice_stop (L - 1) 0 = 0) by (unfold slice_stop; simpl; lia).
    rewrite Hs in Hshape. split; [exact Hshape|].
    intros n d Hn Hd. now apply (Hcls n 0 d).
  - eexists. apply (random_masking_len_keep_raises g x PyFloat.nan N L D _ Hx).
    unfold VisualTransformer.len_keep. rewrite Hl. cbn [bind].
    destruct l; reflexivity.
Qed.

Lemma random_masking_edge_ratios_witness :
  (exists (y : tensor R) g',
      VisualTransformer.random_masking toy_gen
        (mk [2; 5; 3] (fun idx => INR (ravel [2; 5; 3] idx))) PyFloat.one
      = Ok (y, g')
      /\ shape y = [2; 1; 3]
      /\ forall n d, n < 2 -> d < 3 ->
           elt y [n; 0; d]
           = elt (mk [2; 5; 3] (fun idx => INR (ravel [2; 5; 3] idx))) [n; 0; d])
  /\ exists msg,
       VisualTransformer.random_masking toy_gen
         (mk [2; 5; 3] (fun idx => INR (ravel [2; 5; 3] idx))) PyFloat.nan
       = Raise (ValueError msg).
Proof.
  eapply (random_masking_edge_ratios toy_gen
            (mk [2; 5; 3] (fun idx => INR (ravel [2; 5; 3] idx))) 2 5 3).
  - reflexivity.
  - lia.
  - reflexivity.
Defined.

(** X12: a sequence without any token, not even the class token, cannot be
    masked.  Every call raises, and whenever the mask ratio is one for which
    [int(-1 * (1 - mask_ratio))] has a value, what is raised is the
    [RuntimeError] of asking for noise of [-1] columns. *)
Theorem random_masking_empty_sequence_raises {A} (g : generator)
  (x : tensor A) (mask_ratio : PyFloat.t) (N D : nat) :
  shape x = [N; 0; D] ->
  exists e,
    VisualTransformer.random_masking g x mask_ratio = Raise e
    /\ forall k, VisualTransformer.len_keep 0 mask_ratio = Ok k ->
                 exists msg, e = RuntimeError msg.
Proof.
  intros Hx. unfold VisualTransformer.random_masking. rewrite Hx.
  destruct (VisualTransformer.len_keep 0 mask_ratio) as [k|e]; cbn [bind].
  - unfold rand, nonneg_sizes. cbn [mapM].
    destruct (Z.of_nat N <? 0)%Z eqn:E; [apply Z.ltb_lt in E; lia|].
    eexists. split; [reflexivity|]. intros _ _. eexists. reflexivity.
  - exists e. split; [reflexivity|]. intros k Hk. discriminate.
Qed.

Lemma random_masking_empty_sequence_raises_witness :
  exists e,
    VisualTransformer.random_masking toy_gen
      (mk [2; 0; 3] (fun _ => 0%R)) float_0_5 = Raise e
    /\ forall k, VisualTransformer.len_keep 0 float_0_5 = Ok k ->
                 exists msg, e = RuntimeError msg.
Proof.
  apply (random_masking_empty_sequence_raises toy_gen
           (mk [2; 0; 3] (fun _ => 0%R)) float_0_5 2 3).
  reflexivity.
Defined.

(** ** The patch transformer's other paths *)

(** X13: asked for the embedding (not all token features), the patch
    transformer returns one row per image: the class token's post-LayerNorm
    state times [proj], of shape [(batch, output_dim)] for a [proj] of shape
    [(width, output_dim)], and of shape [(batch, width)] when [proj] is
    [None].  This for a mask ratio of zero, or one for which [len_keep] has a
    value, which leaves [T] tokens; of the framework layers it is asked that
    they keep the shape of what they are given here: [ln_pre] the
    [(batch, T, width)] sequence, the blocks the [(T, batch, width)] one,
    [ln_post] the [(batch, width)] class-token rows. *)
Theorem vit_forward_embedding_shape (vt : VisualTransformer.t) (g : generator)
  (img c : tensor R) (mask_ratio : PyFloat.t) (N W E g0 g1 T : nat) :
  VisualTransformer.conv1 vt img = Ok c ->
  shape c = [N; W; g0; g1] -> 1 <= N -> 1 <= W ->
  shape (VisualTransformer.class_embedding vt) = [W] ->
  shape (VisualTransformer.positional_embedding vt) = [g0 * g1 + 1; W] ->
  tokens_after_masking (g0 * g1 + 1) mask_ratio = Ok T ->
  keeps_shape [N; T; W] (VisualTransformer.ln_pre vt) ->
  Forall (keeps_shape [T; N; W]) (VisualTransformer.resblocks vt) ->
  keeps_shape [N; W] (VisualTransformer.ln_post vt) ->
  match VisualTransformer.proj vt with
  | Some p => shape p = [W; E]
  | None => E = W
  end ->
  exists y g',
    VisualTransformer.forward vt g img mask_ratio false = Ok (y, g')
    /\ shape y = [N; E].
Proof.
  intros Hconv Hc HN HW Hcls Hpos HT Hpre Hblocks Hpost Hproj.
  destruct (vit_trunk vt g img c mask_ratio N W g0 g1 T
              Hconv Hc HN HW Hcls Hpos HT Hpre Hblocks)
    as (x & g' & Sx & HT1 & Hfwd).
  rewrite (Hfwd false).
  destruct (permute_102_ok x _ _ _ Sx) as (x1 & -> & S1). cbn [bind].
  unfold select_mid. rewrite S1.
  replace (0 <? T) with true by (symmetry; apply Nat.ltb_lt; lia).
  cbn [bind].
  match goal with
  | |- context [VisualTransformer.ln_post vt ?t] =>
      destruct (Hpost t eq_refl) as (x2 & -> & S2)
  end.
  cbn [bind].
  destruct (VisualTransformer.proj vt) as [p|].
  - unfold matmul. rewrite Hproj, S2. cbn [rev app].
    rewrite Nat.eqb_refl. cbn [negb bind].
    eexists. eexists. split; reflexivity.
  - subst E. exists x2, g'. split; [reflexivity | exact S2].
Qed.

Lemma vit_forward_embedding_shape_witness :
  exists y g',
    VisualTransformer.forward toy_vit toy_gen toy_image float_0_5 false = Ok (y, g')
    /\ shape y = [1; 1].
Proof.
  eapply (vit_forward_embedding_shape toy_vit toy_gen toy_image _ float_0_5
            1 1 1 2 2 3).
  - reflexivity.
  - reflexivity.
  - lia.
  - lia.
  - reflexivity.
  - reflexivity.
  - reflexivity.
  - exact (checked_keeps_shape 1 [1; 3]).
  - repeat constructor; exact (checked_keeps_shape 1 [3; 1]).
  - exact (checked_keeps_shape 1 [1]).
  - reflexivity.
Defined.

(** X14: a positional-embedding table whose row count is neither 1 nor the
    number of tokens of the image ([g0 * g1 + 1], with at least one patch)
    makes the patch transformer raise when it adds the table to the tokens:
    the checkpoint has to be resized before it is loaded. *)
Theorem vit_forward_wrong_table_raises (vt : VisualTransformer.t)
  (g : generator) (img c : tensor R) (mask_ratio : PyFloat.t)
  (return_all_features : bool) (N W P g0 g1 : nat) :
  VisualTransformer.conv1 vt img = Ok c ->
  shape c = [N; W; g0; g1] -> 1 <= N -> 1 <= W ->
  shape (VisualTransformer.class_embedding vt) = [W] ->
  shape (VisualTransformer.positional_embedding vt) = [P; W] ->
  P <> g0 * g1 + 1 -> P <> 1 -> g0 * g1 <> 0 ->
  exists msg,
    VisualTransformer.forward vt g img mask_ratio return_all_features
    = Raise (RuntimeError msg).
Proof.
  intros Hconv Hc HN HW Hcls Hpos HP HP1 Hg. eexists.
  unfold VisualTransformer.forward. rewrite Hconv. cbn [bind].
  unfold shape_at. rewrite Hc. cbn [nth_error bind].
  destruct (reshape_patches_ok c N W g0 g1 Hc HN HW) as (x1 & -> & S1). cbn [bind].
  destruct (permute_021_ok x1 _ _ _ S1) as (x2 & -> & S2). cbn [bind].
  unfold shape_last. rewrite S2. cbn [rev app bind].
  destruct (binop_ok Rplus (VisualTransformer.class_embedding vt)
              (zeros [N; 1; W]) [N; 1; W]) as (cls & Hadd & S3).
  { rewrite Hcls. unfold broadcast_shapes. cbn [zeros shape rev app broadcast_rev].
    unfold broadcast_dim. rewrite Nat.eqb_refl. reflexivity. }
  unfold add. rewrite Hadd. cbn [bind].
  destruct (cat1_ok cls x2 _ _ _ _ S3 S2) as (x3 & -> & S4). cbn [bind].
  unfold binop. rewrite S4, Hpos.
  unfold broadcast_shapes. cbn [shape rev app broadcast_rev].
  unfold broadcast_dim. rewrite Nat.eqb_refl. cbn [bind].
  destruct (1 + g0 * g1 =? P) eqn:E1; [apply Nat.eqb_eq in E1; lia|].
  destruct (1 + g0 * g1 =? 1) eqn:E2; [apply Nat.eqb_eq in E2; lia|].
  destruct (P =? 1) eqn:E3; [apply Nat.eqb_eq in E3; lia|].
  reflexivity.
Qed.

Lemma vit_forward_wrong_table_raises_witness :
  exists msg,
    VisualTransformer.forward toy_vit_3x3_table toy_gen toy_image
                              PyFloat.zero true
    = Raise (RuntimeError msg).
Proof.
  eapply (vit_forward_wrong_table_raises toy_vit_3x3_table toy_gen toy_image _
            PyFloat.zero true 1 1 10 2 2); try reflexivity; lia.
Defined.

(** X15: a batch of no images does not go through the patch transformer: the
    reshape of the patch grid with an inferred last size raises on a tensor
    without elements. *)
Theorem vit_forward_empty_batch_raises (vt : VisualTransformer.t)
  (g : generator) (img c : tensor R) (mask_ratio : PyFloat.t)
  (return_all_features : bool) (W g0 g1 : nat) :
  VisualTransformer.conv1 vt img = Ok c ->
  shape c = [0; W; g0; g1] ->
  exists msg,
    VisualTransformer.forward vt g img mask_ratio return_all_features
    = Raise (RuntimeError msg).
Proof.
  intros Hconv Hc. eexists.
  unfold VisualTransformer.forward. rewrite Hconv. cbn [bind].
  unfold shape_at. rewrite Hc. cbn [nth_error bind].
  unfold reshape_infer. rewrite Hc. reflexivity.
Qed.

Lemma vit_forward_empty_batch_raises_witness :
  exists msg,
    VisualTransformer.forward toy_vit toy_gen (mk [0; 3; 4; 4] (fun _ => 0%R))
                              PyFloat.zero true
    = Raise (RuntimeError msg).
Proof.
  eapply (vit_forward_empty_batch_raises toy_vit toy_gen
            (mk [0; 3; 4; 4] (fun _ => 0%R)) _ PyFloat.zero true 1 2 2);
    reflexivity.
Defined.

(** X16: without masking ([mask_ratio] equal to 0, that is, the float 0.0
    or -0.0) the patch transformer takes nothing from the random generator:
    it hands the generator back as it got it, and its output is the same
    whatever the generator's state. *)
Theorem vit_forward_without_masking_is_deterministic
  (vt : VisualTransformer.t) (g g0 : generator) (img : tensor R)
  (mask_ratio : PyFloat.t) (return_all_features : bool) :
  PyFloat.ne_zero mask_ratio = false ->
  VisualTransformer.forward vt g img mask_ratio return_all_features
  = match VisualTransformer.forward vt g0 img mask_ratio return_all_features with
    | Ok (y, _) => Ok (y, g)
    | Raise e => Raise e
    end.
Proof.
  intros Hmr. unfold VisualTransformer.forward. rewrite Hmr.
  repeat match goal with
         | |- context [bind ?m _] =>
             lazymatch m with
             | context [bind] => fail
             | _ => destruct m as [?|?]; cbn [bind]; try reflexivity
             end
         end.
  all: destruct return_all_features; cbn [bind];
    repeat match goal with
           | |- context [bind ?m _] =>
               lazymatch m with
               | context [bind] => fail
               | _ => destruct m as [?|?]; cbn [bind]; try reflexivity
               end
           | |- context [VisualTransformer.proj ?v] =>
               destruct (VisualTransformer.proj v)
           end; reflexivity.
Qed.

Lemma vit_forward_without_masking_is_deterministic_witness :
  VisualTransformer.forward toy_vit toy_gen toy_image PyFloat.zero false
  = match VisualTransformer.forward toy_vit (mk_gen (fun _ => 0%Q) 7) toy_image
            PyFloat.zero false with
    | Ok (y, _) => Ok (y, toy_gen)
    | Raise e => Raise e
    end.
Proof.
  apply (vit_forward_without_masking_is_deterministic toy_vit toy_gen
           (mk_gen (fun _ => 0%Q) 7) toy_image PyFloat.zero false).
  reflexivity.
Defined.

(** ** Text encoding and the dispatch of [forward] *)

Lemma text_head_shape (h e B : nat) (head : list layer) (cls : tensor R) :
  CLIP.is_text_head h e head -> shape cls = [B; h] ->
  exists y, Sequential_forward head cls = Ok y /\ shape y = [B; e].
Proof.
  intros (w1 & b1 & w2 & b2 & -> & Hw1 & Hb1 & Hw2 & Hb2) Hcls.
  cbn [Sequential_forward layer_forward]. unfold Linear_forward. cbn [weight bias].
  destruct (linear_rows_ok cls w1 b1 B h h Hcls Hw1 Hb1) as (y1 & -> & S1).
  cbn [bind].
  destruct (linear_rows_ok (relu y1) w2 b2 B h e S1 Hw2 Hb2) as (y2 & -> & S2).
  cbn [bind]. exists y2. auto.
Qed.

(** X17: for a model as [__init__] builds it, a vocabulary with "[PAD]" and a
    text backbone that returns hidden states of shape
    [(batch, seq_len, hidden)] with at least one position, [encode_text]
    returns three embeddings (global, left, right), each of shape
    [(batch, embed_dim)]. *)
Theorem encode_text_three_embeddings (h : nat) (self : CLIP.t)
  (text : tensor Z) (pad : Z) (x : tensor R) (others : list (tensor R))
  (B L : nat) :
  CLIP.initialised h self ->
  Dict.get "[PAD]" (CLIP.vocab self) = Some pad ->
  CLIP.bert self text (CLIP.ne_pad pad text) = Ok (x :: others) ->
  shape x = [B; L; h] -> 1 <= L ->
  exists yg yl yr,
    CLIP.encode_text self (Some text)
    = Ok (VTuple [VTensor yg; VTensor yl; VTensor yr])
    /\ shape yg = [B; CLIP.embed_dim self]
    /\ shape yl = [B; CLIP.embed_dim self]
    /\ shape yr = [B; CLIP.embed_dim self].
Proof.
  intros Hinit Hpad Hbert Hx HL.
  destruct Hinit as (_ & _ & _ & _ & _ & _ & Hg & Hl & Hr).
  unfold CLIP.encode_text. rewrite Hpad. cbn [bind]. rewrite Hbert.
  cbn [bind]. unfold CLIP.to_dtype, select_mid. rewrite Hx.
  replace (0 <? L) with true by (symmetry; apply Nat.ltb_lt; lia).
  cbn [bind].
  match goal with
  | |- context [Sequential_forward (CLIP.text_projection self) ?c] =>
      destruct (text_head_shape h _ B _ c Hg eq_refl) as (yg & -> & Sg);
      destruct (text_head_shape h _ B _ c Hl eq_refl) as (yl & -> & Sl);
      destruct (text_head_shape h _ B _ c Hr eq_refl) as (yr & -> & Sr)
  end.
  cbn [bind]. exists yg, yl, yr. auto.
Qed.

Lemma encode_text_three_embeddings_witness :
  exists yg yl yr,
    CLIP.encode_text toy_clip (Some toy_text)
    = Ok (VTuple [VTensor yg; VTensor yl; VTensor yr])
    /\ shape yg = [1; CLIP.embed_dim toy_clip]
    /\ shape yl = [1; CLIP.embed_dim toy_clip]
    /\ shape yr = [1; CLIP.embed_dim toy_clip].
Proof.
  eapply (encode_text_three_embeddings 1 toy_clip toy_text 0%Z _ _ 1 2).
  - exact toy_clip_initialised.
  - reflexivity.
  - reflexivity.
  - reflexivity.
  - lia.
Defined.

(** X18: without a text, [forward] does not pass its [mask_ratio] on: with at
    least one image present it returns what [encode_image] returns for a
    mask ratio of 0, whatever mask ratio it was called with. *)
Theorem forward_without_text_never_masks (self : CLIP.t) (g : generator)
  (img_l img_r : option (tensor R)) (mask_ratio : PyFloat.t) :
  CLIP.is_none img_l && CLIP.is_none img_r = false ->
  CLIP.forward self g img_l img_r None mask_ratio
  = CLIP.encode_image self g img_l img_r PyFloat.zero false.
Proof.
  intros H. unfold CLIP.forward.
  destruct img_l as [l|], img_r as [r|]; try discriminate; reflexivity.
Qed.

Lemma forward_without_text_never_masks_witness :
  CLIP.forward toy_clip toy_gen (Some toy_image) None None float_0_5
  = CLIP.encode_image toy_clip toy_gen (Some toy_image) None PyFloat.zero false.
Proof.
  apply (forward_without_text_never_masks toy_clip toy_gen (Some toy_image)
           None float_0_5).
  reflexivity.
Defined.

(** X19: [forward] states its preconditions by assertion.  With nothing given
    it fails with "text and images cannot all be None!"; with a text and
    exactly one of the two images it fails with "both images is required!",
    before any encoder runs. *)
Theorem forward_assertions (self : CLIP.t) (g : generator)
  (img : tensor R) (text : tensor Z) (mask_ratio : PyFloat.t) :
  CLIP.forward self g None None None mask_ratio
  = Raise (AssertionError "text and images cannot all be None!")
  /\ CLIP.forward self g (Some img) None (Some text) mask_ratio
     = Raise (AssertionError "both images is required!")
  /\ CLIP.forward self g None (Some img) (Some text) mask_ratio
     = Raise (AssertionError "both images is required!").
Proof. repeat split. Qed.

(** ** Blocks of the backbones *)

Lemma sigmoid_bounds (z : R) : (0 < sigmoid z < 1)%R.
Proof.
  unfold sigmoid. pose proof (exp_pos (- z)) as He.
  split.
  - apply Rdiv_lt_0_compat; lra.
  - apply (Rmult_lt_reg_r (1 + Rtrigo_def.exp (- z))); [lra|].
    unfold Rdiv. rewrite Rmult_assoc, Rinv_l by lra. lra.
Qed.

(** X20: [QuickGELU] keeps the shape and pulls every finite element towards
    zero without changing its sign: an element [v >= 0] goes to a value
    between 0 and [v], an element [v <= 0] to a value between [v] and 0.
    The elements are real numbers here: an infinity or a NaN of a float
    tensor is not among them, and for an element of minus infinity the
    framework gives NaN. *)
Theorem QuickGELU_between_zero_and_input (x : tensor R) :
  shape (QuickGELU_forward x) = shape x
  /\ forall idx,
       ((0 <= elt x idx -> 0 <= elt (QuickGELU_forward x) idx <= elt x idx)
        /\ (elt x idx <= 0 -> elt x idx <= elt (QuickGELU_forward x) idx <= 0))%R.
Proof.
  split; [reflexivity|]. intros idx. cbn [QuickGELU_forward map_elt elt].
  pose proof (sigmoid_bounds (1702 / 1000 * elt x idx)) as [H0 H1].
  split; intros Hx; split; nra.
Qed.

Lemma QuickGELU_between_zero_and_input_witness :
  (0 <= elt (QuickGELU_forward (hidden 2)) [O; O] <= elt (hidden 2) [O; O])%R.
Proof.
  destruct (QuickGELU_between_zero_and_input (hidden 2)) as [_ H].
  destruct (H [O; O]) as [Hpos _]. apply Hpos. cbn. lra.
Defined.

Lemma linear_ok (x wt bv : tensor R) (rs : list nat) (i o : nat) :
  rev (shape x) = i :: rs -> shape wt = [o; i] -> shape bv = [o] ->
  exists y, linear x wt (Some bv) = Ok y /\ shape y = rev rs ++ [o].
Proof.
  intros Hx Hw Hb. unfold linear. rewrite Hw, Hx, Hb.
  rewrite Nat.eqb_refl, list_eqb_refl. cbn [negb].
  eexists. split; reflexivity.
Qed.

Lemma add_same_shape_ok (x y : tensor R) :
  shape y = shape x -> exists z, add x y = Ok z /\ shape z = shape x.
Proof.
  intros H. apply binop_ok. rewrite H. apply broadcast_shapes_same.
Qed.

(** X21: a residual attention block built for width [d] maps a sequence of
    shape [(L, N, d)] to a sequence of the same shape, with the standard and
    with the fused attention alike.  Of the attention module and the two
    LayerNorms it is asked that they keep the shape of a sequence of this
    very shape (batch first for the fused attention); on other shapes they
    may raise. *)
Theorem residual_attention_block_keeps_shape (d L N : nat)
  (self : ResidualAttentionBlock.t) (x : tensor R) :
  block_built d self ->
  attention_keeps_shape L N d self ->
  keeps_shape [L; N; d] (ResidualAttentionBlock.ln_1 self) ->
  keeps_shape [L; N; d] (ResidualAttentionBlock.ln_2 self) ->
  shape x = [L; N; d] ->
  exists y, ResidualAttentionBlock.forward self x = Ok y /\ shape y = [L; N; d].
Proof.
  intros (Hflag & b1 & b2 & Hw1 & Hb1 & Sb1 & Hw2 & Hb2 & Sb2) Hattn Hln1 Hln2 Hx.
  unfold ResidualAttentionBlock.forward.
  destruct (Hln1 x Hx) as (h1 & -> & S1). cbn [bind].
  assert (Ha : exists a, ResidualAttentionBlock.attention self h1 = Ok a
                         /\ shape a = [L; N; d]).
  { unfold ResidualAttentionBlock.attention. unfold attention_keeps_shape in Hattn.
    destruct (ResidualAttentionBlock.attn self) as [call|call]; rewrite Hflag.
    - destruct (Hattn h1 S1) as (o & rest & -> & So).
      cbn [bind first_output]. exists o. split; [reflexivity | exact So].
    - unfold transpose_1_0 at 1, rank. rewrite S1. cbn [List.length Nat.leb Nat.sub seq].
      destruct (permute_102_ok h1 _ _ _ S1) as (xt & -> & St). cbn [bind].
      destruct (Hattn xt St) as (o & rest & -> & So). cbn [bind first_output].
      unfold transpose_1_0, rank. rewrite So. cbn [List.length Nat.leb Nat.sub seq].
      destruct (permute_102_ok o _ _ _ So) as (a & -> & Sa).
      exists a. split; [reflexivity | exact Sa]. }
  destruct Ha as (a & -> & Sa). cbn [bind].
  destruct (add_same_shape_ok x a) as (x1 & -> & Sx1); [congruence|].
  cbn [bind]. rewrite Hx in Sx1.
  destruct (Hln2 x1 Sx1) as (h2 & -> & S2). cbn [bind].
  unfold ResidualAttentionBlock.mlp, Linear_forward. rewrite Hb1, Hb2.
  destruct (linear_ok h2 (weight (ResidualAttentionBlock.c_fc self)) b1
              [N; L] d (d * 4)) as (y1 & -> & Sy1);
    [rewrite S2; reflexivity | exact Hw1 | exact Sb1 |].
  cbn [bind].
  destruct (linear_ok (QuickGELU_forward y1)
              (weight (ResidualAttentionBlock.c_proj self)) b2 [N; L] (d * 4) d)
    as (y2 & -> & Sy2);
    [cbn [QuickGELU_forward map_elt shape]; rewrite Sy1; reflexivity
    | exact Hw2 | exact Sb2 |].
  cbn [bind].
  destruct (add_same_shape_ok x1 y2) as (z & -> & Sz);
    [rewrite Sy2, Sx1; reflexivity|].
  exists z. split; [reflexivity | congruence].
Qed.

Lemma residual_attention_block_keeps_shape_witness :
  exists y,
    ResidualAttentionBlock.forward (toy_block true)
      (mk [5; 2; 1] (fun idx => INR (ravel [5; 2; 1] idx))) = Ok y
    /\ shape y = [5; 2; 1].
Proof.
  apply (residual_attention_block_keeps_shape 1 5 2 (toy_block true)).
  - split; [reflexivity|]. do 2 eexists. repeat split; reflexivity.
  - intros x Hx. cbn [toy_block ResidualAttentionBlock.attn].
    destruct (checked_keeps_shape 1 [2; 5] x Hx) as (y & -> & Hy).
    cbn [bind]. exists y, []. split; [reflexivity | exact Hy].
  - exact (checked_keeps_shape 1 [5; 2]).
  - exact (checked_keeps_shape 1 [5; 2]).
  - reflexivity.
Defined.

Lemma add_in_place_inv (out identity y : tensor R) :
  add_in_place out identity = Ok y ->
  broadcast_shapes (shape out) (shape identity) = Ok (shape out)
  /\ shape y = shape out.
Proof.
  unfold add_in_place. intros H.
  apply bind_ok_inv in H. destruct H as [s [Hs H]].
  destruct (list_eqb s (shape out)) eqn:E; [|discriminate].
  assert (s = shape out).
  { clear -E. revert E. generalize (shape out) as t. induction s as [|a s IH];
      intros [|b t] E; simpl in E; try discriminate; [reflexivity|].
    apply andb_true_iff in E. destruct E as [E1 E2].
    apply Nat.eqb_eq in E2. subst. f_equal. now apply IH. }
  subst s. split; [exact Hs|].
  unfold add, binop in H. rewrite Hs in H. cbn [bind] in H.
  now injection H as <-.
Qed.

(** X22: whatever a bottleneck block returns has no negative element (the last
    step is a ReLU); and when the block has no downsampling branch it
    returns only if the input broadcasts to the shape of the main path's
    output, which is then the shape of the result. *)
Theorem bottleneck_output (self : Bottleneck.t) (x y : tensor R) :
  Bottleneck.forward self x = Ok y ->
  (forall idx, (0 <= elt y idx)%R)
  /\ (Bottleneck.downsample self = None ->
      broadcast_shapes (shape y) (shape x) = Ok (shape y)).
Proof.
  unfold Bottleneck.forward. intros H. bind_inv H. injection H as <-.
  split.
  - intros idx. cbn [relu map_elt elt]. apply Rmax_l.
  - intros Hd.
    match goal with
    | Hadd : add_in_place ?out ?id = Ok ?z,
      Hid : match Bottleneck.downsample self with _ => _ end = Ok ?id |- _ =>
        rewrite Hd in Hid; injection Hid as <-;
        apply add_in_place_inv in Hadd; destruct Hadd as [Hb Hs];
        cbn [relu map_elt shape]; rewrite Hs; exact Hb
    end.
Qed.

Lemma bottleneck_output_witness :
  exists y,
    Bottleneck.forward toy_bottleneck toy_image = Ok y
    /\ (forall idx, (0 <= elt y idx)%R)
    /\ (Bottleneck.downsample toy_bottleneck = None ->
        broadcast_shapes (shape y) (shape toy_image) = Ok (shape y)).
Proof.
  eexists. split; [reflexivity|].
  apply (bottleneck_output toy_bottleneck toy_image). reflexivity.
Defined.

(** ** Attention pooling *)

Lemma rsum_ext (n : nat) (f g : nat -> R) :
  (forall i, i < n -> f i = g i) -> rsum n f = rsum n g.
Proof.
  intros H. unfold rsum. f_equal. apply map_ext_in.
  intros i Hi. apply in_seq in Hi. apply H. lia.
Qed.

(** a position of the flattened [H * W] grid, back in the feature map *)
Lemma unravel_ravel_position (N C H W b c i : nat) :
  c < C -> i < H * W ->
  unravel [N; C; H; W] (ravel [N; C; H * W] [b; c; i]) = [b; c; i / W; i mod W].
Proof.
  intros Hc Hi.
  assert (HW : W <> 0) by (intros ->; lia).
  cbn [ravel unravel numel fold_right].
  rewrite !Nat.mul_1_r, Nat.add_0_r, Nat.div_1_r.
  set (K := H * W) in *.
  assert (Hr : c * K + i < C * K) by nia.
  assert (E1 : (b * (C * K) + (c * K + i)) / (C * K) = b).
  { symmetry. apply (Nat.div_unique _ _ b (c * K + i)); [exact Hr | lia]. }
  assert (E2 : (b * (C * K) + (c * K + i)) mod (C * K) = c * K + i).
  { symmetry. apply (Nat.mod_unique _ _ b (c * K + i)); [exact Hr | lia]. }
  rewrite E1, E2.
  assert (E3 : (c * K + i) / K = c).
  { symmetry. apply (Nat.div_unique _ _ c i); [exact Hi | lia]. }
  assert (E4 : (c * K + i) mod K = i).
  { symmetry. apply (Nat.mod_unique _ _ c i); [exact Hi | lia]. }
  rewrite E3, E4. reflexivity.
Qed.

(** the summary token and the positions, flattened: the tensor that gets the
    positional embedding added *)
Lemma attnpool_tokens (x : tensor R) (N C H W : nat) :
  shape x = [N; C; H; W] -> 1 <= H * W ->
  exists t,
    (s0 <- shape_at x 0 ;;
     s1 <- shape_at x 1 ;;
     s2 <- shape_at x 2 ;;
     s3 <- shape_at x 3 ;;
     x <- reshape [s0; s1; s2 * s3] x ;;
     x <- permute [2; 0; 1] x ;;
     m <- mean_dim0_keepdim x ;;
     cat 0 m x) = Ok t
    /\ shape t = [H * W + 1; N; C]
    /\ forall b c, c < C ->
         elt t [0; b; c] = mean_position x W (H * W) b c
         /\ forall i, i < H * W ->
              elt t [S i; b; c] = elt x [b; c; i / W; i mod W].
Proof.
  intros Hx HHW. unfold shape_at. rewrite Hx. cbn [nth_error bind].
  unfold reshape. rewrite Hx.
  replace (numel [N; C; H * W] =? numel [N; C; H; W]) with true
    by (symmetry; apply Nat.eqb_eq; cbn [numel fold_right]; lia).
  cbn [bind]. unfold permute at 1, rank.
  cbn [shape List.length is_perm_of_range Nat.eqb andb seq forallb existsb orb
       map nth bind].
  unfold mean_dim0_keepdim. cbn [shape bind].
  erewrite (cat0_ok _ _ 1 (H * W) [N; C]); [| reflexivity | reflexivity | lia | lia].
  eexists. split; [reflexivity|]. cbn [shape]. split; [f_equal; lia|].
  intros b c Hc. cbn [elt nth Nat.ltb Nat.leb set_nth index_of Nat.eqb Nat.sub].
  split.
  - unfold mean_position. f_equal. apply rsum_ext. intros i Hi.
    rewrite (unravel_ravel_position N C H W b c i Hc Hi). reflexivity.
  - intros i Hi. rewrite Nat.sub_0_r.
    rewrite (unravel_ravel_position N C H W b c i Hc Hi). reflexivity.
Qed.




(** X23: attention pooling has its grid baked in.  For a feature map of shape
    [(N, C, H, W)] with at least one position and a positional embedding of
    [P] rows of width [C], where [P] is neither 1 nor [H * W + 1], [forward]
    raises when it adds the positional embedding, before any attention is
    computed. *)
Theorem attention_pool_grid_is_fixed (self : AttentionPool2d.t)
  (x : tensor R) (N C H W P : nat) :
  shape x = [N; C; H; W] -> 1 <= H * W ->
  shape (AttentionPool2d.positional_embedding self) = [P; C] ->
  P <> H * W + 1 -> P <> 1 ->
  exists msg, AttentionPool2d.forward self x = Raise (RuntimeError msg).
Proof.
  intros Hx HHW Hpos HP HP1.
  destruct (attnpool_tokens x N C H W Hx HHW) as (t & Ht & St & _).
  unfold AttentionPool2d.forward.
  unfold shape_at in *. rewrite Hx in *. cbn [nth_error bind] in *.
  apply bind_ok_inv in Ht. destruct Ht as (x1 & -> & Ht). cbn [bind].
  apply bind_ok_inv in Ht. destruct Ht as (x2 & -> & Ht). cbn [bind].
  apply bind_ok_inv in Ht. destruct Ht as (m & -> & Ht). cbn [bind].
  rewrite Ht. cbn [bind].
  unfold unsqueeze_mid. rewrite Hpos. cbn [bind].
  unfold add, binop. rewrite St. cbn [shape].
  unfold broadcast_shapes. cbn [rev app broadcast_rev].
  unfold broadcast_dim. rewrite Nat.eqb_refl. cbn [bind].
  assert (HN : (if N =? 1 then Ok N
                else if N =? 1 then Ok 1 else if 1 =? 1 then Ok N
                else Raise (RuntimeError
                  "The size of tensor a must match the size of tensor b"))
               = Ok N) by (destruct (N =? 1); reflexivity).
  rewrite HN. cbn [bind].
  destruct (H * W + 1 =? P) eqn:E1; [apply Nat.eqb_eq in E1; lia|].
  destruct (H * W + 1 =? 1) eqn:E2; [apply Nat.eqb_eq in E2; lia|].
  destruct (P =? 1) eqn:E3; [apply Nat.eqb_eq in E3; lia|].
  eexists. reflexivity.
Qed.


Lemma attention_pool_grid_is_fixed_witness :
  exists msg,
    AttentionPool2d.forward (toy_attnpool 10) toy_feature_map
    = Raise (RuntimeError msg).
Proof.
  apply (attention_pool_grid_is_fixed (toy_attnpool 10) toy_feature_map
           3 1 2 2 10); try reflexivity; lia.
Defined.

